(** * Ts3Proxy: the forwarding and lifecycle engine of [server.js]

    A shallow embedding of the route manager, the TCP/UDP listener start and
    stop paths and the UDP session relay of [server.js], followed by the
    properties of the engine that the specification states.

    The JavaScript runs on a single-threaded event loop: every function and
    every event handler below runs to completion before the next one, so each
    is a state transformer on a [World].  The world holds the two module
    variables ([config] and [activeServers]), the objects the closures share
    (listening sockets with their [clients] map, session sockets, pending
    timeouts) and the ordered trace of the calls made to the platform
    (sockets, timers, the file system and the log). *)

From Stdlib Require Import ZArith Bool Lia Ascii.
From stdpp Require Import base option list gmap strings pretty.

Open Scope string_scope.
Open Scope Z_scope.

(** ** JavaScript values held in route fields *)

(** The primitive values a route field can hold.  A number is an integer or
    [NaN] (what [parseInt] returns); object-valued fields are not modelled. *)
Inductive value : Type :=
| VUndefined
| VNull
| VBool (b : bool)
| VNum (n : Z)
| VNaN
| VStr (s : string).

(** [a === b] *)
Definition strict_eq (a b : value) : bool :=
  match a, b with
  | VUndefined, VUndefined => true
  | VNull, VNull => true
  | VBool x, VBool y => Bool.eqb x y
  | VNum x, VNum y => (x =? y)%Z
  | VStr x, VStr y => String.eqb x y
  | _, _ => false
  end.

(** Truthiness, as tested by [if (v)], [!v] and [v || d]. *)
Definition truthy (v : value) : bool :=
  match v with
  | VBool b => b
  | VNum n => negb (n =? 0)%Z
  | VStr s => negb (String.eqb s "")
  | VUndefined | VNull | VNaN => false
  end.

(** [a || b] *)
Definition js_or (a b : value) : value := if truthy a then a else b.

(** The conversion to string done by a template literal [`${v}`]. *)
Definition show (v : value) : string :=
  match v with
  | VUndefined => "undefined"
  | VNull => "null"
  | VBool true => "true"
  | VBool false => "false"
  | VNum n => pretty n
  | VNaN => "NaN"
  | VStr s => s
  end.

Definition upper_ascii (c : Ascii.ascii) : Ascii.ascii :=
  let n := Ascii.nat_of_ascii c in
  if ((97 <=? n)%nat && (n <=? 122)%nat)%bool then Ascii.ascii_of_nat (n - 32) else c.

Fixpoint upper (s : string) : string :=
  match s with
  | EmptyString => EmptyString
  | String c s' => String (upper_ascii c) (upper s')
  end.

(** ** Routes and active listeners *)

Record Endpoint : Type := mkEndpoint { host : value; port : value }.

(** A route object of [config.routes].  The object handed to [updateRoute]
    has no [name] property; there [name] is [VUndefined]. *)
Record Route : Type := mkRoute {
  name : value;
  protocol : value;
  listen : Endpoint;
  forward : Endpoint;
  enabled : value
}.

(** References to the platform objects stored in the [server] property of an
    [activeServers] entry, or compared with it.  [startTcpProxy] returns the
    [net.Server] itself; [startUdpProxy] returns the object literal
    [{ server: udpServer, clients }], which is neither a socket nor a server. *)
Inductive handle : Type :=
| NetServer (id : nat)
| DgramSocket (id : nat)
| UdpProxy (udpServer : nat).

Definition handle_eqb (a b : handle) : bool :=
  match a, b with
  | NetServer x, NetServer y => Nat.eqb x y
  | DgramSocket x, DgramSocket y => Nat.eqb x y
  | UdpProxy x, UdpProxy y => Nat.eqb x y
  | _, _ => false
  end.

(** An entry of the [activeServers] array. *)
Record Active : Type := mkActive {
  a_name : value;
  a_protocol : value;
  a_listen : Endpoint;
  a_forward : Endpoint;
  a_server : handle
}.

(** ** UDP sessions, timers and the object store *)

(** A value of the [clients] map: [{ socket: clientSocket, timeout }]. *)
Record Session : Type := mkSession { socket : nat; timeout : nat }.

(** The [clients] map of one UDP listener.  A JavaScript [Map] iterates in
    insertion order, which [stopAllProxies] relies on, so it is kept as an
    association list with [Map]'s update discipline. *)
Definition Clients : Type := list (string * Session).

Fixpoint clients_get (k : string) (m : Clients) : option Session :=
  match m with
  | [] => None
  | (k', s) :: m' => if String.eqb k' k then Some s else clients_get k m'
  end.

Definition clients_has (k : string) (m : Clients) : bool :=
  match clients_get k m with Some _ => true | None => false end.

Fixpoint clients_set (k : string) (s : Session) (m : Clients) : Clients :=
  match m with
  | [] => [(k, s)]
  | (k', s') :: m' =>
      if String.eqb k' k then (k', s) :: m' else (k', s') :: clients_set k s m'
  end.

Definition clients_delete (k : string) (m : Clients) : Clients :=
  List.filter (fun e => negb (String.eqb (fst e) k)) m.

(** The sender of a datagram, [rinfo]. *)
Record Rinfo : Type := mkRinfo { address : string; rport : Z }.

(** Objects created by the proxies that later events refer to, with what
    their handlers close over. *)
Inductive Obj : Type :=
| TcpListener (route : Route)
| UdpListener (route : Route) (clients : Clients)
| ClientSocket (udpServer : nat) (rinfo : Rinfo) (clientKey : string).

(** A pending [setTimeout] callback of the session relay.  The callback set
    when the session is created closes over [clientSocket] itself
    ([captured = Some _]); the one set on every later reset reads the socket
    from the [clients] map when it fires ([captured = None]). *)
Record Timer : Type := mkTimer {
  deadline : Z;
  t_server : nat;
  t_key : string;
  captured : option nat
}.

Inductive Level : Type := Info | Warn | Error.

(** Calls to the platform, in the order they are made. *)
Inductive Effect : Type :=
| Log (lvl : Level) (msg : string)
| WriteConfig (rs : list Route)
| CreateServer (id : nat)
| Listen (id : nat) (p h : value)
| CloseServer (id : nat)
| CreateSocket (id : nat)
| Bind (id : nat) (p h : value)
| CloseSocket (id : nat)
| Send (sock : nat) (msg : string) (p h : value)
| SetTimeout (t : nat) (delay : Z)
| ClearTimeout (t : nat).

Record World : Type := mkWorld {
  routes : list Route;          (* config.routes *)
  udpTimeout : Z;               (* config.udpTimeout, milliseconds *)
  activeServers : list Active;  (* let activeServers = [] *)
  objects : gmap nat Obj;       (* servers and sockets created so far *)
  open : gset nat;              (* those not closed yet *)
  timers : gmap nat Timer;      (* timeouts set and neither cleared nor fired *)
  next_id : nat;                (* next fresh object or timer identity *)
  now : Z;                      (* the clock, milliseconds *)
  trace : list Effect
}.

Definition set_routes (rs : list Route) (w : World) : World :=
  mkWorld rs (udpTimeout w) (activeServers w) (objects w) (open w) (timers w)
          (next_id w) (now w) (trace w).
Definition set_activeServers (l : list Active) (w : World) : World :=
  mkWorld (routes w) (udpTimeout w) l (objects w) (open w) (timers w)
          (next_id w) (now w) (trace w).
Definition set_objects (o : gmap nat Obj) (w : World) : World :=
  mkWorld (routes w) (udpTimeout w) (activeServers w) o (open w) (timers w)
          (next_id w) (now w) (trace w).
Definition set_open (o : gset nat) (w : World) : World :=
  mkWorld (routes w) (udpTimeout w) (activeServers w) (objects w) o (timers w)
          (next_id w) (now w) (trace w).
Definition set_timers (t : gmap nat Timer) (w : World) : World :=
  mkWorld (routes w) (udpTimeout w) (activeServers w) (objects w) (open w) t
          (next_id w) (now w) (trace w).
Definition set_next_id (n : nat) (w : World) : World :=
  mkWorld (routes w) (udpTimeout w) (activeServers w) (objects w) (open w)
          (timers w) n (now w) (trace w).
Definition set_now (t : Z) (w : World) : World :=
  mkWorld (routes w) (udpTimeout w) (activeServers w) (objects w) (open w)
          (timers w) (next_id w) t (trace w).
Definition set_trace (tr : list Effect) (w : World) : World :=
  mkWorld (routes w) (udpTimeout w) (activeServers w) (objects w) (open w)
          (timers w) (next_id w) (now w) tr.

(** ** Computations: state, and exceptions that keep the state *)

Inductive Outcome (A : Type) : Type :=
| Returned (a : A)
| Thrown (err : string).
Arguments Returned {A} a.
Arguments Thrown {A} err.

Definition M (A : Type) : Type := World -> Outcome A * World.

Definition ret {A} (a : A) : M A := fun w => (Returned a, w).

Definition bind {A B} (m : M A) (k : A -> M B) : M B :=
  fun w => match m w with
           | (Returned a, w') => k a w'
           | (Thrown e, w') => (Thrown e, w')
           end.

Definition throw {A} (e : string) : M A := fun w => (Thrown e, w).

(** [try { body } catch (err) { handler }] *)
Definition try_catch {A} (body : M A) (handler : string -> M A) : M A :=
  fun w => match body w with
           | (Returned a, w') => (Returned a, w')
           | (Thrown e, w') => handler e w'
           end.

Definition gets {A} (f : World -> A) : M A := fun w => (Returned (f w), w).
Definition modify (f : World -> World) : M unit := fun w => (Returned tt, f w).

Declare Scope js_scope.
Delimit Scope js_scope with js.
Notation "x <- m ;; k" := (bind m (fun x => k))
  (at level 100, m at next level, right associativity) : js_scope.
Notation "m ;; k" := (bind m (fun _ => k))
  (at level 100, right associativity) : js_scope.
Open Scope js_scope.

Definition emit (e : Effect) : M unit :=
  modify (fun w => set_trace (trace w ++ [e]) w).

(** A fresh identity for an object or a timer. *)
Definition fresh : M nat :=
  fun w => (Returned (next_id w), set_next_id (S (next_id w)) w).

(** ** The platform *)

(** What the code cannot decide by itself: the path of the configuration
    file, and which platform calls throw synchronously (the code wraps each
    of them in [try]).  A [Some msg] is the [err.message] of the exception.
    An address being already bound is not reported this way but later, by an
    ['error'] event (see [tcpServer_on_error] and [udpServer_on_error]).
    [socket.send] checks its port and its host before anything else: which
    numbers are ports is fixed ([valid_port] below); which strings are, the
    platform's reading of a string as a number decides ([string_port]); the
    text of the error differs between versions of the platform
    ([send_error]). *)
Record Runtime : Type := mkRuntime {
  CONFIG_FILE : string;
  write_error : list Route -> option string;     (* fs.writeFileSync *)
  listen_error : value -> value -> option string; (* tcpServer.listen(port, host) *)
  socket_error : nat -> option string;           (* dgram.createSocket, by the identity it would get *)
  bind_error : value -> value -> option string;  (* udpServer.bind(port, host) *)
  string_port : string -> bool;                  (* socket.send: the string is not blank and reads as an integer from 0 to 65535 *)
  send_error : value -> value -> string          (* socket.send(msg, port, host): err.message for a port or host it rejects *)
}.

Section Engine.

Variable rt : Runtime.

(** [log(level, message)]: the call is recorded; filtering by level and the
    sinks belong to the logging collaborator. *)
Definition log (level : Level) (message : string) : M unit :=
  emit (Log level message).

Definition register (id : nat) (o : Obj) : M unit :=
  modify (fun w => set_objects (<[id := o]> (objects w)) w).

Definition mark_open (id : nat) : M unit :=
  modify (fun w => set_open ({[id]} ∪ open w) w).

Definition mark_closed (id : nat) : M unit :=
  modify (fun w => set_open (open w ∖ {[id]}) w).

Definition is_open (id : nat) : M bool :=
  gets (fun w => bool_decide (id ∈ open w)).

(** [net.createServer(handler)]: the handler closes over [route]. *)
Definition createServer (route : Route) : M nat :=
  id <- fresh ;;
  emit (CreateServer id) ;;
  register id (TcpListener route) ;;
  ret id.

(** [tcpServer.listen(port, host, cb)] *)
Definition tcp_listen (id : nat) (p h : value) : M unit :=
  match listen_error rt p h with
  | Some err => throw err
  | None => emit (Listen id p h) ;; mark_open id
  end.

(** [tcpServer.close()]: never throws. *)
Definition closeServer (id : nat) : M unit :=
  emit (CloseServer id) ;; mark_closed id.

(** [dgram.createSocket('udp4')] *)
Definition createSocket (o : nat -> Obj) : M nat :=
  n <- gets next_id ;;
  match socket_error rt n with
  | Some err => throw err
  | None =>
      id <- fresh ;;
      emit (CreateSocket id) ;;
      register id (o id) ;;
      mark_open id ;;
      ret id
  end.

(** [udpServer.bind(port, host)] *)
Definition udp_bind (id : nat) (p h : value) : M unit :=
  match bind_error rt p h with
  | Some err => throw err
  | None => emit (Bind id p h)
  end.

(** [socket.close()] of a [dgram] socket: throws once the socket is closed. *)
Definition closeSocket (id : nat) : M unit :=
  o <- is_open id ;;
  if o then emit (CloseSocket id) ;; mark_closed id
  else throw "Not running".

(** The check of [socket.send] on its port, [validatePort(port, 'Port',
    false)]: a number has to be an integer from 1 to 65535, a string has to
    read as an integer from 0 to 65535; [NaN], [undefined], [null] and the
    booleans are no ports. *)
Definition valid_port (p : value) : bool :=
  match p with
  | VNum n => ((0 <? n) && (n <=? 65535))%bool
  | VStr s => string_port rt s
  | _ => false
  end.

(** ... and on its host: a string, or none at all. *)
Definition valid_address (h : value) : bool :=
  match h with
  | VStr _ | VUndefined | VNull => true
  | _ => false
  end.

(** [socket.send(msg, port, host, cb)] of a [dgram] socket: the port and
    the host are checked first, then that the socket is not closed; each
    failure is an exception thrown by the call, and nothing is sent. *)
Definition socket_send (id : nat) (msg : string) (p h : value) : M unit :=
  if negb (valid_port p) || negb (valid_address h) then throw (send_error rt p h)
  else
    o <- is_open id ;;
    if o then emit (Send id msg p h) else throw "Not running".

(** The delay a timer runs with: the platform takes a delay from 1 to
    [TIMEOUT_MAX] milliseconds as it is given, and runs any other as 1. *)
Definition TIMEOUT_MAX : Z := 2147483647.

Definition timer_delay (delay : Z) : Z :=
  if ((1 <=? delay) && (delay <=? TIMEOUT_MAX))%bool then delay else 1.

(** [setTimeout(cb, delay)]; [cb] is described by the listener, the client
    key and the socket it closes over. *)
Definition setTimeout (srv : nat) (key : string) (cap : option nat) (delay : Z)
  : M nat :=
  t <- fresh ;;
  emit (SetTimeout t delay) ;;
  modify (fun w =>
    set_timers (<[t := mkTimer (now w + timer_delay delay) srv key cap]> (timers w)) w) ;;
  ret t.

(** [clearTimeout(t)] *)
Definition clearTimeout (t : nat) : M unit :=
  emit (ClearTimeout t) ;;
  modify (fun w => set_timers (delete t (timers w)) w).

(** [x.close()] where [x] is the [server] property of an [activeServers]
    entry.  The object literal returned by [startUdpProxy] has no [close]
    property, so calling it throws a [TypeError]. *)
Definition close_method (expr : string) (h : handle) : M unit :=
  match h with
  | NetServer id => closeServer id
  | DgramSocket id => closeSocket id
  | UdpProxy _ => throw (expr +:+ ".close is not a function")
  end.

(** [v.toUpperCase()] *)
Definition toUpperCase (expr : string) (v : value) : M string :=
  match v with
  | VStr s => ret (upper s)
  | _ => throw (expr +:+ ".toUpperCase is not a function")
  end.

(** ** saveConfig *)

Definition saveConfig : M bool :=
  try_catch
    (rs <- gets routes ;;
     match write_error rt rs with
     | Some err => throw err
     | None => emit (WriteConfig rs)
     end ;;
     log Info ("Config saved to " +:+ CONFIG_FILE rt) ;;
     ret true)
    (fun err =>
       log Error ("Failed to save config: " +:+ err) ;;
       ret false).

(** ** startTcpProxy *)

Definition tcp_collision (route : Route) (existingRoute : Active) : bool :=
  strict_eq (a_protocol existingRoute) (VStr "tcp") &&
  strict_eq (port (a_listen existingRoute)) (port (listen route)) &&
  strict_eq (host (a_listen existingRoute)) (host (listen route)).

Definition startTcpProxy (route : Route) : M (option handle) :=
  act <- gets activeServers ;;
  if existsb (tcp_collision route) act then
    log Warn ("TCP proxy for " +:+ show (name route) +:+
              " cannot start: Address already in use") ;;
    ret None
  else
    try_catch
      (tcpServer <- createServer route ;;
       tcp_listen tcpServer (port (listen route)) (host (listen route)) ;;
       ret (Some (NetServer tcpServer)))
      (fun err =>
         log Error ("[" +:+ show (name route) +:+
                    "] Failed to start TCP proxy: " +:+ err) ;;
         ret None).

(** [tcpServer.on('error', ...)]: the handler of the server [tcpServer]
    started for [route]. *)
Definition tcpServer_on_error (tcpServer : nat) (err : string) : M unit :=
  o <- gets (fun w => objects w !! tcpServer) ;;
  match o with
  | Some (TcpListener route) =>
      log Error ("[" +:+ show (name route) +:+ "] TCP server error: " +:+ err) ;;
      modify (fun w =>
        set_activeServers
          (List.filter (fun s => negb (handle_eqb (a_server s) (NetServer tcpServer)))
                       (activeServers w)) w)
  | _ => ret tt
  end.

(** ** startUdpProxy *)

Definition udp_collision (route : Route) (existingRoute : Active) : bool :=
  strict_eq (a_protocol existingRoute) (VStr "udp") &&
  strict_eq (port (a_listen existingRoute)) (port (listen route)) &&
  strict_eq (host (a_listen existingRoute)) (host (listen route)).

Definition startUdpProxy (route : Route) : M (option handle) :=
  act <- gets activeServers ;;
  if existsb (udp_collision route) act then
    log Warn ("UDP proxy for " +:+ show (name route) +:+
              " cannot start: Address already in use") ;;
    ret None
  else
    try_catch
      (udpServer <- createSocket (fun _ => UdpListener route []) ;;
       try_catch
         (udp_bind udpServer (port (listen route)) (host (listen route)) ;;
          ret (Some (UdpProxy udpServer)))
         (fun err =>
            log Error ("[" +:+ show (name route) +:+
                       "] Failed to bind UDP server: " +:+ err) ;;
            ret None))
      (fun err =>
         log Error ("[" +:+ show (name route) +:+
                    "] Failed to start UDP proxy: " +:+ err) ;;
         ret None).

(** ** The UDP session relay *)

(** [`${rinfo.address}:${rinfo.port}`] *)
Definition clientKey_of (rinfo : Rinfo) : string :=
  address rinfo +:+ ":" +:+ pretty (rport rinfo).

(** [`${config.udpTimeout/1000}`]: the quotient has at most three decimals. *)
Definition seconds (ms : Z) : string :=
  let q := Z.quot (Z.abs ms) 1000 in
  let r := Z.rem (Z.abs ms) 1000 in
  let d1 := pretty (r / 100) in
  let d2 := pretty (r / 10 mod 10) in
  let d3 := pretty (r mod 10) in
  (if ms <? 0 then "-" else "") +:+ pretty q +:+
  (if r =? 0 then ""
   else if negb (r mod 10 =? 0) then "." +:+ d1 +:+ d2 +:+ d3
   else if negb (r / 10 mod 10 =? 0) then "." +:+ d1 +:+ d2
   else "." +:+ d1).

(** The [clients] map of the listener [udpServer]; the map is one object
    shared by the message handler, the timer callbacks and the
    [activeServers] entry. *)
Definition clients_of (udpServer : nat) (w : World) : Clients :=
  match objects w !! udpServer with
  | Some (UdpListener _ c) => c
  | _ => []
  end.

Definition update_clients (udpServer : nat) (f : Clients -> Clients) : M unit :=
  modify (fun w =>
    set_objects
      (alter (fun o => match o with
                       | UdpListener r c => UdpListener r (f c)
                       | _ => o
                       end) udpServer (objects w)) w).

Definition timed_out_message (route : Route) (clientKey : string) (ms : Z) : string :=
  "[" +:+ show (name route) +:+ "] UDP client " +:+ clientKey +:+
  " timed out after " +:+ seconds ms +:+ " seconds of inactivity".

(** [udpServer.on('message', (message, rinfo) => ...)]: a datagram from a
    client arrives on the listening socket. *)
Definition udpServer_on_message (udpServer : nat) (message : string) (rinfo : Rinfo)
  : M unit :=
  o <- gets (fun w => objects w !! udpServer) ;;
  match o with
  | Some (UdpListener route _) =>
      let clientKey := clientKey_of rinfo in
      known <- gets (fun w => clients_has clientKey (clients_of udpServer w)) ;;
      go_on <-
        (if negb known then
           log Info ("[" +:+ show (name route) +:+ "] UDP client connected: " +:+ clientKey) ;;
           try_catch
             (clientSocket <- createSocket (fun _ => ClientSocket udpServer rinfo clientKey) ;;
              delay <- gets udpTimeout ;;
              timeout <- setTimeout udpServer clientKey (Some clientSocket) delay ;;
              update_clients udpServer (clients_set clientKey (mkSession clientSocket timeout)) ;;
              ret true)
             (fun err =>
                log Error ("[" +:+ show (name route) +:+
                           "] Failed to create UDP client socket: " +:+ err) ;;
                ret false)
         else ret true) ;;
      if go_on then
        c <- gets (fun w => clients_get clientKey (clients_of udpServer w)) ;;
        match c with
        | Some client =>
            clearTimeout (timeout client) ;;
            delay <- gets udpTimeout ;;
            t <- setTimeout udpServer clientKey None delay ;;
            update_clients udpServer (clients_set clientKey (mkSession (socket client) t)) ;;
            try_catch
              (socket_send (socket client) message (port (forward route)) (host (forward route)))
              (fun err =>
                 log Error ("[" +:+ show (name route) +:+ "] UDP send error: " +:+ err))
        | None => ret tt
        end
      else ret tt
  | _ => ret tt
  end.

(** [clientSocket.on('message', (forwardedMessage, forwardedRinfo) => ...)]:
    a datagram from the backend arrives on a session's own socket.  The send
    on the listening socket is not inside a [try]. *)
Definition clientSocket_on_message (clientSocket : nat) (forwardedMessage : string)
  : M unit :=
  o <- gets (fun w => objects w !! clientSocket) ;;
  match o with
  | Some (ClientSocket udpServer rinfo _) =>
      socket_send udpServer forwardedMessage (VNum (rport rinfo)) (VStr (address rinfo))
  | _ => ret tt
  end.

(** [clientSocket.on('error', ...)] *)
Definition clientSocket_on_error (clientSocket : nat) (err : string) : M unit :=
  o <- gets (fun w => objects w !! clientSocket) ;;
  match o with
  | Some (ClientSocket udpServer _ clientKey) =>
      r <- gets (fun w => objects w !! udpServer) ;;
      match r with
      | Some (UdpListener route _) =>
          log Error ("[" +:+ show (name route) +:+ "] UDP client socket error for " +:+
                     clientKey +:+ ": " +:+ err) ;;
          closeSocket clientSocket ;;
          update_clients udpServer (clients_delete clientKey)
      | _ => ret tt
      end
  | _ => ret tt
  end.

(** The callback of the pending timeout [t] runs; the event loop does so
    only once its delay has elapsed. *)
Definition timeout_fires (t : nat) : M unit :=
  tm <- gets (fun w => timers w !! t) ;;
  time <- gets now ;;
  match tm with
  | Some tm =>
      if deadline tm <=? time then
        modify (fun w => set_timers (delete t (timers w)) w) ;;
        r <- gets (fun w => objects w !! t_server tm) ;;
        c <- gets (fun w => clients_get (t_key tm) (clients_of (t_server tm) w)) ;;
        match r, c with
        | Some (UdpListener route _), Some client =>
            ms <- gets udpTimeout ;;
            log Info (timed_out_message route (t_key tm) ms) ;;
            closeSocket (match captured tm with
                         | Some clientSocket => clientSocket
                         | None => socket client
                         end) ;;
            update_clients (t_server tm) (clients_delete (t_key tm))
        | _, _ => ret tt
        end
      else ret tt
  | None => ret tt
  end.

(** Time passes. *)
Definition advance (ms : Z) : M unit :=
  modify (fun w => set_now (now w + ms) w).

(** [udpServer.on('error', ...)] *)
Definition udpServer_on_error (udpServer : nat) (err : string) : M unit :=
  o <- gets (fun w => objects w !! udpServer) ;;
  match o with
  | Some (UdpListener route _) =>
      log Error ("[" +:+ show (name route) +:+ "] UDP server error: " +:+ err) ;;
      try_catch
        (closeSocket udpServer)
        (fun closeErr =>
           log Error ("[" +:+ show (name route) +:+ "] Error closing UDP server: " +:+ closeErr)) ;;
      modify (fun w =>
        set_activeServers
          (List.filter (fun s => negb (handle_eqb (a_server s) (DgramSocket udpServer)))
                       (activeServers w)) w)
  | _ => ret tt
  end.

(** ** stopAllProxies *)

(** [server.server.clients]: only the object returned by [startUdpProxy]
    has the property. *)
Definition server_clients (h : handle) (w : World) : option Clients :=
  match h with
  | UdpProxy udpServer => Some (clients_of udpServer w)
  | _ => None
  end.

Fixpoint close_clients (cs : Clients) : M unit :=
  match cs with
  | [] => ret tt
  | (clientKey, client) :: rest =>
      clearTimeout (timeout client) ;;
      closeSocket (socket client) ;;
      close_clients rest
  end.

(** The body of the loop of [stopAllProxies]. *)
Definition stop_server (server : Active) : M unit :=
  try_catch
    ((if strict_eq (a_protocol server) (VStr "tcp") then
        close_method "server.server" (a_server server)
      else if strict_eq (a_protocol server) (VStr "udp") then
        cs <- gets (server_clients (a_server server)) ;;
        match cs with
        | Some cs => close_clients cs
        | None => ret tt
        end ;;
        close_method "server.server" (a_server server)
      else ret tt) ;;
     p <- toUpperCase "server.protocol" (a_protocol server) ;;
     log Info ("Stopped " +:+ p +:+ " proxy " +:+ show (a_name server)))
    (fun err =>
       p <- toUpperCase "server.protocol" (a_protocol server) ;;
       log Error ("Failed to stop " +:+ p +:+ " proxy " +:+ show (a_name server) +:+
                  ": " +:+ err)).

Fixpoint stop_servers (l : list Active) : M unit :=
  match l with
  | [] => ret tt
  | server :: rest => stop_server server ;; stop_servers rest
  end.

Definition stopAllProxies : M unit :=
  act <- gets activeServers ;;
  stop_servers act ;;
  modify (set_activeServers []).

(** ** Starting one route *)

(** The block [let server = null; if (route.protocol === 'tcp') ... else if
    (route.protocol === 'udp') ...] that [startAllProxies], [addRoute],
    [updateRoute] and [toggleRoute] each contain. *)
Definition startProxy (route : Route) : M (option handle) :=
  if strict_eq (protocol route) (VStr "tcp") then startTcpProxy route
  else if strict_eq (protocol route) (VStr "udp") then startUdpProxy route
  else ret None.

(** The block above followed by [if (server) activeServers.push({ name,
    protocol, listen, forward, server })]; [entryName] is the [name] pushed. *)
Definition start_and_push (entryName : value) (route : Route) : M unit :=
  server <- startProxy route ;;
  match server with
  | Some server =>
      modify (fun w =>
        set_activeServers
          (activeServers w ++
           [mkActive entryName (protocol route) (listen route) (forward route) server]) w)
  | None => ret tt
  end.

(** ** startAllProxies *)

Definition start_route (route : Route) : M unit :=
  if truthy (enabled route) then start_and_push (name route) route else ret tt.

Fixpoint start_routes (rs : list Route) : M unit :=
  match rs with
  | [] => ret tt
  | route :: rest => start_route route ;; start_routes rest
  end.

Definition startAllProxies : M unit :=
  stopAllProxies ;;
  rs <- gets routes ;;
  start_routes rs ;;
  n <- gets (fun w => length (activeServers w)) ;;
  log Info ("Started " +:+ pretty n +:+ " proxies").

(** ** routeManager *)

Record Result : Type := mkResult { success : bool; message : string }.

(** [config.routes.findIndex(r => r.name === routeName)]; [None] is [-1]. *)
Fixpoint findIndex (routeName : value) (rs : list Route) : option nat :=
  match rs with
  | [] => None
  | r :: rest =>
      if strict_eq (name r) routeName then Some 0%nat
      else option_map S (findIndex routeName rest)
  end.

(** [activeServers.find(s => s.name === routeName)] *)
Definition find_active (routeName : value) (w : World) : option Active :=
  List.find (fun s => strict_eq (a_name s) routeName) (activeServers w).

(** The [try] block with which [removeRoute], [updateRoute] and
    [toggleRoute] stop the listener they found. *)
Definition stop_active (routeName : value) (activeServer : Active) : M unit :=
  try_catch
    ((if strict_eq (a_protocol activeServer) (VStr "tcp") then
        close_method "activeServer.server" (a_server activeServer)
      else if strict_eq (a_protocol activeServer) (VStr "udp") then
        close_method "activeServer.server" (a_server activeServer)
      else ret tt) ;;
     modify (fun w =>
       set_activeServers
         (List.filter (fun s => negb (strict_eq (a_name s) routeName))
                      (activeServers w)) w))
    (fun err =>
       log Error ("Failed to stop server for route " +:+ show routeName +:+
                  ": " +:+ err)).

Definition addRoute (routeConfig : Route) : M Result :=
  rs <- gets routes ;;
  match List.find (fun r => strict_eq (name r) (name routeConfig)) rs with
  | Some existingRoute =>
      ret (mkResult false ("Route with name " +:+ show (name routeConfig) +:+
                           " already exists"))
  | None =>
      modify (fun w => set_routes (routes w ++ [routeConfig]) w) ;;
      saveConfig ;;
      (if truthy (enabled routeConfig)
       then start_and_push (name routeConfig) routeConfig
       else ret tt) ;;
      ret (mkResult true ("Route " +:+ show (name routeConfig) +:+
                          " added successfully"))
  end.

Definition removeRoute (routeName : value) : M Result :=
  rs <- gets routes ;;
  match findIndex routeName rs with
  | None => ret (mkResult false ("Route " +:+ show routeName +:+ " not found"))
  | Some routeIndex =>
      activeServer <- gets (find_active routeName) ;;
      match activeServer with
      | Some activeServer => stop_active routeName activeServer
      | None => ret tt
      end ;;
      modify (fun w => set_routes (delete routeIndex (routes w)) w) ;;
      saveConfig ;;
      ret (mkResult true ("Route " +:+ show routeName +:+ " removed successfully"))
  end.

(** [{ ...routeConfig, name: routeName }] *)
Definition with_name (routeConfig : Route) (routeName : value) : Route :=
  mkRoute routeName (protocol routeConfig) (listen routeConfig)
          (forward routeConfig) (enabled routeConfig).

Definition updateRoute (routeName : value) (routeConfig : Route) : M Result :=
  rs <- gets routes ;;
  match findIndex routeName rs with
  | None => ret (mkResult false ("Route " +:+ show routeName +:+ " not found"))
  | Some routeIndex =>
      modify (fun w =>
        set_routes (<[routeIndex := with_name routeConfig routeName]> (routes w)) w) ;;
      saveConfig ;;
      activeServer <- gets (find_active routeName) ;;
      match activeServer with
      | Some activeServer => stop_active routeName activeServer
      | None => ret tt
      end ;;
      (if truthy (enabled routeConfig)
       then start_and_push routeName routeConfig
       else ret tt) ;;
      ret (mkResult true ("Route " +:+ show routeName +:+ " updated successfully"))
  end.

(** [route.enabled = !route.enabled] *)
Definition flip_enabled (r : Route) : Route :=
  mkRoute (name r) (protocol r) (listen r) (forward r)
          (VBool (negb (truthy (enabled r)))).

Definition toggleRoute (routeName : value) : M Result :=
  rs <- gets routes ;;
  match findIndex routeName rs with
  | None => ret (mkResult false ("Route " +:+ show routeName +:+ " not found"))
  | Some routeIndex =>
      modify (fun w => set_routes (alter flip_enabled routeIndex (routes w)) w) ;;
      saveConfig ;;
      route <- gets (fun w => routes w !! routeIndex) ;;
      activeServer <- gets (find_active routeName) ;;
      match route, activeServer with
      | Some route, None =>
          if truthy (enabled route) then
            start_and_push routeName route ;;
            ret (mkResult true ("Route " +:+ show routeName +:+ " enabled"))
          else
            ret (mkResult true ("Route " +:+ show routeName +:+ " status unchanged"))
      | Some route, Some activeServer =>
          if negb (truthy (enabled route)) then
            stop_active routeName activeServer ;;
            ret (mkResult true ("Route " +:+ show routeName +:+ " disabled"))
          else
            ret (mkResult true ("Route " +:+ show routeName +:+ " status unchanged"))
      | None, _ => throw "Cannot read properties of undefined"
      end
  end.

(** [getAllRoutes]: each route with its derived [active] flag. *)
Definition getAllRoutes : M (list (Route * bool)) :=
  gets (fun w =>
    map (fun route =>
           (route, existsb (fun s => strict_eq (a_name s) (name route)) (activeServers w)))
        (routes w)).

(** ** The control-plane boundary: the POST and PUT branches of
    [handleApiRequest] *)

(** A property of the parsed request body that the handler reads [host] and
    [port] from: an object with these two properties, or a primitive. *)
Inductive Field : Type :=
| FPrim (v : value)
| FObj (h p : value).

Definition field_truthy (f : Field) : bool :=
  match f with
  | FPrim v => truthy v
  | FObj _ _ => true
  end.

(** [f.host] and [f.port]: reading a property of [undefined] or [null]
    throws, of another primitive gives [undefined]. *)
Definition get_host (f : Field) : M value :=
  match f with
  | FObj h _ => ret h
  | FPrim VUndefined | FPrim VNull => throw "Cannot read properties of undefined"
  | FPrim _ => ret VUndefined
  end.

Definition get_port (f : Field) : M value :=
  match f with
  | FObj _ p => ret p
  | FPrim VUndefined | FPrim VNull => throw "Cannot read properties of undefined"
  | FPrim _ => ret VUndefined
  end.

(** The parsed body [data] when it is an object, by the properties that the
    handler reads.  ([Parsed] below has the other values of JSON.) *)
Record Request : Type := mkRequest {
  d_name : value;
  d_protocol : value;
  d_listen : Field;
  d_forward : Field;
  d_enabled : value
}.

Record Response : Type := mkResponse { statusCode : nat; body : Result }.

(** [parseInt] is the platform's. *)
Variable parseInt : value -> value.

(** The object literal passed to [addRoute] and [updateRoute]; the latter
    has no [name]. *)
Definition route_literal (nm : value) (data : Request) : M Route :=
  lh <- get_host (d_listen data) ;;
  lp <- get_port (d_listen data) ;;
  fh <- get_host (d_forward data) ;;
  fp <- get_port (d_forward data) ;;
  ret (mkRoute nm (d_protocol data)
               (mkEndpoint (js_or lh (VStr "0.0.0.0")) (parseInt lp))
               (mkEndpoint fh (parseInt fp))
               (VBool (negb (strict_eq (d_enabled data) (VBool false))))).

(** The [try ... catch] around the whole of [handleApiRequest]. *)
Definition api_guard (handler : M Response) : M Response :=
  try_catch handler
    (fun err =>
       log Error ("API error: " +:+ err) ;;
       ret (mkResponse 500 (mkResult false "Internal server error"))).

(** [path === '/routes' && method === 'POST'] *)
Definition api_add_route (data : Request) : M Response :=
  api_guard
    (if negb (truthy (d_name data)) || negb (truthy (d_protocol data)) ||
        negb (field_truthy (d_listen data)) || negb (field_truthy (d_forward data))
     then ret (mkResponse 400 (mkResult false "Missing required fields"))
     else
       routeConfig <- route_literal (d_name data) data ;;
       result <- addRoute routeConfig ;;
       ret (mkResponse (if success result then 201 else 400) result)).

(** [path.startsWith('/routes/') && method === 'PUT'], with
    [routeName = path.split('/')[2]]. *)
Definition api_update_route (routeName : string) (data : Request) : M Response :=
  api_guard
    (if negb (truthy (d_protocol data)) ||
        negb (field_truthy (d_listen data)) || negb (field_truthy (d_forward data))
     then ret (mkResponse 400 (mkResult false "Missing required fields"))
     else
       routeConfig <- route_literal VUndefined data ;;
       result <- updateRoute (VStr routeName) routeConfig ;;
       ret (mkResponse (if success result then 200 else 404) result)).

End Engine.

(** * The rest of the control plane *)

Section ControlPlane.

Variable rt : Runtime.

Variable parseInt : value -> value.

(** What [JSON.parse(body)] hands to [handleApiRequest] as [data]: [null],
    an object, or another value (a boolean, a number, a string, an array),
    on which none of the properties that the handler reads is defined. *)
Inductive Parsed : Type :=
| JNull
| JOther
| JObject (data : Request).

(** [data.<property>], for the first property that a branch reads: reading
    a property of [null] throws a [TypeError]. *)
Definition properties (data : Parsed) (property : string) : M Request :=
  match data with
  | JNull => throw ("Cannot read properties of null (reading '" +:+ property +:+ "')")
  | JOther =>
      ret (mkRequest VUndefined VUndefined (FPrim VUndefined) (FPrim VUndefined) VUndefined)
  | JObject data => ret data
  end.

(** What [handleApiRequest] passes to [res.end]: a result object, or the
    object [{ success: true, routes }] of the listing. *)
Inductive Body : Type :=
| BResult (result : Result)
| BRoutes (routes : list (Route * bool)).

Record Reply : Type := mkReply { status : nat; sent : Body }.

(** [s.endsWith(suffix)] *)
Fixpoint endsWith (suffix s : string) : bool :=
  String.eqb s suffix ||
  match s with
  | EmptyString => false
  | String _ s' => endsWith suffix s'
  end.

(** [s.split('/')] *)
Fixpoint split_slash (s : string) : list string :=
  match s with
  | EmptyString => [EmptyString]
  | String c s' =>
      if Ascii.eqb c "/"%char then EmptyString :: split_slash s'
      else match split_slash s' with
           | piece :: pieces => String c piece :: pieces
           | [] => [String c EmptyString]
           end
  end.

(** [path.split('/')[2]] *)
Definition routeName_of (path : string) : value :=
  match split_slash path !! 2%nat with
  | Some piece => VStr piece
  | None => VUndefined
  end.

(** [handleApiRequest(method, path, data, res)]; the reply is what is set
    on [res]. *)
Definition handleApiRequest (method path : string) (data : Parsed) : M Reply :=
  try_catch
    (if String.eqb path "/routes" && String.eqb method "GET" then
       routes <- getAllRoutes ;;
       ret (mkReply 200 (BRoutes routes))
     else if String.eqb path "/routes" && String.eqb method "POST" then
       data <- properties data "name" ;;
       if negb (truthy (d_name data)) || negb (truthy (d_protocol data)) ||
          negb (field_truthy (d_listen data)) || negb (field_truthy (d_forward data))
       then ret (mkReply 400 (BResult (mkResult false "Missing required fields")))
       else
         routeConfig <- route_literal parseInt (d_name data) data ;;
         result <- addRoute rt routeConfig ;;
         ret (mkReply (if success result then 201 else 400) (BResult result))
     else if String.prefix "/routes/" path && String.eqb method "PUT" then
       let routeName := routeName_of path in
       data <- properties data "protocol" ;;
       if negb (truthy (d_protocol data)) ||
          negb (field_truthy (d_listen data)) || negb (field_truthy (d_forward data))
       then ret (mkReply 400 (BResult (mkResult false "Missing required fields")))
       else
         routeConfig <- route_literal parseInt VUndefined data ;;
         result <- updateRoute rt routeName routeConfig ;;
         ret (mkReply (if success result then 200 else 404) (BResult result))
     else if String.prefix "/routes/" path && String.eqb method "DELETE" then
       let routeName := routeName_of path in
       result <- removeRoute rt routeName ;;
       ret (mkReply (if success result then 200 else 404) (BResult result))
     else if String.prefix "/routes/" path && endsWith "/toggle" path &&
             String.eqb method "POST" then
       let routeName := routeName_of path in
       result <- toggleRoute rt routeName ;;
       ret (mkReply (if success result then 200 else 404) (BResult result))
     else if String.eqb path "/restart" && String.eqb method "POST" then
       stopAllProxies ;;
       startAllProxies rt ;;
       ret (mkReply 200 (BResult (mkResult true "All proxies restarted")))
     else
       ret (mkReply 404 (BResult (mkResult false "Not found"))))
    (fun err =>
       log Error ("API error: " +:+ err) ;;
       ret (mkReply 500 (BResult (mkResult false "Internal server error")))).

End ControlPlane.

(** ** The filter of [log] *)

(** [config.logging], as far as [log] reads it before it prints. *)
Record Logging : Type := mkLogging { logging_enabled : value; logLevel : value }.

(** [logLevels[key]] as a number: the three levels have a rank; any other
    key gives [undefined] or a property inherited from [Object.prototype],
    neither of which is a number. *)
Definition logLevels (key : value) : option Z :=
  match key with
  | VStr "error" => Some 3
  | VStr "warn" => Some 2
  | VStr "info" => Some 1
  | _ => None
  end.

(** [a < b] on what [logLevels] gives: a comparison with what is not a
    number is false. *)
Definition js_lt (a b : option Z) : bool :=
  match a, b with
  | Some x, Some y => x <? y
  | _, _ => false
  end.

Definition level_key (level : Level) : value :=
  match level with
  | Info => VStr "info"
  | Warn => VStr "warn"
  | Error => VStr "error"
  end.

(** Whether [log(level, message)] gets past its two [return]s and prints. *)
Definition log_prints (logging : Logging) (level : Level) : bool :=
  if negb (truthy (logging_enabled logging)) then false
  else if js_lt (logLevels (level_key level)) (logLevels (logLevel logging)) then false
  else true.

(** * Sample worlds *)

(** The strings that [obliging] takes as ports: the runs of decimal digits
    that denote a number up to 65535. *)
Fixpoint decimal (s : string) (acc : Z) : option Z :=
  match s with
  | EmptyString => Some acc
  | String c s' =>
      let n := Z.of_nat (Ascii.nat_of_ascii c) in
      if ((48 <=? n) && (n <=? 57))%bool then decimal s' (acc * 10 + (n - 48)) else None
  end.

Definition decimal_port (s : string) : bool :=
  match s with
  | EmptyString => false
  | _ => match decimal s 0 with Some n => n <=? 65535 | None => false end
  end.

(** A platform on which no call throws, but for a [send] to what is no port
    or no host; the message is the one that a number that is no port gets. *)
Definition obliging : Runtime :=
  mkRuntime "proxy-config.json" (fun _ => None) (fun _ _ => None) (fun _ => None)
            (fun _ _ => None) decimal_port
            (fun p _ =>
               "Port should be > 0 and < 65536. Received type number (" +:+ show p +:+ ").").

Definition endpoint (h : string) (p : Z) : Endpoint := mkEndpoint (VStr h) (VNum p).

(** The world when the process starts with the route table [rs] and an idle
    timeout of thirty seconds. *)
Definition boot (rs : list Route) : World := mkWorld rs 30000 [] ∅ ∅ ∅ 0 0 [].

Definition after {A} (m : M A) (w : World) : World := snd (m w).

Definition voice : Route :=
  mkRoute (VStr "voice") (VStr "udp") (endpoint "0.0.0.0" 9987) (endpoint "10.0.0.1" 9987)
          (VBool true).

Definition query : Route :=
  mkRoute (VStr "query") (VStr "tcp") (endpoint "0.0.0.0" 10011) (endpoint "10.0.0.1" 10011)
          (VBool true).

(** A second TCP route on the address of [query]. *)
Definition mirror : Route :=
  mkRoute (VStr "mirror") (VStr "tcp") (endpoint "0.0.0.0" 10011) (endpoint "10.0.0.9" 10011)
          (VBool true).

(** A route of a protocol the engine does not know. *)
Definition relay : Route :=
  mkRoute (VStr "relay") (VStr "sctp") (endpoint "0.0.0.0" 5000) (endpoint "10.0.0.1" 5000)
          (VBool true).

Definition caller : Rinfo := mkRinfo "192.0.2.7" 50000.

(** [voice] (listening socket 0) and [query] (server 1) are running. *)
Definition running : World := after (startAllProxies obliging) (boot [voice; query]).

(** ... and [caller] has sent a first datagram: its session has the socket 2
    and the pending timer 4, due at 30000. *)
Definition in_session : World :=
  after (udpServer_on_message obliging 0 "ping" caller) running.

(** The backend answers twenty seconds after the client's datagram. *)
Definition answered : World :=
  after (clientSocket_on_message obliging 2 "pong") (after (advance 20000) in_session).

(** An idle timeout of fifty days, more than the platform takes as the
    delay of a timer: [voice] is running and [caller] has sent a datagram;
    its session has the socket 1 and the pending timer 3. *)
Definition fifty_days : Z := 4320000000.

Definition long_wait : World :=
  after (udpServer_on_message obliging 0 "ping" caller)
        (after (startAllProxies obliging) (mkWorld [voice] fifty_days [] ∅ ∅ ∅ 0 0 [])).

(** The replacement definition of [voice]: the same listen address, another
    forward target.  The object comes from the PUT handler and has no name. *)
Definition voice_moved : Route :=
  mkRoute VUndefined (VStr "udp") (endpoint "0.0.0.0" 9987) (endpoint "10.0.0.2" 9987)
          (VBool true).

(** [mirror] is enabled but not running: it was added while [query] held its
    address, and [query] has since been removed. *)
Definition stranded : World :=
  after (removeRoute obliging (VStr "query"))
        (after (addRoute obliging mirror) (after (addRoute obliging query) (boot []))).

(** [parse_int] below is the platform's [parseInt] on the primitives of this
    development: leading white space, a sign, an optional [0x] and the
    longest run of digits; [NaN] when there is no digit.  (Integers of
    twenty-two digits and more, which JavaScript prints with an exponent,
    are outside its range.) *)
Definition is_space (c : Ascii.ascii) : bool :=
  let n := Ascii.nat_of_ascii c in
  (Nat.eqb n 32 || ((9 <=? n)%nat && (n <=? 13)%nat))%bool.

Fixpoint skip_spaces (s : string) : string :=
  match s with
  | String c s' => if is_space c then skip_spaces s' else s
  | EmptyString => EmptyString
  end.

Definition digit_value (c : Ascii.ascii) : option Z :=
  let n := Z.of_nat (Ascii.nat_of_ascii c) in
  if ((48 <=? n) && (n <=? 57))%bool then Some (n - 48)
  else if ((97 <=? n) && (n <=? 122))%bool then Some (n - 87)
  else if ((65 <=? n) && (n <=? 90))%bool then Some (n - 55)
  else None.

Fixpoint read_digits (radix : Z) (s : string) (acc : option Z) : option Z :=
  match s with
  | EmptyString => acc
  | String c s' =>
      match digit_value c with
      | Some d =>
          if d <? radix
          then read_digits radix s'
                 (Some (match acc with Some a => a * radix + d | None => d end))
          else acc
      | None => acc
      end
  end.

Definition parse_string (s : string) : value :=
  let s := skip_spaces s in
  let '(negative, s) :=
    match s with
    | String "-"%char s' => (true, s')
    | String "+"%char s' => (false, s')
    | _ => (false, s)
    end in
  let '(radix, s) :=
    match s with
    | String "0"%char (String "x"%char s')
    | String "0"%char (String "X"%char s') => (16, s')
    | _ => (10, s)
    end in
  match read_digits radix s None with
  | Some n => VNum (if negative then - n else n)
  | None => VNaN
  end.

Definition parse_int (v : value) : value :=
  match v with
  | VNum n => VNum n
  | VStr s => parse_string s
  | _ => VNaN
  end.

(** A request body without [listen.host] and without [enabled]. *)
Definition bare_request : Request :=
  mkRequest (VStr "voice") (VStr "udp") (FObj VUndefined (VStr "9987"))
            (FObj (VStr "10.0.0.1") (VNum 9987)) VUndefined.

(** A request body with an empty [listen.host] and [enabled: false]. *)
Definition disabling_request : Request :=
  mkRequest VUndefined (VStr "tcp") (FObj (VStr "") (VNum 10011))
            (FObj (VStr "10.0.0.5") (VNum 10011)) (VBool false).

(** A platform whose disk is full: the configuration file cannot be written. *)
Definition full_disk : Runtime :=
  mkRuntime "proxy-config.json" (fun _ => Some "ENOSPC: no space left on device")
            (fun _ _ => None) (fun _ => None) (fun _ _ => None)
            (string_port obliging) (send_error obliging).

(** A platform that has run out of descriptors: no socket can be created. *)
Definition exhausted : Runtime :=
  mkRuntime "proxy-config.json" (fun _ => None) (fun _ _ => None)
            (fun _ => Some "socket EMFILE") (fun _ _ => None)
            (string_port obliging) (send_error obliging).

(** [voice] as a PUT without [forward.port] stores it: the forward port is
    [NaN].  [adrift_running] is the world where it is the running route,
    on the listening socket 0. *)
Definition adrift : Route :=
  mkRoute (VStr "voice") (VStr "udp") (endpoint "0.0.0.0" 9987)
          (mkEndpoint (VStr "10.0.0.1") VNaN) (VBool true).

Definition adrift_running : World := after (startAllProxies obliging) (boot [adrift]).

(** A client whose datagrams come from the port 0. *)
Definition portless : Rinfo := mkRinfo "192.0.2.9" 0.

(** A table where [mirror] asks for the address of [query], after a first
    [startAllProxies]: [query] (server 0) and [voice] (listening socket 1)
    are running. *)
Definition crowded : World :=
  after (startAllProxies obliging) (boot [query; mirror; voice]).

(** A second client of [voice]. *)
Definition second_caller : Rinfo := mkRinfo "198.51.100.4" 40000.

(** A TCP route on the host and port of [voice]. *)
Definition control : Route :=
  mkRoute (VStr "control") (VStr "tcp") (endpoint "0.0.0.0" 9987) (endpoint "10.0.0.1" 9988)
          (VBool true).

(** The replacement definition of [query]: the same listen address, another
    forward target. *)
Definition query_moved : Route :=
  mkRoute VUndefined (VStr "tcp") (endpoint "0.0.0.0" 10011) (endpoint "10.0.0.2" 10011)
          (VBool true).

(** The entries of [voice] and [query] in the active set of [running]. *)
Definition voice_entry : Active :=
  mkActive (VStr "voice") (VStr "udp") (listen voice) (forward voice) (UdpProxy 0).

Definition query_entry : Active :=
  mkActive (VStr "query") (VStr "tcp") (listen query) (forward query) (NetServer 1).

(** The idle timeout of the session of [caller] has elapsed. *)
Definition idle : World := after (advance 30000) in_session.

(** A request body that has neither [listen] nor [forward]. *)
Definition partial_request : Request :=
  mkRequest (VStr "voice") (VStr "udp") (FPrim VUndefined) (FPrim VUndefined) VUndefined.

(** Logging is on, from warnings up. *)
Definition warnings_up : Logging := mkLogging (VBool true) (VStr "warn").

(** * Properties of the engine *)

Section Properties.

Variable rt : Runtime.

Variable parseInt : value -> value.

(** ** Vocabulary of the statements *)

(** [w'] comes from [w] by creating objects, opening or closing handles,
    clearing timers and calling the platform: the route table, the
    configuration and the clock are those of [w], and the trace of [w] is a
    prefix of that of [w']. *)
Record extends (w w' : World) : Prop := mkExtends {
  ext_routes : routes w' = routes w;
  ext_udpTimeout : udpTimeout w' = udpTimeout w;
  ext_now : now w' = now w;
  ext_next_id : (next_id w <= next_id w')%nat;
  ext_trace : exists tl, trace w' = (trace w ++ tl)%list
}.

(** The listener that a successful start of [route] in [w] returns. *)
Definition started (route : Route) (w : World) (h : handle) : Prop :=
  (protocol route = VStr "tcp" /\ h = NetServer (next_id w) /\
   existsb (tcp_collision route) (activeServers w) = false /\
   listen_error rt (port (listen route)) (host (listen route)) = None) \/
  (protocol route = VStr "udp" /\ h = UdpProxy (next_id w) /\
   existsb (udp_collision route) (activeServers w) = false /\
   socket_error rt (next_id w) = None /\
   bind_error rt (port (listen route)) (host (listen route)) = None).

(** The protocol of an entry of the active set: the code pushes an entry
    only for a listener that [startTcpProxy] or [startUdpProxy] returned
    (see [well_formed_kept]). *)
Definition tcp_or_udp (a : Active) : Prop :=
  a_protocol a = VStr "tcp" \/ a_protocol a = VStr "udp".

(** An active listener holds the (protocol, host, port) that [route] asks for. *)
Definition collides (route : Route) (a : Active) : bool :=
  strict_eq (a_protocol a) (protocol route) &&
  strict_eq (port (a_listen a)) (port (listen route)) &&
  strict_eq (host (a_listen a)) (host (listen route)).

Definition same_address (a b : Active) : bool :=
  strict_eq (a_protocol a) (a_protocol b) &&
  strict_eq (port (a_listen a)) (port (a_listen b)) &&
  strict_eq (host (a_listen a)) (host (a_listen b)).

Definition one_per_address (act : list Active) : Prop :=
  forall i j a b,
    act !! i = Some a -> act !! j = Some b -> i <> j -> same_address a b = false.

(** [a] is the active-set entry of a listener started for [route]. *)
Definition runs (route : Route) (a : Active) : Prop :=
  a_name a = name route /\ a_protocol a = protocol route /\
  a_listen a = listen route /\ a_forward a = forward route.

Definition is_enabled (route : Route) : bool := truthy (enabled route).

(** Two routes ask for the same (protocol, host, port). *)
Definition same_listen (r1 r2 : Route) : bool :=
  strict_eq (protocol r1) (protocol r2) &&
  strict_eq (port (listen r1)) (port (listen r2)) &&
  strict_eq (host (listen r1)) (host (listen r2)).

(** The platform does not throw when a listener for [route] is set up. *)
Definition accepted (route : Route) : Prop :=
  (protocol route = VStr "tcp" /\
   listen_error rt (port (listen route)) (host (listen route)) = None) \/
  (protocol route = VStr "udp" /\ (forall n, socket_error rt n = None) /\
   bind_error rt (port (listen route)) (host (listen route)) = None).

(** The active set lists, in table order, enabled routes of [rs]. *)
Definition lists (rs : list Route) (act : list Active) : Prop :=
  exists started_routes,
    started_routes `sublist_of` List.filter is_enabled rs /\
    Forall2 runs started_routes act.

(** What the pass does when the turn of [route] comes, in the world [s]
    reached so far: a route that is not enabled is passed over; for an
    enabled one the start is attempted and, when it returns no listener, the
    active set stays as it is. *)
Definition turn (route : Route) (s s' : World) : Prop :=
  start_route rt route s = (Returned tt, s') /\
  if truthy (enabled route) then
    exists server s1,
      startProxy rt route s = (Returned server, s1) /\
      activeServers s' =
        match server with
        | Some h => (activeServers s ++
                     [mkActive (name route) (protocol route) (listen route)
                               (forward route) h])%list
        | None => activeServers s
        end
  else s' = s.

(** Platform calls that set a listener up. *)
Definition opens_listener (e : Effect) : bool :=
  match e with
  | CreateServer _ | Listen _ _ _ | CreateSocket _ | Bind _ _ _ => true
  | _ => false
  end.

(** From [w] to [w'] the trace grew, and by no call that sets a listener up. *)
Definition quiet (w w' : World) : Prop :=
  exists tl, trace w' = (trace w ++ tl)%list /\
             Forall (fun e => opens_listener e = false) tl.

Definition without_name (routeName : value) (act : list Active) : list Active :=
  List.filter (fun s => negb (strict_eq (a_name s) routeName)) act.

Definition other_protocol (route : Route) : Prop :=
  strict_eq (protocol route) (VStr "tcp") = false /\
  strict_eq (protocol route) (VStr "udp") = false.

(** The derived [active] flag of [getAllRoutes]. *)
Definition is_active (routeName : value) (w : World) : bool :=
  existsb (fun s => strict_eq (a_name s) routeName) (activeServers w).

(** The active set after [toggleRoute] found [route] (by now flipped) under
    [routeName] in [w]. *)
Definition toggled (routeName : value) (route : Route) (w : World) (act' : list Active)
  : Prop :=
  match find_active routeName w with
  | None =>
      if truthy (enabled route) then act' = activeServers w
      else
        (exists h, started route w h /\
           act' = (activeServers w ++
                   [mkActive routeName (protocol route) (listen route) (forward route) h])%list)
        \/ (~ (exists h, started route w h) /\ act' = activeServers w)
  | Some a =>
      if truthy (enabled route) then
        (act' = activeServers w \/ act' = without_name routeName (activeServers w)) /\
        ((exists id, a_server a = NetServer id) ->
         act' = without_name routeName (activeServers w))
      else act' = activeServers w
  end.

(** Between [w] and [w'] the idle timer of the session of [clientKey] at the
    listener [udpServer] was cancelled and a fresh one was started in its
    place, due when the delay that the platform makes of [udpTimeout] has
    passed. *)
Definition timer_reset (udpServer : nat) (clientKey : string) (w w' : World) : Prop :=
  exists client client' t,
    clients_get clientKey (clients_of udpServer w) = Some client /\
    clients_get clientKey (clients_of udpServer w') = Some client' /\
    socket client' = socket client /\
    timers w' = <[timeout client' := t]> (delete (timeout client) (timers w)) /\
    deadline t = now w + timer_delay (udpTimeout w) /\
    t_server t = udpServer /\ t_key t = clientKey.

(** [f.host] and [f.port] once [f] is known to be truthy. *)
Definition field_host (f : Field) : value :=
  match f with FObj h _ => h | FPrim _ => VUndefined end.

Definition field_port (f : Field) : value :=
  match f with FObj _ p => p | FPrim _ => VUndefined end.

(** How the stored route follows from the request: a missing or falsy
    [listen.host] becomes ["0.0.0.0"], and [enabled] is [false] exactly when
    the request says [false]. *)
Definition defaults_applied (data : Request) (routeConfig : Route) : Prop :=
  host (listen routeConfig) =
    (if truthy (field_host (d_listen data)) then field_host (d_listen data)
     else VStr "0.0.0.0") /\
  (d_enabled data = VBool false -> enabled routeConfig = VBool false) /\
  (d_enabled data <> VBool false -> enabled routeConfig = VBool true).

(** An entry as the code pushes it: a TCP entry holds the [net.Server], a
    UDP entry the object [{ server, clients }]. *)
Definition pushed_by_code (a : Active) : Prop :=
  (a_protocol a = VStr "tcp" /\ exists id, a_server a = NetServer id) \/
  (a_protocol a = VStr "udp" /\ exists id, a_server a = UdpProxy id).

Definition well_formed (w : World) : Prop := Forall pushed_by_code (activeServers w).

(** No two values of the list are [===]. *)
Definition distinct (vs : list value) : Prop :=
  forall i j a b, vs !! i = Some a -> vs !! j = Some b -> i <> j -> strict_eq a b = false.

(** No two routes of the table have the same name. *)
Definition distinct_names (rs : list Route) : Prop := distinct (name <$> rs).

(** The platform calls that set the listener of [route] up with the
    identity [id]. *)
Definition opening (route : Route) (id : nat) : list Effect :=
  if strict_eq (protocol route) (VStr "tcp")
  then [CreateServer id; Listen id (port (listen route)) (host (listen route))]
  else [CreateSocket id; Bind id (port (listen route)) (host (listen route))].

(** The first block of the handler of ['message'] on a listening socket,
    [if (!clients.has(clientKey)) { ... }]; it gives [false] when it ends in
    [return]. *)
Definition connect_block (udpServer : nat) (route : Route) (rinfo : Rinfo) : M bool :=
  known <- gets (fun w => clients_has (clientKey_of rinfo) (clients_of udpServer w)) ;;
  if negb known then
    log Info ("[" +:+ show (name route) +:+ "] UDP client connected: " +:+
              clientKey_of rinfo) ;;
    try_catch
      (clientSocket <- createSocket rt
                         (fun _ => ClientSocket udpServer rinfo (clientKey_of rinfo)) ;;
       delay <- gets udpTimeout ;;
       timeout <- setTimeout udpServer (clientKey_of rinfo) (Some clientSocket) delay ;;
       update_clients udpServer
         (clients_set (clientKey_of rinfo) (mkSession clientSocket timeout)) ;;
       ret true)
      (fun err =>
         log Error ("[" +:+ show (name route) +:+
                    "] Failed to create UDP client socket: " +:+ err) ;;
         ret false)
  else ret true.

(** Its second block, [if (clients.has(clientKey)) { ... }]. *)
Definition forward_block (udpServer : nat) (route : Route) (message clientKey : string)
  : M unit :=
  c <- gets (fun w => clients_get clientKey (clients_of udpServer w)) ;;
  match c with
  | Some client =>
      clearTimeout (timeout client) ;;
      delay <- gets udpTimeout ;;
      t <- setTimeout udpServer clientKey None delay ;;
      update_clients udpServer (clients_set clientKey (mkSession (socket client) t)) ;;
      try_catch
        (socket_send rt (socket client) message (port (forward route)) (host (forward route)))
        (fun err =>
           log Error ("[" +:+ show (name route) +:+ "] UDP send error: " +:+ err))
  | None => ret tt
  end.

(** How a listener rewrites its [clients] map in the object store. *)
Definition with_clients (f : Clients -> Clients) (o : Obj) : Obj :=
  match o with
  | UdpListener r c => UdpListener r (f c)
  | _ => o
  end.

(** The world after the first block has set a session up. *)
Definition connected (udpServer : nat) (route : Route) (rinfo : Rinfo) (w : World) : World :=
  let n := next_id w in
  mkWorld (routes w) (udpTimeout w) (activeServers w)
    (alter (with_clients (clients_set (clientKey_of rinfo) (mkSession n (S n)))) udpServer
           (<[n := ClientSocket udpServer rinfo (clientKey_of rinfo)]> (objects w)))
    ({[n]} ∪ open w)
    (<[S n := mkTimer (now w + timer_delay (udpTimeout w)) udpServer (clientKey_of rinfo)
                      (Some n)]>
       (timers w))
    (S (S n)) (now w)
    (trace w ++
     [Log Info ("[" +:+ show (name route) +:+ "] UDP client connected: " +:+
                clientKey_of rinfo);
      CreateSocket n; SetTimeout (S n) (udpTimeout w)]).

(** What the [send] of [message] to the forward endpoint of [route] through
    the socket [sock] leaves in the trace: the datagram, or the error that
    the [catch] around it logs, when the platform takes the forward port or
    host for none or when the socket is closed ([is_open] is [false]). *)
Definition forward_effect (route : Route) (sock : nat) (message : string) (is_open : bool)
  : Effect :=
  if negb (valid_port rt (port (forward route))) ||
     negb (valid_address (host (forward route)))
  then Log Error ("[" +:+ show (name route) +:+ "] UDP send error: " +:+
                  send_error rt (port (forward route)) (host (forward route)))
  else if is_open
  then Send sock message (port (forward route)) (host (forward route))
  else Log Error ("[" +:+ show (name route) +:+ "] UDP send error: Not running").

(** The calls with which the handler sets a session up for the client
    [rinfo], the identities starting at [n], before it forwards. *)
Definition session_setup (route : Route) (rinfo : Rinfo) (n : nat) (delay : Z)
  : list Effect :=
  [Log Info ("[" +:+ show (name route) +:+ "] UDP client connected: " +:+
             clientKey_of rinfo);
   CreateSocket n; SetTimeout (S n) delay; ClearTimeout (S n); SetTimeout (S (S n)) delay].

(** The forward endpoint of the route is one that [send] takes. *)
Definition sendable (route : Route) : Prop :=
  valid_port rt (port (forward route)) = true /\
  valid_address (host (forward route)) = true.

(** The world after the second block has reset the timer of [client] and
    tried to forward [message]. *)
Definition forwarded (udpServer : nat) (route : Route) (message clientKey : string)
    (client : Session) (w : World) : World :=
  let n := next_id w in
  mkWorld (routes w) (udpTimeout w) (activeServers w)
    (alter (with_clients (clients_set clientKey (mkSession (socket client) n))) udpServer
           (objects w))
    (open w)
    (<[n := mkTimer (now w + timer_delay (udpTimeout w)) udpServer clientKey None]>
       (delete (timeout client) (timers w)))
    (S n) (now w)
    (trace w ++
     [ClearTimeout (timeout client); SetTimeout n (udpTimeout w);
      forward_effect route (socket client) message
        (bool_decide (socket client ∈ open w))]).

(** The handle [x] is none that the stop of the entries of [l] closes: it
    is not the server or socket that an entry holds in its [server]
    property, and not the socket of a session. *)
Definition spared (l : list Active) (w : World) (x : nat) : Prop :=
  (forall a, In a l -> a_server a <> NetServer x /\ a_server a <> DgramSocket x) /\
  (forall udpServer clientKey client,
      In (clientKey, client) (clients_of udpServer w) -> socket client <> x).

(** The string has no ['/']. *)
Fixpoint slash_free (s : string) : bool :=
  match s with
  | EmptyString => true
  | String c s' => negb (Ascii.eqb c "/"%char) && slash_free s'
  end.

(** The parsed body as the handler reads it when it is not [null]. *)
Definition read_as (data : Parsed) (r : Request) : Prop :=
  match data with
  | JNull => False
  | JOther =>
      r = mkRequest VUndefined VUndefined (FPrim VUndefined) (FPrim VUndefined) VUndefined
  | JObject d => r = d
  end.

(** The request body has the fields that POST /routes requires. *)
Definition complete (data : Request) : bool :=
  truthy (d_name data) && truthy (d_protocol data) &&
  field_truthy (d_listen data) && field_truthy (d_forward data).

(** The request body has the fields that PUT /routes/<name> requires. *)
Definition complete_update (data : Request) : bool :=
  truthy (d_protocol data) && field_truthy (d_listen data) && field_truthy (d_forward data).


(** The rank of a level of [log]. *)
Definition rank (level : Level) : Z :=
  match level with
  | Info => 1
  | Warn => 2
  | Error => 3
  end.

(** ** Strict equality *)

Lemma strict_eq_eq a b : strict_eq a b = true -> a = b.
Proof.
  destruct a, b; simpl; try discriminate; intros H; try reflexivity.
  - apply Bool.eqb_prop in H. congruence.
  - apply Z.eqb_eq in H. congruence.
  - apply String.eqb_eq in H. congruence.
Qed.

Lemma strict_eq_sym a b : strict_eq a b = strict_eq b a.
Proof.
  destruct a, b; simpl; try reflexivity.
  - destruct b, b0; reflexivity.
  - apply Z.eqb_sym.
  - apply String.eqb_sym.
Qed.

Lemma strict_eq_self a b : strict_eq a b = true -> strict_eq b b = true.
Proof. intros H. pose proof (strict_eq_eq _ _ H) as ->. exact H. Qed.

Lemma strict_eq_str s : strict_eq (VStr s) (VStr s) = true.
Proof. simpl. apply String.eqb_refl. Qed.

(** ** Lookups in the route table and in the active set *)

Lemma findIndex_None routeName rs :
  findIndex routeName rs = None <->
  (forall r, In r rs -> strict_eq (name r) routeName = false).
Proof.
  induction rs as [|r rs IH]; simpl.
  - split; [intros _ r [] | reflexivity].
  - destruct (strict_eq (name r) routeName) eqn:E.
    + split; [discriminate|]. intros H. specialize (H r (or_introl eq_refl)). congruence.
    + destruct (findIndex routeName rs); simpl.
      * split; [discriminate|]. intros H.
        assert (Some n = None) as H0; [|discriminate].
        apply IH. intros r' Hr'. apply H. now right.
      * split; [|reflexivity]. intros _ r' [<-|Hr']; [exact E|].
        now apply (proj1 IH eq_refl).
Qed.

Lemma findIndex_Some routeName rs i :
  findIndex routeName rs = Some i ->
  exists r, rs !! i = Some r /\ strict_eq (name r) routeName = true.
Proof.
  revert i. induction rs as [|r rs IH]; simpl; intros i; [discriminate|].
  destruct (strict_eq (name r) routeName) eqn:E.
  - intros [= <-]. exists r. split; [reflexivity | exact E].
  - destruct (findIndex routeName rs) as [j|]; simpl; [|discriminate].
    intros [= <-]. destruct (IH j eq_refl) as (r' & Hr' & Hn). now exists r'.
Qed.

(** ** Unknown route names *)

(** C7. For a name that no route of the table has, [removeRoute],
    [updateRoute] and [toggleRoute] each return at once the failure result
    with the not-found message, and leave the world as it was: the route
    table, the active set and the trace (nothing is saved, started or
    stopped). *)
Theorem unknown_name_is_rejected (routeName : value) (routeConfig : Route) (w : World) :
  (forall r, In r (routes w) -> strict_eq (name r) routeName = false) ->
  let notFound := mkResult false ("Route " +:+ show routeName +:+ " not found") in
  removeRoute rt routeName w = (Returned notFound, w) /\
  updateRoute rt routeName routeConfig w = (Returned notFound, w) /\
  toggleRoute rt routeName w = (Returned notFound, w).
Proof.
  intros H. apply findIndex_None in H.
  unfold removeRoute, updateRoute, toggleRoute, bind, gets, ret.
  rewrite H. repeat split.
Qed.

(** ** What starting a listener changes *)

Lemma extends_refl w : extends w w.
Proof. split; try reflexivity. exists []. now rewrite app_nil_r. Qed.

Lemma extends_trans w1 w2 w3 : extends w1 w2 -> extends w2 w3 -> extends w1 w3.
Proof.
  intros [] []. split; try congruence; try lia.
  destruct ext_trace0 as [t1 E1], ext_trace1 as [t2 E2].
  exists (t1 ++ t2)%list. rewrite E2, E1. now rewrite app_assoc.
Qed.

Ltac unfold_platform :=
  unfold bind, ret, gets, modify, emit, log, throw, try_catch, fresh, register,
    mark_open, mark_closed, is_open, createServer, tcp_listen, closeServer,
    createSocket, udp_bind, closeSocket, socket_send, setTimeout, clearTimeout in *.

Ltac by_extension :=
  first [ apply extends_refl
        | split; cbn; try reflexivity; try lia;
          first [ exists []; now rewrite app_nil_r
                | rewrite <- ?app_assoc; eexists; reflexivity ] ].

Lemma startTcpProxy_returns route w :
  exists o w',
    startTcpProxy rt route w = (Returned o, w') /\ extends w w' /\
    activeServers w' = activeServers w /\
    match o with
    | Some h => h = NetServer (next_id w) /\
                existsb (tcp_collision route) (activeServers w) = false /\
                listen_error rt (port (listen route)) (host (listen route)) = None
    | None => existsb (tcp_collision route) (activeServers w) = true \/
              listen_error rt (port (listen route)) (host (listen route)) <> None
    end.
Proof.
  unfold startTcpProxy. unfold_platform.
  destruct (existsb _ _) eqn:Ec; cbn.
  - eexists _, _. split; [reflexivity|]. split; [by_extension|]. split; [reflexivity|]. now left.
  - destruct (listen_error _ _ _) eqn:El; cbn.
    + eexists _, _. split; [reflexivity|]. split; [by_extension|]. split; [reflexivity|].
      right. congruence.
    + eexists _, _. split; [reflexivity|]. split; [by_extension|]. now repeat split.
Qed.

Lemma startUdpProxy_returns route w :
  exists o w',
    startUdpProxy rt route w = (Returned o, w') /\ extends w w' /\
    activeServers w' = activeServers w /\
    match o with
    | Some h => h = UdpProxy (next_id w) /\
                existsb (udp_collision route) (activeServers w) = false /\
                socket_error rt (next_id w) = None /\
                bind_error rt (port (listen route)) (host (listen route)) = None
    | None => existsb (udp_collision route) (activeServers w) = true \/
              socket_error rt (next_id w) <> None \/
              bind_error rt (port (listen route)) (host (listen route)) <> None
    end.
Proof.
  unfold startUdpProxy. unfold_platform.
  destruct (existsb _ _) eqn:Ec; cbn.
  - eexists _, _. split; [reflexivity|]. split; [by_extension|]. split; [reflexivity|]. now left.
  - destruct (socket_error _ _) eqn:Es; cbn.
    + eexists _, _. split; [reflexivity|]. split; [by_extension|]. split; [reflexivity|].
      right. left. congruence.
    + destruct (bind_error _ _ _) eqn:Eb; cbn.
      * eexists _, _. split; [reflexivity|]. split; [by_extension|]. split; [reflexivity|].
        right. right. congruence.
      * eexists _, _. split; [reflexivity|]. split; [by_extension|]. now repeat split.
Qed.

Lemma startProxy_returns route w :
  exists o w',
    startProxy rt route w = (Returned o, w') /\ extends w w' /\
    activeServers w' = activeServers w /\
    match o with
    | Some h => started route w h
    | None => True
    end.
Proof.
  unfold startProxy.
  destruct (strict_eq (protocol route) (VStr "tcp")) eqn:Et.
  - destruct (startTcpProxy_returns route w) as (o & w' & E & Hx & Ha & Ho).
    exists o, w'. split; [exact E|]. split; [exact Hx|]. split; [exact Ha|].
    destruct o; [|exact I]. left. apply strict_eq_eq in Et. tauto.
  - destruct (strict_eq (protocol route) (VStr "udp")) eqn:Eu.
    + destruct (startUdpProxy_returns route w) as (o & w' & E & Hx & Ha & Ho).
      exists o, w'. split; [exact E|]. split; [exact Hx|]. split; [exact Ha|].
      destruct o; [|exact I]. right. apply strict_eq_eq in Eu. tauto.
    + exists None, w. split; [reflexivity|]. split; [apply extends_refl|]. now split.
Qed.

(** A start that nothing prevents returns a listener. *)
Lemma startProxy_succeeds route w :
  (exists h, started route w h) ->
  exists h w', startProxy rt route w = (Returned (Some h), w') /\ started route w h.
Proof.
  intros [h Hs]. unfold startProxy.
  destruct Hs as [(Hp & -> & Hc & Hl)|(Hp & -> & Hc & Hso & Hb)]; rewrite Hp; cbn.
  - destruct (startTcpProxy_returns route w) as ([h|] & w' & E & _ & _ & Ho).
    + exists h, w'. split; [exact E|]. left. tauto.
    + exfalso. destruct Ho; congruence.
  - destruct (startUdpProxy_returns route w) as ([h|] & w' & E & _ & _ & Ho).
    + exists h, w'. split; [exact E|]. right. tauto.
    + exfalso. destruct Ho as [|[|]]; congruence.
Qed.

(** A route of another protocol is passed over without a trace. *)
Lemma startProxy_other_protocol route w :
  strict_eq (protocol route) (VStr "tcp") = false ->
  strict_eq (protocol route) (VStr "udp") = false ->
  startProxy rt route w = (Returned None, w).
Proof. intros Ht Hu. unfold startProxy. now rewrite Ht, Hu. Qed.

(** [start_and_push] returns, and either pushes the entry of the listener it
    started or leaves the active set alone. *)
Lemma start_and_push_returns entryName route w :
  exists w',
    start_and_push rt entryName route w = (Returned tt, w') /\ extends w w' /\
    (activeServers w' = activeServers w \/
     exists h, started route w h /\
       activeServers w' =
         (activeServers w ++
          [mkActive entryName (protocol route) (listen route) (forward route) h])%list).
Proof.
  unfold start_and_push. unfold bind at 1.
  destruct (startProxy_returns route w) as (o & w1 & -> & Hx & Ha & Ho).
  destruct o as [h|]; unfold modify, ret.
  - eexists. split; [reflexivity|]. split.
    + destruct Hx. split; cbn; assumption.
    + right. exists h. cbn. now rewrite Ha.
  - exists w1. split; [reflexivity|]. split; [assumption|]. now left.
Qed.

(** ** What stopping the listeners changes *)

Lemma close_clients_runs cs w :
  exists r w', close_clients cs w = (r, w') /\ extends w w' /\
               activeServers w' = activeServers w.
Proof.
  revert w. induction cs as [|[clientKey client] cs IH]; intros w; simpl.
  - exists (Returned tt), w. split; [reflexivity|]. split; [apply extends_refl | reflexivity].
  - unfold_platform. cbn. destruct (bool_decide _); cbn.
    + match goal with |- context [close_clients cs ?w1] =>
        destruct (IH w1) as (r & w' & E & Hx & Ha) end.
      exists r, w'. split; [exact E|]. split; [|exact Ha].
      eapply extends_trans; [|exact Hx]. by_extension.
    + eexists _, _. split; [reflexivity|]. split; [by_extension | reflexivity].
Qed.

Lemma close_method_runs expr h w :
  exists r w', close_method expr h w = (r, w') /\ extends w w' /\
               activeServers w' = activeServers w.
Proof.
  destruct h; simpl; unfold_platform; cbn.
  - eexists _, _. split; [reflexivity|]. split; [by_extension | reflexivity].
  - destruct (bool_decide _); cbn;
      (eexists _, _; split; [reflexivity|]; split; [by_extension | reflexivity]).
  - eexists _, _. split; [reflexivity|]. split; [apply extends_refl | reflexivity].
Qed.

Lemma stop_server_returns server w :
  tcp_or_udp server ->
  exists w', stop_server server w = (Returned tt, w') /\ extends w w' /\
             activeServers w' = activeServers w.
Proof.
  intros Hp. unfold stop_server, try_catch, bind at 1.
  assert (exists r w1,
    (if strict_eq (a_protocol server) (VStr "tcp")
     then close_method "server.server" (a_server server)
     else if strict_eq (a_protocol server) (VStr "udp")
          then bind (gets (server_clients (a_server server)))
                 (fun cs => bind match cs with
                                 | Some cs0 => close_clients cs0
                                 | None => ret tt
                                 end
                              (fun _ => close_method "server.server" (a_server server)))
          else ret tt) w = (r, w1) /\ extends w w1 /\ activeServers w1 = activeServers w)
    as (r & w1 & -> & Hx & Ha).
  { destruct Hp as [-> | ->]; cbn.
    - apply close_method_runs.
    - unfold bind, gets. destruct (server_clients _ _) as [cs|].
      + destruct (close_clients_runs cs w) as ([[]|e] & w1 & -> & Hx & Ha).
        * destruct (close_method_runs "server.server" (a_server server) w1)
            as (r & w2 & -> & Hx2 & Ha2).
          exists r, w2. split; [reflexivity|]. split; [|congruence].
          eapply extends_trans; eassumption.
        * eexists _, _. split; [reflexivity|]. now split.
      + unfold ret. apply close_method_runs. }
  assert (exists s, a_protocol server = VStr s) as [s Hs]
    by (destruct Hp as [-> | ->]; eauto).
  rewrite Hs. destruct r as [[]|e]; unfold_platform; cbn;
    (eexists; split; [reflexivity|]; split; [|exact Ha];
     eapply extends_trans; [exact Hx | by_extension]).
Qed.

Lemma stop_servers_returns l w :
  Forall tcp_or_udp l ->
  exists w', stop_servers l w = (Returned tt, w') /\ extends w w' /\
             activeServers w' = activeServers w.
Proof.
  intros Hl. revert w. induction Hl as [|server l Hs _ IH]; intros w; simpl.
  - exists w. split; [reflexivity|]. split; [apply extends_refl | reflexivity].
  - unfold bind. destruct (stop_server_returns server w Hs) as (w1 & -> & Hx & Ha).
    destruct (IH w1) as (w2 & -> & Hx2 & Ha2).
    exists w2. split; [reflexivity|]. split; [|congruence].
    eapply extends_trans; eassumption.
Qed.

(** [stopAllProxies] returns with an empty active set. *)
Lemma stopAllProxies_returns w :
  Forall tcp_or_udp (activeServers w) ->
  exists w', stopAllProxies w = (Returned tt, w') /\ extends w w' /\
             activeServers w' = [].
Proof.
  intros Hl. unfold stopAllProxies, bind, gets, modify.
  destruct (stop_servers_returns _ w Hl) as (w1 & -> & Hx & Ha).
  eexists. split; [reflexivity|]. split; [|reflexivity].
  destruct Hx. split; cbn; assumption.
Qed.

(** ** The pass over the route table *)

Lemma start_route_returns route w :
  exists w',
    start_route rt route w = (Returned tt, w') /\ extends w w' /\
    (activeServers w' = activeServers w \/
     truthy (enabled route) = true /\
     exists h, started route w h /\
       activeServers w' =
         (activeServers w ++
          [mkActive (name route) (protocol route) (listen route) (forward route) h])%list).
Proof.
  unfold start_route. destruct (truthy (enabled route)) eqn:En.
  - destruct (start_and_push_returns (name route) route w) as (w' & E & Hx & H).
    exists w'. split; [exact E|]. split; [exact Hx|]. destruct H; [now left | right; auto].
  - exists w. split; [reflexivity|]. split; [apply extends_refl | now left].
Qed.

(** Whatever each turn does, the pass goes through the whole list; a
    property of the world that every turn preserves holds at its end. *)
Lemma start_routes_returns (Inv : World -> Prop) rs :
  (forall route w, In route rs -> Inv w -> Inv (snd (start_route rt route w))) ->
  forall w, Inv w ->
  exists w', start_routes rt rs w = (Returned tt, w') /\ extends w w' /\ Inv w'.
Proof.
  induction rs as [|route rs IH]; intros Hstep w Hw; simpl.
  - exists w. split; [reflexivity|]. split; [apply extends_refl | exact Hw].
  - unfold bind. destruct (start_route_returns route w) as (w1 & E & Hx & _).
    assert (Inv w1) as Hw1.
    { specialize (Hstep route w (or_introl eq_refl) Hw). now rewrite E in Hstep. }
    rewrite E.
    destruct (IH (fun r w0 Hr => Hstep r w0 (or_intror Hr)) w1 Hw1) as (w2 & E2 & Hx2 & Hw2).
    exists w2. split; [exact E2|]. split; [|exact Hw2].
    eapply extends_trans; eassumption.
Qed.

(** ** One listener per address *)

Lemma same_address_sym a b : same_address a b = same_address b a.
Proof.
  unfold same_address.
  now rewrite (strict_eq_sym (a_protocol a)), (strict_eq_sym (port (a_listen a))),
    (strict_eq_sym (host (a_listen a))).
Qed.

Lemma one_per_address_snoc act e :
  one_per_address act ->
  (forall a, In a act -> same_address a e = false) ->
  one_per_address (act ++ [e]).
Proof.
  intros Hact He i j a b Hi Hj Hne.
  destruct (decide (i < length act)%nat) as [Hli|Hli];
    destruct (decide (j < length act)%nat) as [Hlj|Hlj].
  - rewrite lookup_app_l in Hi, Hj by assumption. eapply Hact; eassumption.
  - rewrite lookup_app_l in Hi by assumption.
    rewrite lookup_app_r in Hj by lia.
    destruct (j - length act)%nat as [|k] eqn:Ek; simpl in Hj; [|discriminate].
    injection Hj as <-. apply He. apply list_elem_of_In. eapply list_elem_of_lookup_2; eassumption.
  - rewrite lookup_app_l in Hj by assumption.
    rewrite lookup_app_r in Hi by lia.
    destruct (i - length act)%nat as [|k] eqn:Ek; simpl in Hi; [|discriminate].
    injection Hi as <-. rewrite same_address_sym. apply He.
    apply list_elem_of_In. eapply list_elem_of_lookup_2; eassumption.
  - rewrite lookup_app_r in Hi, Hj by lia.
    destruct (i - length act)%nat as [|k] eqn:Eki; simpl in Hi; [|discriminate].
    destruct (j - length act)%nat as [|k] eqn:Ekj; simpl in Hj; [|discriminate].
    lia.
Qed.

(** The listener started for [route] shares its address with no listener
    that was active when it started. *)
Lemma started_no_collision entryName route w h a :
  started route w h -> In a (activeServers w) ->
  same_address a (mkActive entryName (protocol route) (listen route) (forward route) h)
  = false.
Proof.
  intros Hs Ha. unfold same_address. cbn.
  destruct Hs as [(Hp & _ & Hc & _)|(Hp & _ & Hc & _)]; rewrite Hp;
    rewrite <- not_true_iff_false in Hc |- *; intros Hsame; apply Hc;
    apply existsb_exists; exists a; (split; [exact Ha | exact Hsame]).
Qed.

Lemma start_route_one_per_address route w :
  one_per_address (activeServers w) ->
  one_per_address (activeServers (snd (start_route rt route w))).
Proof.
  intros Hw. destruct (start_route_returns route w) as (w' & E & _ & H).
  rewrite E. cbn. destruct H as [->|(_ & h & Hs & ->)]; [exact Hw|].
  apply one_per_address_snoc; [exact Hw|].
  intros a Ha. eapply started_no_collision; eassumption.
Qed.

(** C5. An attempt to start a route whose (protocol, host, port) an active
    listener already holds returns no listener; all it does is log one
    warning (no server or socket is created, nothing is bound, the active
    set is as before, so the earlier listener stays active).  Hence after
    [startAllProxies] no two active listeners share a (protocol, host, port). *)
Theorem address_in_use_is_refused :
  (forall route w a,
      In a (activeServers w) -> tcp_or_udp a -> collides route a = true ->
      exists msg,
        startProxy rt route w =
          (Returned None, set_trace (trace w ++ [Log Warn msg]) w) /\
        In a (activeServers (set_trace (trace w ++ [Log Warn msg]) w))) /\
  (forall w,
      Forall tcp_or_udp (activeServers w) ->
      exists w', startAllProxies rt w = (Returned tt, w') /\
                 one_per_address (activeServers w')).
Proof.
  split.
  - intros route w a Ha Hp Hc. unfold collides in Hc.
    apply andb_true_iff in Hc as [Hc Hh]. apply andb_true_iff in Hc as [Hc Hport].
    assert (protocol route = a_protocol a) as Hpr
      by (symmetry; now apply strict_eq_eq).
    unfold startProxy. rewrite Hpr.
    destruct Hp as [Hp|Hp]; rewrite Hp; cbn.
    + unfold startTcpProxy. unfold_platform.
      replace (existsb (tcp_collision route) (activeServers w)) with true.
      * eexists. split; [reflexivity | exact Ha].
      * symmetry. apply existsb_exists. exists a. split; [exact Ha|].
        unfold tcp_collision. now rewrite Hp, Hport, Hh.
    + unfold startUdpProxy. unfold_platform.
      replace (existsb (udp_collision route) (activeServers w)) with true.
      * eexists. split; [reflexivity | exact Ha].
      * symmetry. apply existsb_exists. exists a. split; [exact Ha|].
        unfold udp_collision. now rewrite Hp, Hport, Hh.
  - intros w Hw. unfold startAllProxies. unfold bind at 1.
    destruct (stopAllProxies_returns w Hw) as (w0 & -> & Hx0 & Ha0).
    unfold bind at 1. unfold gets at 1. unfold bind at 1.
    destruct (start_routes_returns (fun w => one_per_address (activeServers w)) (routes w0)
                (fun route w _ => start_route_one_per_address route w) w0)
      as (w1 & -> & _ & Hw1).
    { rewrite Ha0. intros i j a b Hi. now rewrite lookup_nil in Hi. }
    unfold_platform. cbn. eexists. split; [reflexivity | exact Hw1].
Qed.

(** ** startAllProxies *)

Lemma lists_origin rs act a :
  lists rs act -> In a act ->
  exists route, In route rs /\ is_enabled route = true /\ runs route a.
Proof.
  intros (st & Hsub & Hall) Ha.
  assert (exists route, In route st /\ runs route a) as (route & Hr & Hruns).
  { clear Hsub. induction Hall as [|r b st act Hrb _ IH]; [destruct Ha|].
    destruct Ha as [<-|Ha].
    - exists r. split; [now left | exact Hrb].
    - destruct (IH Ha) as (r' & Hr' & Hruns). exists r'. split; [now right | exact Hruns]. }
  exists route. apply list_elem_of_In in Hr.
  apply (sublist_subseteq _ _ Hsub) in Hr. apply list_elem_of_In in Hr.
  apply List.filter_In in Hr as [Hin Hen]. auto.
Qed.

Lemma start_route_lists pre route w :
  lists pre (activeServers w) ->
  lists (pre ++ [route]) (activeServers (snd (start_route rt route w))).
Proof.
  intros (st & Hsub & Hall).
  destruct (start_route_returns route w) as (w' & E & _ & H). rewrite E. cbn.
  destruct H as [->|(Hen & h & Hs & ->)].
  - exists st. split; [|exact Hall].
    rewrite List.filter_app. now apply sublist_inserts_r.
  - exists (st ++ [route])%list. split.
    + rewrite List.filter_app. apply sublist_app; [exact Hsub|].
      cbn. unfold is_enabled. now rewrite Hen.
    + apply Forall2_app; [exact Hall|]. constructor; [|constructor]. now repeat split.
Qed.

Lemma start_routes_lists rs pre w :
  lists pre (activeServers w) ->
  exists w', start_routes rt rs w = (Returned tt, w') /\
             lists (pre ++ rs) (activeServers w').
Proof.
  revert pre w. induction rs as [|route rs IH]; intros pre w Hl; simpl.
  - exists w. split; [reflexivity|]. now rewrite app_nil_r.
  - unfold bind. pose proof (start_route_lists pre route w Hl) as Hl1.
    destruct (start_route_returns route w) as (w1 & E & _ & _). rewrite E in Hl1 |- *.
    cbn in Hl1. destruct (IH _ _ Hl1) as (w2 & E2 & Hl2).
    exists w2. split; [exact E2|]. now rewrite <- app_assoc in Hl2.
Qed.

(** A pass over [pre ++ post] is a pass over [pre] followed by one over [post]. *)
Lemma start_routes_app pre post w :
  exists s, start_routes rt pre w = (Returned tt, s) /\
            start_routes rt (pre ++ post) w = start_routes rt post s.
Proof.
  revert w. induction pre as [|route pre IH]; intros w; simpl.
  - exists w. now split.
  - unfold bind. destruct (start_route_returns route w) as (w1 & -> & _ & _).
    apply IH.
Qed.

(** The pass never removes an entry. *)
Lemma start_routes_keeps rs w a :
  In a (activeServers w) ->
  exists w', start_routes rt rs w = (Returned tt, w') /\ In a (activeServers w').
Proof.
  intros Ha.
  destruct (start_routes_returns (fun w => In a (activeServers w)) rs) with (w := w)
    as (w' & E & _ & Ha'); [|exact Ha|eauto].
  intros route w0 _ H0.
  destruct (start_route_returns route w0) as (w1 & E & _ & H). rewrite E. cbn.
  destruct H as [->|(_ & h & _ & ->)]; [exact H0 | apply in_or_app; now left].
Qed.

Lemma start_route_turn route s : exists s', turn route s s'.
Proof.
  unfold turn, start_route, start_and_push.
  destruct (truthy (enabled route)); [|exists s; now split].
  unfold bind. destruct (startProxy_returns route s) as (o & s1 & E & _ & Ha & _).
  rewrite E. destruct o as [h|]; unfold modify, ret.
  - eexists. split; [reflexivity|]. exists (Some h), s1. split; [reflexivity|].
    cbn. now rewrite Ha.
  - exists s1. split; [reflexivity|]. exists None, s1. now split.
Qed.

(** The pass of [startAllProxies].  After [stopAllProxies] has emptied the
    active set, the route table is passed over in order.
    Every route has its turn whatever happened to the routes before it: a
    route that is not enabled is passed over, the start of an enabled one is
    attempted, and a start that returns no listener adds nothing to the
    active set and does not end the pass.  So the active set lists, in table
    order, enabled routes only, and an enabled route that the platform
    accepts and whose address no enabled route before it asks for is active
    at the end, whichever other routes failed. *)
Lemma startAllProxies_pass (w : World) :
  Forall tcp_or_udp (activeServers w) ->
  exists w0 w1,
    stopAllProxies w = (Returned tt, w0) /\ activeServers w0 = [] /\
    routes w0 = routes w /\
    start_routes rt (routes w) w0 = (Returned tt, w1) /\
    startAllProxies rt w =
      (Returned tt,
       set_trace (trace w1 ++
                  [Log Info ("Started " +:+ pretty (length (activeServers w1)) +:+
                             " proxies")]) w1) /\
    (forall pre route post,
        routes w = (pre ++ route :: post)%list ->
        exists s s',
          start_routes rt pre w0 = (Returned tt, s) /\
          turn route s s' /\
          start_routes rt post s' = (Returned tt, w1)) /\
    lists (routes w) (activeServers w1) /\
    (forall pre route post,
        routes w = (pre ++ route :: post)%list ->
        truthy (enabled route) = true -> accepted route ->
        (forall r, In r pre -> truthy (enabled r) = true -> same_listen r route = false) ->
        exists a, In a (activeServers w1) /\ runs route a).
Proof.
  intros Hw.
  destruct (stopAllProxies_returns w Hw) as (w0 & E0 & Hx0 & Ha0).
  assert (lists [] (activeServers w0)) as Hl0.
  { rewrite Ha0. exists []. split; constructor. }
  destruct (start_routes_lists (routes w) [] w0 Hl0) as (w1 & E1 & Hl1).
  cbn in Hl1.
  assert (forall pre route post,
             routes w = (pre ++ route :: post)%list ->
             exists s s',
               start_routes rt pre w0 = (Returned tt, s) /\
               lists pre (activeServers s) /\
               turn route s s' /\
               start_routes rt post s' = (Returned tt, w1)) as Hturns.
  { intros pre route post Hsplit.
    destruct (start_routes_app pre (route :: post) w0) as (s & Es & Eapp).
    rewrite <- Hsplit, E1 in Eapp. cbn in Eapp. unfold bind in Eapp.
    destruct (start_route_turn route s) as (s' & Ht).
    exists s, s'. split; [exact Es|]. split.
    - destruct (start_routes_lists pre [] w0 Hl0) as (s2 & Es2 & Hl2).
      rewrite Es in Es2. now injection Es2 as <-.
    - split; [exact Ht|]. destruct Ht as [Ht _]. now rewrite Ht in Eapp. }
  exists w0, w1. split; [exact E0|]. split; [exact Ha0|].
  split; [apply (ext_routes _ _ Hx0)|]. split; [exact E1|]. split.
  { unfold startAllProxies. unfold bind at 1. rewrite E0.
    unfold bind at 1. unfold gets at 1. rewrite (ext_routes _ _ Hx0).
    unfold bind at 1. rewrite E1. reflexivity. }
  split.
  { intros pre route post Hsplit.
    destruct (Hturns pre route post Hsplit) as (s & s' & Es & _ & Ht & Epost).
    now exists s, s'. }
  split; [exact Hl1|].
  intros pre route post Hsplit Hen Hacc Hfree.
  destruct (Hturns pre route post Hsplit) as (s & s' & Es & Hls & [Ht Hturn] & Epost).
  rewrite Hen in Hturn. destruct Hturn as (server & s1 & Estart & Hact).
  assert (exists h, started route s h) as Hstart.
  { assert (forall collision,
              (forall a, collision a =
                         strict_eq (a_protocol a) (protocol route) &&
                         strict_eq (port (a_listen a)) (port (listen route)) &&
                         strict_eq (host (a_listen a)) (host (listen route))) ->
              existsb collision (activeServers s) = false) as Hnone.
    { intros collision Hc. apply not_true_iff_false. intros Hex.
      apply existsb_exists in Hex as (a & Ha & Hca). rewrite Hc in Hca.
      destruct (lists_origin _ _ _ Hls Ha) as (r & Hr & Her & Hn & Hp & Hli & _).
      specialize (Hfree r Hr Her). unfold same_listen in Hfree.
      rewrite Hp, Hli in Hca. congruence. }
    destruct Hacc as [(Hp & Hl)|(Hp & Hso & Hb)].
    - exists (NetServer (next_id s)). left. repeat split; try assumption.
      apply Hnone. intros a. unfold tcp_collision. now rewrite Hp.
    - exists (UdpProxy (next_id s)). right. repeat split; try auto.
      apply Hnone. intros a. unfold udp_collision. now rewrite Hp. }
  destruct (startProxy_succeeds route s Hstart) as (h & s2 & Estart2 & _).
  rewrite Estart in Estart2. injection Estart2 as -> _.
  set (e := mkActive (name route) (protocol route) (listen route) (forward route) h) in *.
  assert (In e (activeServers s')) as He by (rewrite Hact; apply in_or_app; right; now left).
  destruct (start_routes_keeps post s' e He) as (w2 & E2 & He2).
  rewrite Epost in E2. injection E2 as <-.
  exists e. split; [exact He2|]. now repeat split.
Qed.

(** ** Operations that start no listener *)

Lemma quiet_refl w : quiet w w.
Proof. exists []. split; [now rewrite app_nil_r | constructor]. Qed.

Lemma quiet_trans w1 w2 w3 : quiet w1 w2 -> quiet w2 w3 -> quiet w1 w3.
Proof.
  intros (t1 & E1 & H1) (t2 & E2 & H2). exists (t1 ++ t2)%list. split.
  - rewrite E2, E1. now rewrite app_assoc.
  - apply Forall_app. now split.
Qed.

Ltac by_quiet :=
  first [ apply quiet_refl
        | exists []; split; [cbn; rewrite ?app_nil_r; reflexivity | constructor]
        | eexists; split; [cbn; rewrite <- ?app_assoc; reflexivity | repeat constructor] ].

(** [saveConfig] returns and changes nothing but the trace. *)
Lemma saveConfig_returns w :
  exists b tl,
    saveConfig rt w = (Returned b, set_trace (trace w ++ tl) w) /\
    Forall (fun e => opens_listener e = false) tl.
Proof.
  unfold saveConfig. unfold_platform. cbn.
  destruct (write_error rt (routes w)); cbn.
  - eexists _, [_]. split; [reflexivity | repeat constructor].
  - eexists _, [_; _]. rewrite <- app_assoc. split; [reflexivity | repeat constructor].
Qed.

(** The stop block returns; it either removes every entry of that name or,
    when [close] threw, leaves the active set as it is.  It removes them
    when the listener found is a [net.Server]. *)
Lemma stop_active_returns routeName activeServer w :
  exists w',
    stop_active routeName activeServer w = (Returned tt, w') /\
    extends w w' /\ quiet w w' /\
    (activeServers w' = activeServers w \/
     activeServers w' = without_name routeName (activeServers w)) /\
    ((exists id, a_server activeServer = NetServer id) ->
     activeServers w' = without_name routeName (activeServers w)).
Proof.
  unfold stop_active, close_method, without_name.
  destruct (strict_eq (a_protocol activeServer) (VStr "tcp"));
    [|destruct (strict_eq (a_protocol activeServer) (VStr "udp"))];
    destruct (a_server activeServer) as [id|id|id]; unfold_platform; cbn;
    try destruct (bool_decide _); cbn;
    (eexists; split; [reflexivity|]; split; [by_extension|]; split; [by_quiet|];
     split; [first [now left | now right] | intros [? [=]]; reflexivity]).
Qed.

Lemma without_name_incl routeName act a :
  In a (without_name routeName act) -> In a act.
Proof. intros H. now apply List.filter_In in H. Qed.

Lemma find_without_name routeName act :
  List.find (fun s => strict_eq (a_name s) routeName) (without_name routeName act) = None.
Proof.
  induction act as [|a act IH]; [reflexivity|]. unfold without_name in *. cbn.
  destruct (strict_eq (a_name a) routeName) eqn:E; cbn; [exact IH|]. now rewrite E.
Qed.


Lemma find_absent {A} (f : A -> bool) (l : list A) :
  (forall x, In x l -> f x = false) -> List.find f l = None.
Proof.
  induction l as [|x l IH]; intros H; [reflexivity|]. cbn.
  rewrite (H x (or_introl eq_refl)). apply IH. intros y Hy. apply H. now right.
Qed.

Lemma start_and_push_other_protocol entryName route w :
  other_protocol route ->
  start_and_push rt entryName route w = (Returned tt, w).
Proof.
  intros [Ht Hu]. unfold start_and_push, bind.
  now rewrite startProxy_other_protocol.
Qed.

(** A property of the active set that the empty set has and every turn of
    the pass preserves holds after [startAllProxies]. *)
Lemma startAllProxies_establishes (P : list Active -> Prop) :
  P [] ->
  (forall route w, P (activeServers w) -> P (activeServers (snd (start_route rt route w)))) ->
  forall w, Forall tcp_or_udp (activeServers w) ->
  exists w', startAllProxies rt w = (Returned tt, w') /\ P (activeServers w').
Proof.
  intros Hnil Hstep w Hw. unfold startAllProxies. unfold bind at 1.
  destruct (stopAllProxies_returns w Hw) as (w0 & -> & Hx0 & Ha0).
  unfold bind at 1. unfold gets at 1. unfold bind at 1.
  destruct (start_routes_returns (fun w => P (activeServers w)) (routes w0)
              (fun route w _ => Hstep route w) w0) as (w1 & -> & _ & Hw1).
  { now rewrite Ha0. }
  unfold_platform. cbn. eexists. split; [reflexivity | exact Hw1].
Qed.

Lemma start_route_tcp_or_udp route w :
  Forall tcp_or_udp (activeServers w) ->
  Forall tcp_or_udp (activeServers (snd (start_route rt route w))).
Proof.
  intros Hw. destruct (start_route_returns route w) as (w' & E & _ & H). rewrite E. cbn.
  destruct H as [->|(_ & h & Hs & ->)]; [exact Hw|].
  apply Forall_app. split; [exact Hw|]. constructor; [|constructor].
  unfold tcp_or_udp. cbn. destruct Hs as [(Hp & _)|(Hp & _)]; auto.
Qed.

(** C9. A route whose protocol is neither ["tcp"] nor ["udp"] is taken
    without an error and skipped in silence.  The block that starts a route
    returns for it without changing the world: no call to the platform, no
    log entry, no entry pushed.  So [addRoute] (for a new name),
    [updateRoute] and [toggleRoute] (for the name of a route of the table)
    report success, and [startAllProxies] returns, without setting a
    listener up for it or adding an entry to the active set. *)
Theorem other_protocol_is_skipped (route : Route) (w : World) :
  other_protocol route ->
  (forall entryName, start_and_push rt entryName route w = (Returned tt, w)) /\
  ((forall r, In r (routes w) -> strict_eq (name r) (name route) = false) ->
   exists w',
     addRoute rt route w =
       (Returned (mkResult true ("Route " +:+ show (name route) +:+ " added successfully")),
        w') /\
     routes w' = (routes w ++ [route])%list /\
     activeServers w' = activeServers w /\ quiet w w') /\
  (forall routeName i,
      findIndex routeName (routes w) = Some i ->
      exists w',
        updateRoute rt routeName route w =
          (Returned (mkResult true ("Route " +:+ show routeName +:+ " updated successfully")),
           w') /\
        routes w' = <[i := with_name route routeName]> (routes w) /\
        (forall a, In a (activeServers w') -> In a (activeServers w)) /\ quiet w w') /\
  (forall routeName i,
      findIndex routeName (routes w) = Some i -> routes w !! i = Some route ->
      exists result w',
        toggleRoute rt routeName w = (Returned result, w') /\ success result = true /\
        (forall a, In a (activeServers w') -> In a (activeServers w)) /\ quiet w w') /\
  (In route (routes w) -> Forall tcp_or_udp (activeServers w) ->
   exists w',
     startAllProxies rt w = (Returned tt, w') /\
     forall a, In a (activeServers w') -> a_protocol a <> protocol route).
Proof.
  intros Hother.
  split; [intros entryName; now apply start_and_push_other_protocol|].
  split; [|split; [|split]].
  - intros Hnew. unfold addRoute. unfold bind at 1. unfold gets at 1.
    replace (List.find _ (routes w)) with (@None Route).
    2:{ symmetry. apply find_absent. intros r Hr. now apply Hnew. }
    unfold bind at 1. unfold modify at 1. unfold bind at 1.
    match goal with |- context [saveConfig rt ?w1] =>
      destruct (saveConfig_returns w1) as (b & tl & -> & Htl) end.
    unfold bind at 1.
    replace ((if truthy (enabled route) then start_and_push rt (name route) route else ret tt)
               (set_trace (trace (set_routes (routes w ++ [route]) w) ++ tl)
                          (set_routes (routes w ++ [route]) w)))
      with (Returned tt, set_trace (trace (set_routes (routes w ++ [route]) w) ++ tl)
                                   (set_routes (routes w ++ [route]) w)).
    2:{ destruct (truthy (enabled route)); [|reflexivity].
        now rewrite start_and_push_other_protocol. }
    eexists. split; [reflexivity|]. cbn. repeat split. now exists tl.
  - intros routeName i Hi. unfold updateRoute. unfold bind at 1. unfold gets at 1.
    rewrite Hi. unfold bind at 1. unfold modify at 1. unfold bind at 1.
    match goal with |- context [saveConfig rt ?w1] =>
      destruct (saveConfig_returns w1) as (b & tl & -> & Htl); set (ws := set_trace _ w1) end.
    assert (quiet w ws) as Hq by (now exists tl).
    assert (exists w2,
      match find_active routeName ws with
      | Some activeServer => stop_active routeName activeServer
      | None => ret tt
      end ws = (Returned tt, w2) /\ routes w2 = routes ws /\ quiet ws w2 /\
      (forall a, In a (activeServers w2) -> In a (activeServers ws)))
      as (w2 & E2 & Hr2 & Hq2 & Hin2).
    { destruct (find_active routeName ws) as [a|].
      - destruct (stop_active_returns routeName a ws) as (w2 & E & Hx & Hq2 & [Ha|Ha] & _);
          exists w2; (split; [exact E|]); (split; [apply (ext_routes _ _ Hx)|]);
          (split; [exact Hq2|]); intros a0; rewrite Ha; intros H0;
          first [exact H0 | eapply without_name_incl; exact H0].
      - exists ws. split; [reflexivity|]. split; [reflexivity|]. split; [apply quiet_refl | auto]. }
    unfold bind at 1. unfold gets at 1. unfold bind at 1. rewrite E2.
    unfold bind at 1.
    replace ((if truthy (enabled route) then start_and_push rt routeName route else ret tt) w2)
      with (Returned tt, w2).
    2:{ destruct (truthy (enabled route)); [|reflexivity].
        now rewrite start_and_push_other_protocol. }
    exists w2. split; [reflexivity|]. split; [rewrite Hr2; reflexivity|].
    split; [exact Hin2|]. eapply quiet_trans; eassumption.
  - intros routeName i Hi Hroute. unfold toggleRoute. unfold bind at 1. unfold gets at 1.
    rewrite Hi. unfold bind at 1. unfold modify at 1. unfold bind at 1.
    match goal with |- context [saveConfig rt ?w1] =>
      destruct (saveConfig_returns w1) as (b & tl & -> & Htl); set (ws := set_trace _ w1) end.
    assert (quiet w ws) as Hq by (now exists tl).
    unfold bind at 1. unfold gets at 1. unfold bind at 1. unfold gets at 1.
    replace (routes ws !! i) with (Some (flip_enabled route)).
    2:{ subst ws. cbn. rewrite list_lookup_alter_eq, Hroute. reflexivity. }
    destruct (find_active routeName ws) as [a|].
    + destruct (negb (truthy (enabled (flip_enabled route)))).
      * unfold bind at 1.
        destruct (stop_active_returns routeName a ws) as (w2 & -> & Hx & Hq2 & Ha & _).
        eexists _, w2. split; [reflexivity|]. split; [reflexivity|]. split.
        -- intros a0. destruct Ha as [-> | ->]; intros H0;
             first [exact H0 | eapply without_name_incl; exact H0].
        -- eapply quiet_trans; eassumption.
      * eexists _, ws. split; [reflexivity|]. split; [reflexivity|]. split; [auto | exact Hq].
    + destruct (truthy (enabled (flip_enabled route))).
      * unfold bind at 1. rewrite start_and_push_other_protocol by exact Hother.
        eexists _, ws. split; [reflexivity|]. split; [reflexivity|]. split; [auto | exact Hq].
      * eexists _, ws. split; [reflexivity|]. split; [reflexivity|]. split; [auto | exact Hq].
  - intros Hin Hw.
    destruct (startAllProxies_establishes (Forall tcp_or_udp)) with (w := w)
      as (w' & E & Hall); [constructor | apply start_route_tcp_or_udp | exact Hw |].
    exists w'. split; [exact E|]. intros a Ha Heq.
    rewrite Forall_forall in Hall. apply list_elem_of_In in Ha.
    destruct Hother as [Ht Hu]. rewrite <- Heq in Ht, Hu.
    destruct (Hall a Ha) as [Hp|Hp]; rewrite Hp in Ht, Hu; cbn in Ht, Hu; discriminate.
Qed.

(** ** toggleRoute *)

Lemma is_active_find routeName w :
  is_active routeName w =
  match find_active routeName w with Some _ => true | None => false end.
Proof.
  unfold is_active, find_active. induction (activeServers w) as [|a act IH]; [reflexivity|].
  cbn. destruct (strict_eq (a_name a) routeName); [reflexivity | exact IH].
Qed.

Lemma findIndex_alter_flip routeName (rs : list Route) (i : nat) :
  findIndex routeName (alter flip_enabled i rs) = findIndex routeName rs.
Proof.
  revert i. induction rs as [|r rs IH]; intros i; [reflexivity|].
  destruct i as [|i]; cbn; [reflexivity|]. now rewrite IH.
Qed.

Lemma flip_enabled_twice (rs : list Route) (i : nat) route b :
  rs !! i = Some route -> enabled route = VBool b ->
  alter flip_enabled i (alter flip_enabled i rs) = rs.
Proof.
  revert i. induction rs as [|r rs IH]; intros i Hi Hb; [reflexivity|].
  destruct i as [|i]; cbn in *.
  - injection Hi as ->. unfold flip_enabled. cbn. rewrite Hb. cbn.
    rewrite negb_involutive. destruct route; cbn in *. now subst.
  - f_equal. now apply IH.
Qed.

Lemma toggleRoute_returns routeName w i route :
  findIndex routeName (routes w) = Some i -> routes w !! i = Some route ->
  exists result w',
    toggleRoute rt routeName w = (Returned result, w') /\ success result = true /\
    routes w' = alter flip_enabled i (routes w) /\
    toggled routeName route w (activeServers w').
Proof.
  intros Hi Hroute. unfold toggleRoute. unfold bind at 1. unfold gets at 1.
  rewrite Hi. unfold bind at 1. unfold modify at 1. unfold bind at 1.
  match goal with |- context [saveConfig rt ?w1] =>
    destruct (saveConfig_returns w1) as (b & tl & -> & Htl); set (ws := set_trace _ w1) end.
  unfold bind at 1. unfold gets at 1. unfold bind at 1. unfold gets at 1.
  replace (routes ws !! i) with (Some (flip_enabled route)).
  2:{ subst ws. cbn. rewrite list_lookup_alter_eq, Hroute. reflexivity. }
  assert (find_active routeName ws = find_active routeName w) as Hf by reflexivity.
  unfold toggled. rewrite Hf.
  replace (truthy (enabled (flip_enabled route))) with (negb (truthy (enabled route)))
    by reflexivity.
  destruct (find_active routeName w) as [a|]; destruct (truthy (enabled route)); cbn [negb].
  - unfold bind at 1.
    destruct (stop_active_returns routeName a ws) as (w2 & -> & Hx & _ & Ha & Hnet).
    eexists _, w2. split; [reflexivity|]. split; [reflexivity|].
    split; [rewrite (ext_routes _ _ Hx); reflexivity|]. split; assumption.
  - eexists _, ws. repeat split.
  - eexists _, ws. repeat split.
  - unfold bind at 1. unfold start_and_push. unfold bind at 1.
    destruct (startProxy_returns (flip_enabled route) ws) as (o & w2 & E & Hx & Ha & Ho).
    rewrite E. destruct o as [h|]; unfold modify, ret.
    + eexists _, _. split; [reflexivity|]. split; [reflexivity|].
      split; [cbn; rewrite (ext_routes _ _ Hx); reflexivity|].
      left. exists h. split; [exact Ho|]. cbn. now rewrite Ha.
    + eexists _, w2. split; [reflexivity|]. split; [reflexivity|].
      split; [rewrite (ext_routes _ _ Hx); reflexivity|].
      right. split; [|exact Ha]. intros [h Hs].
      destruct (startProxy_succeeds (flip_enabled route) ws (ex_intro _ h Hs))
        as (h' & w3 & E3 & _).
      rewrite E in E3. discriminate.
Qed.

Lemma find_app_absent {A} (f : A -> bool) (l : list A) (x : A) :
  List.find f l = None -> f x = true -> List.find f (l ++ [x]) = Some x.
Proof.
  induction l as [|y l IH]; cbn; intros Hl Hx; [now rewrite Hx|].
  destruct (f y); [discriminate | now apply IH].
Qed.

Lemma without_name_snoc routeName act e :
  strict_eq (a_name e) routeName = true ->
  without_name routeName (act ++ [e]) = without_name routeName act.
Proof.
  intros He. unfold without_name. rewrite List.filter_app. cbn. rewrite He. cbn.
  apply app_nil_r.
Qed.

(** C8 (as amended).  For a route of the table whose [enabled] flag is a
    boolean, two [toggleRoute] calls in a row both succeed and give the
    route table back as it was, so the flag is restored.  They also restore
    whether the name has an active listener when the route is not a UDP
    route, it had a listener exactly when it was enabled, any listener under
    its name is a [net.Server], and, if it was running, it can be started
    again: it is a TCP route, no listener of another name holds its address
    and the platform accepts the [listen] call. *)
Theorem toggle_twice (routeName : value) (w : World) (i : nat) (route : Route) (b : bool) :
  findIndex routeName (routes w) = Some i ->
  routes w !! i = Some route ->
  enabled route = VBool b ->
  exists r1 w1 r2 w2,
    toggleRoute rt routeName w = (Returned r1, w1) /\ success r1 = true /\
    toggleRoute rt routeName w1 = (Returned r2, w2) /\ success r2 = true /\
    routes w2 = routes w /\
    (strict_eq (protocol route) (VStr "udp") = false ->
     (forall a, In a (activeServers w) -> strict_eq (a_name a) routeName = true ->
                exists id, a_server a = NetServer id) ->
     is_active routeName w = b ->
     (b = true ->
      protocol route = VStr "tcp" /\
      listen_error rt (port (listen route)) (host (listen route)) = None /\
      forall a, In a (activeServers w) -> strict_eq (a_name a) routeName = false ->
                tcp_collision route a = false) ->
     is_active routeName w2 = is_active routeName w).
Proof.
  intros Hi Hroute Hb.
  destruct (toggleRoute_returns routeName w i route Hi Hroute)
    as (r1 & w1 & E1 & S1 & R1 & T1).
  assert (findIndex routeName (routes w1) = Some i) as Hi1
    by (now rewrite R1, findIndex_alter_flip).
  assert (routes w1 !! i = Some (flip_enabled route)) as Hroute1
    by (now rewrite R1, list_lookup_alter_eq, Hroute).
  destruct (toggleRoute_returns routeName w1 i _ Hi1 Hroute1)
    as (r2 & w2 & E2 & S2 & R2 & T2).
  exists r1, w1, r2, w2. split; [exact E1|]. split; [exact S1|].
  split; [exact E2|]. split; [exact S2|]. split.
  { rewrite R2, R1. eapply flip_enabled_twice; eassumption. }
  intros Hudp Hnet Hact Hrestart.
  unfold toggled in T1, T2. cbn in T2. rewrite Hb in T1, T2. cbn in T1, T2.
  rewrite (is_active_find routeName w2), (is_active_find routeName w).
  rewrite is_active_find in Hact.
  destruct (find_active routeName w) as [a|] eqn:Hf; subst b; cbn in T1, T2.
  - (* enabled and running: stopped, then started again *)
    assert (In a (activeServers w) /\ strict_eq (a_name a) routeName = true) as [Hin Hname]
      by (now apply List.find_some in Hf).
    destruct T1 as [_ T1]. specialize (T1 (Hnet a Hin Hname)).
    assert (find_active routeName w1 = None) as Hf1
      by (unfold find_active; rewrite T1; apply find_without_name).
    rewrite Hf1 in T2.
    destruct (Hrestart eq_refl) as (Hp & Hl & Hfree).
    assert (started (flip_enabled route) w1 (NetServer (next_id w1))) as Hs.
    { left. cbn. repeat split; try assumption.
      apply not_true_iff_false. intros Hex.
      apply existsb_exists in Hex as (a0 & Ha0 & Hc). rewrite T1 in Ha0.
      apply List.filter_In in Ha0 as [Ha0 Hn0]. apply negb_true_iff in Hn0.
      specialize (Hfree a0 Ha0 Hn0). unfold tcp_collision in *. cbn in Hc. congruence. }
    destruct T2 as [(h & _ & T2)|(Hno & _)]; [|exfalso; apply Hno; eauto].
    unfold find_active. rewrite T2, T1.
    erewrite find_app_absent; [reflexivity | apply find_without_name | cbn].
    eapply strict_eq_self; eassumption.
  - (* disabled and not running: perhaps started, then stopped *)
    destruct T1 as [(h & Hs & T1)|(_ & T1)].
    + assert (h = NetServer (next_id w)) as ->.
      { destruct Hs as [(_ & -> & _)|(Hp & _)]; [reflexivity|].
        rewrite Hp in Hudp. discriminate. }
      set (e := mkActive routeName (protocol route) (listen route) (forward route)
                         (NetServer (next_id w))) in *.
      assert (strict_eq (a_name e) routeName = true) as He.
      { destruct (findIndex_Some _ _ _ Hi) as (r & _ & Hn). cbn.
        eapply strict_eq_self; eassumption. }
      assert (find_active routeName w1 = Some e) as Hf1
        by (unfold find_active; rewrite T1; now apply find_app_absent).
      rewrite Hf1 in T2. destruct T2 as [_ T2]. specialize (T2 (ex_intro _ _ eq_refl)).
      unfold find_active. rewrite T2, T1, without_name_snoc by exact He.
      now rewrite find_without_name.
    + assert (find_active routeName w1 = None) as Hf1
        by (unfold find_active; now rewrite T1).
      rewrite Hf1 in T2. unfold find_active. rewrite T2, T1. unfold find_active in Hf.
      now rewrite Hf.
Qed.

(** ** The idle timer of a UDP session *)

Lemma clients_get_set k s (m : Clients) : clients_get k (clients_set k s m) = Some s.
Proof.
  induction m as [|[k' s'] m IH]; cbn.
  - now rewrite String.eqb_refl.
  - destruct (String.eqb k' k) eqn:E; cbn; now rewrite E.
Qed.

Lemma timer_delay_in_range delay :
  1 <= delay <= TIMEOUT_MAX -> timer_delay delay = delay.
Proof.
  intros [H1 H2]. unfold timer_delay.
  apply Z.leb_le in H1, H2. now rewrite H1, H2.
Qed.

Lemma timer_delay_out_of_range delay :
  ~ (1 <= delay <= TIMEOUT_MAX) -> timer_delay delay = 1.
Proof.
  intros H. unfold timer_delay.
  destruct (Z.leb_spec 1 delay), (Z.leb_spec delay TIMEOUT_MAX); cbn; try reflexivity.
  exfalso. apply H. now split.
Qed.

Lemma timer_delay_positive delay : 1 <= timer_delay delay.
Proof.
  unfold timer_delay. destruct (Z.leb_spec 1 delay); cbn; [|lia].
  destruct (delay <=? TIMEOUT_MAX); lia.
Qed.

(** C1 (as amended).  Processing a datagram that a client sends to a
    listener where it has a session cancels the pending idle timer of the
    session and starts a fresh one.  The fresh timer is due a full
    [udpTimeout] later when [udpTimeout] is a delay from 1 to 2147483647
    milliseconds, and one millisecond later otherwise, which is how the
    platform runs any other delay; until it is due that timer does not fire,
    so it does not evict a session whose client sent within that window.  A
    reply arriving from the backend on the session's own socket is only
    relayed: it leaves the pending timers and the session tables as they
    are. *)
Theorem client_datagram_resets_idle_timer
    (udpServer : nat) (message : string) (rinfo : Rinfo) (w : World)
    (route : Route) (cs : Clients) (client : Session) :
  objects w !! udpServer = Some (UdpListener route cs) ->
  clients_get (clientKey_of rinfo) cs = Some client ->
  (exists w',
      udpServer_on_message rt udpServer message rinfo w = (Returned tt, w') /\
      timer_reset udpServer (clientKey_of rinfo) w w' /\
      (forall client' t,
        clients_get (clientKey_of rinfo) (clients_of udpServer w') = Some client' ->
        timers w' !! timeout client' = Some t ->
        (1 <= udpTimeout w <= TIMEOUT_MAX -> deadline t = now w + udpTimeout w) /\
        (~ (1 <= udpTimeout w <= TIMEOUT_MAX) -> deadline t = now w + 1)) /\
      forall client' ms,
        clients_get (clientKey_of rinfo) (clients_of udpServer w') = Some client' ->
        ms < timer_delay (udpTimeout w) ->
        timeout_fires (timeout client') (snd (advance ms w')) =
          (Returned tt, snd (advance ms w'))) /\
  (forall clientSocket forwardedMessage,
      let w' := snd (clientSocket_on_message rt clientSocket forwardedMessage w) in
      timers w' = timers w /\ objects w' = objects w).
Proof.
  intros Hobj Hget. split.
  - unfold udpServer_on_message. unfold bind at 1. unfold gets at 1. rewrite Hobj.
    unfold bind at 1. unfold gets at 1.
    assert (clients_of udpServer w = cs) as Hcs by (unfold clients_of; now rewrite Hobj).
    unfold clients_has. rewrite Hcs, Hget. cbn [negb].
    unfold bind at 1. unfold ret at 1. unfold bind at 1. unfold gets at 1.
    rewrite Hcs, Hget.
    assert (forall w1 tm,
      clients_get (clientKey_of rinfo) (clients_of udpServer w1) =
        Some (mkSession (socket client) (next_id w)) ->
      timers w1 = <[next_id w := tm]> (delete (timeout client) (timers w)) ->
      deadline tm = now w + timer_delay (udpTimeout w) -> t_server tm = udpServer ->
      t_key tm = clientKey_of rinfo -> now w1 = now w ->
      timer_reset udpServer (clientKey_of rinfo) w w1 /\
      (forall client' t,
        clients_get (clientKey_of rinfo) (clients_of udpServer w1) = Some client' ->
        timers w1 !! timeout client' = Some t ->
        (1 <= udpTimeout w <= TIMEOUT_MAX -> deadline t = now w + udpTimeout w) /\
        (~ (1 <= udpTimeout w <= TIMEOUT_MAX) -> deadline t = now w + 1)) /\
      forall client' ms,
        clients_get (clientKey_of rinfo) (clients_of udpServer w1) = Some client' ->
        ms < timer_delay (udpTimeout w) ->
        timeout_fires (timeout client') (snd (advance ms w1)) =
          (Returned tt, snd (advance ms w1))) as Hfinal.
    { intros w1 tm Hc Ht Hd Hts Htk Hnow. split; [|split].
      - exists client, (mkSession (socket client) (next_id w)), tm.
        rewrite Hcs. repeat split; assumption.
      - intros client' t Hc' Hl. rewrite Hc in Hc'. injection Hc' as <-. cbn in Hl.
        rewrite Ht, lookup_insert_eq in Hl. injection Hl as <-. rewrite Hd. split; intros Hr.
        + now rewrite timer_delay_in_range.
        + now rewrite timer_delay_out_of_range.
      - intros client' ms Hc' Hms. rewrite Hc in Hc'. injection Hc' as <-.
        unfold timeout_fires, advance. unfold_platform. cbn.
        rewrite Ht, lookup_insert_eq, Hd, Hnow.
        destruct (Z.leb_spec (now w + timer_delay (udpTimeout w)) (now w + ms));
          [lia | reflexivity]. }
    unfold_platform. unfold update_clients. unfold_platform. cbn.
    destruct (negb (valid_port rt _) || negb (valid_address _)); cbn;
      [|destruct (bool_decide _); cbn];
      (eexists; split; [reflexivity|]); eapply Hfinal; cbn;
      try reflexivity;
      unfold clients_of; cbn; rewrite lookup_alter_eq, Hobj; cbn; apply clients_get_set.
  - intros clientSocket forwardedMessage. unfold clientSocket_on_message. unfold_platform.
    destruct (objects w !! clientSocket) as [[| |srv ri key]|];
      cbn -[valid_port valid_address]; try now split.
    destruct (negb (valid_port rt _) || negb (valid_address _)); cbn; [now split|].
    destruct (bool_decide _); cbn; now split.
Qed.

(** ** What the route manager stores *)

Lemma addRoute_new routeConfig w :
  (forall r, In r (routes w) -> strict_eq (name r) (name routeConfig) = false) ->
  exists w',
    addRoute rt routeConfig w =
      (Returned (mkResult true ("Route " +:+ show (name routeConfig) +:+
                                " added successfully")), w') /\
    routes w' = (routes w ++ [routeConfig])%list.
Proof.
  intros Hnew. unfold addRoute. unfold bind at 1. unfold gets at 1.
  rewrite (find_absent _ _ Hnew).
  unfold bind at 1. unfold modify at 1. unfold bind at 1.
  match goal with |- context [saveConfig rt ?w1] =>
    destruct (saveConfig_returns w1) as (b & tl & -> & Htl); set (ws := set_trace _ w1) end.
  unfold bind at 1.
  destruct (truthy (enabled routeConfig)).
  - destruct (start_and_push_returns (name routeConfig) routeConfig ws) as (w' & -> & Hx & _).
    exists w'. split; [reflexivity|]. now rewrite (ext_routes _ _ Hx).
  - exists ws. now split.
Qed.

Lemma updateRoute_found routeName routeConfig w i :
  findIndex routeName (routes w) = Some i ->
  exists w',
    updateRoute rt routeName routeConfig w =
      (Returned (mkResult true ("Route " +:+ show routeName +:+
                                " updated successfully")), w') /\
    routes w' = <[i := with_name routeConfig routeName]> (routes w).
Proof.
  intros Hi. unfold updateRoute. unfold bind at 1. unfold gets at 1.
  rewrite Hi. unfold bind at 1. unfold modify at 1. unfold bind at 1.
  match goal with |- context [saveConfig rt ?w1] =>
    destruct (saveConfig_returns w1) as (b & tl & -> & Htl); set (ws := set_trace _ w1) end.
  unfold bind at 1. unfold gets at 1. unfold bind at 1.
  assert (exists w2,
    match find_active routeName ws with
    | Some activeServer => stop_active routeName activeServer
    | None => ret tt
    end ws = (Returned tt, w2) /\ routes w2 = routes ws) as (w2 & -> & Hr2).
  { destruct (find_active routeName ws) as [a|].
    - destruct (stop_active_returns routeName a ws) as (w2 & E & Hx & _).
      exists w2. split; [exact E | apply (ext_routes _ _ Hx)].
    - exists ws. now split. }
  unfold bind at 1. destruct (truthy (enabled routeConfig)).
  - destruct (start_and_push_returns routeName routeConfig w2) as (w' & -> & Hx & _).
    exists w'. split; [reflexivity|]. now rewrite (ext_routes _ _ Hx), Hr2.
  - exists w2. split; [reflexivity|]. now rewrite Hr2.
Qed.

(** ** The control-plane boundary *)

Lemma route_literal_returns nm data w :
  field_truthy (d_listen data) = true -> field_truthy (d_forward data) = true ->
  exists routeConfig,
    route_literal parseInt nm data w = (Returned routeConfig, w) /\
    name routeConfig = nm /\ protocol routeConfig = d_protocol data /\
    listen routeConfig =
      mkEndpoint (js_or (field_host (d_listen data)) (VStr "0.0.0.0"))
                 (parseInt (field_port (d_listen data))) /\
    forward routeConfig =
      mkEndpoint (field_host (d_forward data)) (parseInt (field_port (d_forward data))) /\
    defaults_applied data routeConfig.
Proof.
  intros Hl Hf. unfold route_literal, defaults_applied.
  destruct (d_listen data) as [[]|lh lp]; try discriminate;
    destruct (d_forward data) as [[]|fh fp]; try discriminate;
    unfold get_host, get_port, bind, ret; cbn;
    (eexists; split; [reflexivity|]; cbn; repeat split; try reflexivity;
     try (intros ->; reflexivity);
     intros Hd; destruct (d_enabled data) as [| |[]| | |]; cbn; congruence).
Qed.

(** C10. For a POST /routes or PUT /routes/<name> request that passes the
    required-field check, the route that reaches [addRoute] or [updateRoute]
    and is stored in the table has ["0.0.0.0"] as [listen.host] when the
    request has none or a falsy one (and the request's own otherwise), and
    has [enabled] [false] only when the request has [enabled] [false];
    anything else, an absent [enabled] included, gives [true]. *)
Theorem api_defaults (data : Request) (w : World) :
  (truthy (d_name data) = true -> truthy (d_protocol data) = true ->
   field_truthy (d_listen data) = true -> field_truthy (d_forward data) = true ->
   exists routeConfig,
     defaults_applied data routeConfig /\
     api_add_route rt parseInt data w =
       api_guard
         (result <- addRoute rt routeConfig ;;
          ret (mkResponse (if success result then 201 else 400) result)) w /\
     ((forall r, In r (routes w) -> strict_eq (name r) (d_name data) = false) ->
      exists result w',
        api_add_route rt parseInt data w = (Returned (mkResponse 201 result), w') /\
        routes w' = (routes w ++ [routeConfig])%list)) /\
  (forall routeName,
      truthy (d_protocol data) = true ->
      field_truthy (d_listen data) = true -> field_truthy (d_forward data) = true ->
      exists routeConfig,
        defaults_applied data routeConfig /\
        api_update_route rt parseInt routeName data w =
          api_guard
            (result <- updateRoute rt (VStr routeName) routeConfig ;;
             ret (mkResponse (if success result then 200 else 404) result)) w /\
        forall i,
          findIndex (VStr routeName) (routes w) = Some i ->
          exists result w',
            api_update_route rt parseInt routeName data w =
              (Returned (mkResponse 200 result), w') /\
            routes w' !! i = Some (with_name routeConfig (VStr routeName))).
Proof.
  split.
  - intros Hn Hp Hl Hf.
    destruct (route_literal_returns (d_name data) data w Hl Hf)
      as (rc & E & Hname & _ & _ & _ & Hd).
    assert (api_add_route rt parseInt data w =
            api_guard
              (result <- addRoute rt rc ;;
               ret (mkResponse (if success result then 201 else 400) result)) w) as Eapi.
    { unfold api_add_route, api_guard, try_catch. rewrite Hn, Hp, Hl, Hf. cbn [negb orb].
      unfold bind at 1. now rewrite E. }
    exists rc. split; [exact Hd|]. split; [exact Eapi|].
    intros Hnew. rewrite <- Hname in Hnew.
    destruct (addRoute_new rc w Hnew) as (w' & Ea & Hr).
    eexists _, w'. split; [|exact Hr].
    rewrite Eapi. unfold api_guard, try_catch, bind. rewrite Ea. reflexivity.
  - intros routeName Hp Hl Hf.
    destruct (route_literal_returns VUndefined data w Hl Hf)
      as (rc & E & _ & _ & _ & _ & Hd).
    assert (api_update_route rt parseInt routeName data w =
            api_guard
              (result <- updateRoute rt (VStr routeName) rc ;;
               ret (mkResponse (if success result then 200 else 404) result)) w) as Eapi.
    { unfold api_update_route, api_guard, try_catch. rewrite Hp, Hl, Hf. cbn [negb orb].
      unfold bind at 1. now rewrite E. }
    exists rc. split; [exact Hd|]. split; [exact Eapi|].
    intros i Hi.
    destruct (updateRoute_found (VStr routeName) rc w i Hi) as (w' & Eu & Hr).
    eexists _, w'. split.
    + rewrite Eapi. unfold api_guard, try_catch, bind. rewrite Eu. reflexivity.
    + rewrite Hr. apply list_lookup_insert_eq.
      destruct (findIndex_Some _ _ _ Hi) as (r & Hri & _).
      now apply lookup_lt_Some in Hri.
Qed.

(** ** The shape of the active set *)

Lemma well_formed_tcp_or_udp w : well_formed w -> Forall tcp_or_udp (activeServers w).
Proof.
  intros Hw. eapply Forall_impl; [exact Hw|].
  intros a [[H _]|[H _]]; [now left | now right].
Qed.

Lemma start_and_push_well_formed entryName route w :
  well_formed w -> well_formed (snd (start_and_push rt entryName route w)).
Proof.
  intros Hw. destruct (start_and_push_returns entryName route w) as (w' & E & _ & H).
  rewrite E. cbn. unfold well_formed. destruct H as [->|(h & Hs & ->)]; [exact Hw|].
  apply Forall_app. split; [exact Hw|]. constructor; [|constructor].
  destruct Hs as [(Hp & -> & _)|(Hp & -> & _)]; [left | right]; cbn; eauto.
Qed.

Lemma stop_active_well_formed routeName a w :
  well_formed w -> well_formed (snd (stop_active routeName a w)).
Proof.
  intros Hw. destruct (stop_active_returns routeName a w) as (w' & E & _ & _ & H & _).
  rewrite E. cbn. unfold well_formed, without_name. destruct H as [-> | ->]; [exact Hw|].
  apply Forall_forall. intros x Hx. apply list_elem_of_In, List.filter_In in Hx as [Hx _].
  unfold well_formed in Hw. rewrite Forall_forall in Hw. now apply Hw, list_elem_of_In.
Qed.

(** Every entry of the active set has this shape, from the empty set on:
    the operations of the route manager, [startAllProxies] and the ['error']
    handlers of the listeners keep it so. *)
Lemma well_formed_kept w :
  well_formed w ->
  well_formed (snd (startAllProxies rt w)) /\
  (forall routeConfig, well_formed (snd (addRoute rt routeConfig w))) /\
  (forall routeName, well_formed (snd (removeRoute rt routeName w))) /\
  (forall routeName routeConfig, well_formed (snd (updateRoute rt routeName routeConfig w))) /\
  (forall routeName, well_formed (snd (toggleRoute rt routeName w))) /\
  (forall tcpServer err, well_formed (snd (tcpServer_on_error tcpServer err w))) /\
  (forall udpServer err, well_formed (snd (udpServer_on_error udpServer err w))).
Proof.
  intros Hw.
  assert (forall (f : Active -> bool) w0, well_formed w0 ->
            Forall pushed_by_code (List.filter f (activeServers w0))) as Hfilter.
  { intros f w0 H0. apply Forall_forall. intros x Hx.
    apply list_elem_of_In, List.filter_In in Hx as [Hx _].
    unfold well_formed in H0. rewrite Forall_forall in H0. now apply H0, list_elem_of_In. }
  assert (forall routeName w0, well_formed w0 ->
            well_formed (snd (match find_active routeName w0 with
                              | Some activeServer => stop_active routeName activeServer
                              | None => ret tt
                              end w0))) as Hstop.
  { intros routeName w0 H0. destruct (find_active routeName w0);
      [now apply stop_active_well_formed | exact H0]. }
  assert (forall w0 tl, well_formed w0 -> well_formed (set_trace tl w0)) as Htrace
    by (intros; assumption).
  split; [|split; [|split; [|split; [|split; [|split]]]]].
  - destruct (startAllProxies_establishes (Forall pushed_by_code)) with (w := w)
      as (w' & -> & H); [constructor | | now apply well_formed_tcp_or_udp | exact H].
    intros route w0 H0. unfold start_route.
    destruct (truthy (enabled route)); [now apply start_and_push_well_formed | exact H0].
  - intros routeConfig. unfold addRoute. unfold bind at 1. unfold gets at 1.
    destruct (List.find _ (routes w)); [exact Hw|].
    unfold bind at 1. unfold modify at 1. unfold bind at 1.
    match goal with |- context [saveConfig rt ?w1] =>
      destruct (saveConfig_returns w1) as (b & tl & -> & _); set (ws := set_trace _ w1) end.
    assert (well_formed ws) as Hws by exact Hw.
    unfold bind at 1. destruct (truthy (enabled routeConfig)).
    + pose proof (start_and_push_well_formed (name routeConfig) routeConfig ws Hws) as H.
      destruct (start_and_push_returns (name routeConfig) routeConfig ws) as (w' & E & _).
      rewrite E in H |- *. exact H.
    + exact Hws.
  - intros routeName. unfold removeRoute. unfold bind at 1. unfold gets at 1.
    destruct (findIndex routeName (routes w)); [|exact Hw].
    unfold bind at 1. unfold gets at 1. unfold bind at 1.
    pose proof (Hstop routeName w Hw) as H.
    destruct (match find_active routeName w with
              | Some activeServer => stop_active routeName activeServer
              | None => ret tt
              end w) as [[[]|e] w1] eqn:E; cbn in H; [|exact H].
    unfold bind at 1. unfold modify at 1. unfold bind at 1.
    match goal with |- context [saveConfig rt ?w2] =>
      destruct (saveConfig_returns w2) as (b & tl & -> & _) end.
    exact H.
  - intros routeName routeConfig. unfold updateRoute. unfold bind at 1. unfold gets at 1.
    destruct (findIndex routeName (routes w)); [|exact Hw].
    unfold bind at 1. unfold modify at 1. unfold bind at 1.
    match goal with |- context [saveConfig rt ?w1] =>
      destruct (saveConfig_returns w1) as (b & tl & -> & _); set (ws := set_trace _ w1) end.
    assert (well_formed ws) as Hws by exact Hw.
    unfold bind at 1. unfold gets at 1. unfold bind at 1.
    pose proof (Hstop routeName ws Hws) as H.
    destruct (match find_active routeName ws with
              | Some activeServer => stop_active routeName activeServer
              | None => ret tt
              end ws) as [[[]|e] w1] eqn:E; cbn in H; [|exact H].
    unfold bind at 1. destruct (truthy (enabled routeConfig)).
    + pose proof (start_and_push_well_formed routeName routeConfig w1 H) as H1.
      destruct (start_and_push_returns routeName routeConfig w1) as (w' & E1 & _).
      rewrite E1 in H1 |- *. exact H1.
    + exact H.
  - intros routeName. unfold toggleRoute. unfold bind at 1. unfold gets at 1.
    destruct (findIndex routeName (routes w)); [|exact Hw].
    unfold bind at 1. unfold modify at 1. unfold bind at 1.
    match goal with |- context [saveConfig rt ?w1] =>
      destruct (saveConfig_returns w1) as (b & tl & -> & _); set (ws := set_trace _ w1) end.
    assert (well_formed ws) as Hws by exact Hw.
    unfold bind at 1. unfold gets at 1. unfold bind at 1. unfold gets at 1.
    destruct (routes ws !! n) as [route|]; [|exact Hws].
    destruct (find_active routeName ws) as [a|].
    + destruct (negb (truthy (enabled route))); [|exact Hws].
      unfold bind at 1. pose proof (stop_active_well_formed routeName a ws Hws) as H.
      destruct (stop_active_returns routeName a ws) as (w' & E & _).
      rewrite E in H |- *. exact H.
    + destruct (truthy (enabled route)); [|exact Hws].
      unfold bind at 1. pose proof (start_and_push_well_formed routeName route ws Hws) as H.
      destruct (start_and_push_returns routeName route ws) as (w' & E & _).
      rewrite E in H |- *. exact H.
  - intros tcpServer err. unfold tcpServer_on_error. unfold_platform.
    destruct (objects w !! tcpServer) as [[| |]|]; cbn; try exact Hw. now apply Hfilter.
  - intros udpServer err. unfold udpServer_on_error. unfold_platform.
    destruct (objects w !! udpServer) as [[| |]|]; cbn; try exact Hw.
    destruct (bool_decide _); cbn; now apply Hfilter.
Qed.

(** ** The object that a UDP entry holds *)

(** The stop block of [removeRoute], [updateRoute] and [toggleRoute] changes
    nothing but the log when the listener it is given is a UDP one: the
    [close] call throws before the entry is filtered out. *)
Lemma stop_active_udp routeName a w udpServer :
  tcp_or_udp a -> a_server a = UdpProxy udpServer ->
  stop_active routeName a w =
    (Returned tt,
     set_trace (trace w ++
                [Log Error ("Failed to stop server for route " +:+ show routeName +:+
                            ": activeServer.server.close is not a function")]) w).
Proof.
  intros Hp Hs. unfold stop_active. rewrite Hs. destruct Hp as [-> | ->]; reflexivity.
Qed.

(** [stopAllProxies] closes the sockets of the sessions of a UDP listener
    and nothing else of it: at the turn of a UDP entry, a handle that is open
    and is not the socket of one of its sessions stays open, the listening
    socket in particular. *)
Lemma close_clients_keeps_open cs w (x : nat) :
  x ∈ open w -> (forall k s, In (k, s) cs -> socket s <> x) ->
  x ∈ open (snd (close_clients cs w)).
Proof.
  revert w. induction cs as [|[clientKey client] cs IH]; intros w Hx Hcs; [exact Hx|].
  simpl. unfold_platform. cbn. destruct (bool_decide _); cbn; [|exact Hx].
  apply IH.
  - cbn. assert (socket client <> x) by (eapply Hcs; now left). set_solver.
  - intros k s Hin. eapply Hcs. right. exact Hin.
Qed.

Lemma stop_server_udp_keeps_open a w udpServer (x : nat) :
  a_protocol a = VStr "udp" -> a_server a = UdpProxy udpServer ->
  x ∈ open w ->
  (forall k s, In (k, s) (clients_of udpServer w) -> socket s <> x) ->
  x ∈ open (snd (stop_server a w)).
Proof.
  intros Hp Hs Hx Hcs. unfold stop_server. rewrite Hp, Hs. cbn.
  unfold try_catch, bind at 1, bind at 1, gets at 1. cbn.
  pose proof (close_clients_keeps_open _ w x Hx Hcs) as H.
  unfold bind at 1.
  destruct (close_clients (clients_of udpServer w) w) as [[[]|e] w1]; cbn in H |- *;
    exact H.
Qed.

(** [updateRoute] on a route whose running listener is a UDP one leaves that
    listener in the active set. *)
Lemma updateRoute_udp_keeps_old_entry routeName routeConfig w i a udpServer :
  findIndex routeName (routes w) = Some i ->
  find_active routeName w = Some a ->
  tcp_or_udp a -> a_server a = UdpProxy udpServer ->
  In a (activeServers (snd (updateRoute rt routeName routeConfig w))).
Proof.
  intros Hi Hfind Hp Hs.
  assert (In a (activeServers w)) as Hin by (now apply List.find_some in Hfind).
  unfold updateRoute. unfold bind at 1. unfold gets at 1.
  rewrite Hi. unfold bind at 1. unfold modify at 1. unfold bind at 1.
  match goal with |- context [saveConfig rt ?w1] =>
    destruct (saveConfig_returns w1) as (b & tl & -> & _); set (ws := set_trace _ w1) end.
  unfold bind at 1. unfold gets at 1. unfold bind at 1.
  replace (find_active routeName ws) with (Some a) by (symmetry; exact Hfind).
  rewrite (stop_active_udp routeName a ws udpServer Hp Hs).
  unfold bind at 1. destruct (truthy (enabled routeConfig)); [|exact Hin].
  match goal with |- context [start_and_push rt routeName routeConfig ?w2] =>
    destruct (start_and_push_returns routeName routeConfig w2) as (w' & -> & _ & H) end.
  cbn. destruct H as [-> | (h & _ & ->)]; [exact Hin | apply in_or_app; now left].
Qed.

(** The ['error'] handler of a UDP listener removes no entry of a
    well-formed active set. *)
Lemma udpServer_on_error_removes_nothing udpServer err w :
  well_formed w ->
  activeServers (snd (udpServer_on_error udpServer err w)) = activeServers w.
Proof.
  intros Hw.
  assert (List.filter (fun s => negb (handle_eqb (a_server s) (DgramSocket udpServer)))
                      (activeServers w) = activeServers w) as Hsame.
  { unfold well_formed in Hw. induction Hw as [|a act Ha _ IH]; [reflexivity|].
    cbn. rewrite IH. now destruct Ha as [(_ & id & ->)|(_ & id & ->)]. }
  unfold udpServer_on_error. unfold_platform.
  destruct (objects w !! udpServer) as [[| |]|]; cbn; try reflexivity.
  destruct (bool_decide _); cbn; exact Hsame.
Qed.

(** ** More on the route manager *)

Lemma find_present {A} (f : A -> bool) (l : list A) (x : A) :
  In x l -> f x = true -> exists y, List.find f l = Some y.
Proof.
  induction l as [|z l IH]; intros Hin Hx; [destruct Hin|]. cbn.
  destruct (f z) eqn:E; [eauto|]. destruct Hin as [->|Hin]; [congruence | auto].
Qed.

(** X1. [addRoute] with a name that a route of the table already has
    returns the failure result and leaves the world as it was: nothing is
    added, saved or started. *)
Theorem addRoute_rejects_duplicate (routeConfig r : Route) (w : World) :
  In r (routes w) -> strict_eq (name r) (name routeConfig) = true ->
  addRoute rt routeConfig w =
    (Returned (mkResult false ("Route with name " +:+ show (name routeConfig) +:+
                               " already exists")), w).
Proof.
  intros Hin Hname. unfold addRoute, bind, gets.
  destruct (find_present (fun r0 => strict_eq (name r0) (name routeConfig)) _ r Hin Hname)
    as (y & ->).
  reflexivity.
Qed.

Lemma removeRoute_found routeName w i :
  findIndex routeName (routes w) = Some i ->
  exists w',
    removeRoute rt routeName w =
      (Returned (mkResult true ("Route " +:+ show routeName +:+ " removed successfully")),
       w') /\
    routes w' = delete i (routes w) /\
    match find_active routeName w with
    | Some a =>
        (activeServers w' = activeServers w \/
         activeServers w' = without_name routeName (activeServers w)) /\
        ((exists id, a_server a = NetServer id) ->
         activeServers w' = without_name routeName (activeServers w))
    | None => activeServers w' = activeServers w
    end.
Proof.
  intros Hi. unfold removeRoute. unfold bind at 1. unfold gets at 1. rewrite Hi.
  unfold bind at 1. unfold gets at 1. unfold bind at 1.
  destruct (find_active routeName w) as [a|].
  - destruct (stop_active_returns routeName a w) as (w1 & -> & Hx & _ & Ha & Hnet).
    unfold bind at 1. unfold modify at 1. unfold bind at 1.
    match goal with |- context [saveConfig rt ?w2] =>
      destruct (saveConfig_returns w2) as (b & tl & -> & _) end.
    eexists. split; [reflexivity|]. cbn. rewrite (ext_routes _ _ Hx). now repeat split.
  - unfold ret at 1. unfold bind at 1. unfold modify at 1. unfold bind at 1.
    match goal with |- context [saveConfig rt ?w2] =>
      destruct (saveConfig_returns w2) as (b & tl & -> & _) end.
    eexists. split; [reflexivity|]. cbn. now split.
Qed.


Lemma removeRoute_runs routeName w :
  exists result w', removeRoute rt routeName w = (Returned result, w').
Proof.
  destruct (findIndex routeName (routes w)) as [i|] eqn:E.
  - destruct (removeRoute_found routeName w i E) as (w' & -> & _). eauto.
  - unfold removeRoute, bind, gets. rewrite E. eauto.
Qed.


Lemma toggleRoute_runs routeName w :
  exists result w', toggleRoute rt routeName w = (Returned result, w').
Proof.
  destruct (findIndex routeName (routes w)) as [i|] eqn:E.
  - destruct (findIndex_Some _ _ _ E) as (route & Hr & _).
    destruct (toggleRoute_returns routeName w i route E Hr) as (res & w' & -> & _). eauto.
  - unfold toggleRoute, bind, gets. rewrite E. eauto.
Qed.


Lemma distinct_snoc vs v :
  distinct vs -> (forall a, In a vs -> strict_eq a v = false) -> distinct (vs ++ [v]).
Proof.
  intros Hvs Hv i j a b Hi Hj Hne.
  destruct (decide (i < length vs)%nat) as [Hli|Hli];
    destruct (decide (j < length vs)%nat) as [Hlj|Hlj].
  - rewrite lookup_app_l in Hi, Hj by assumption. eapply Hvs; eassumption.
  - rewrite lookup_app_l in Hi by assumption.
    rewrite lookup_app_r in Hj by lia.
    destruct (j - length vs)%nat as [|k] eqn:Ek; simpl in Hj; [|discriminate].
    injection Hj as <-. apply Hv. apply list_elem_of_In. eapply list_elem_of_lookup_2; eassumption.
  - rewrite lookup_app_l in Hj by assumption.
    rewrite lookup_app_r in Hi by lia.
    destruct (i - length vs)%nat as [|k] eqn:Ek; simpl in Hi; [|discriminate].
    injection Hi as <-. rewrite strict_eq_sym. apply Hv.
    apply list_elem_of_In. eapply list_elem_of_lookup_2; eassumption.
  - rewrite lookup_app_r in Hi, Hj by lia.
    destruct (i - length vs)%nat as [|k] eqn:Eki; simpl in Hi; [|discriminate].
    destruct (j - length vs)%nat as [|k] eqn:Ekj; simpl in Hj; [|discriminate].
    lia.
Qed.

Lemma distinct_delete (vs : list value) (k : nat) : distinct vs -> distinct (delete k vs).
Proof.
  intros Hvs i j a b Hi Hj Hne.
  rewrite list_lookup_delete in Hi, Hj.
  destruct (decide (i < k)%nat), (decide (j < k)%nat);
    (eapply Hvs; [exact Hi | exact Hj | lia]).
Qed.

(** X3. The names of the route table stay pairwise distinct: if no two
    routes share a name, none do after [addRoute], [removeRoute],
    [updateRoute] or [toggleRoute], whatever their arguments and outcome. *)
Theorem route_names_stay_distinct (w : World) :
  distinct_names (routes w) ->
  (forall routeConfig, distinct_names (routes (snd (addRoute rt routeConfig w)))) /\
  (forall routeName, distinct_names (routes (snd (removeRoute rt routeName w)))) /\
  (forall routeName routeConfig,
      distinct_names (routes (snd (updateRoute rt routeName routeConfig w)))) /\
  (forall routeName, distinct_names (routes (snd (toggleRoute rt routeName w)))).
Proof.
  intros Hw. unfold distinct_names in *. split; [|split; [|split]].
  - intros routeConfig.
    destruct (List.find (fun r => strict_eq (name r) (name routeConfig)) (routes w)) eqn:E.
    + unfold addRoute, bind, gets. rewrite E. exact Hw.
    + destruct (addRoute_new routeConfig w) as (w' & Ea & Hr').
      { intros r Hr. exact (List.find_none _ _ E r Hr). }
      rewrite Ea. cbn. rewrite Hr', fmap_app. apply distinct_snoc; [exact Hw|].
      intros a Ha. apply list_elem_of_In, list_elem_of_fmap in Ha as (r & -> & Hr).
      apply list_elem_of_In in Hr. exact (List.find_none _ _ E r Hr).
  - intros routeName. destruct (findIndex routeName (routes w)) as [i|] eqn:E.
    + destruct (removeRoute_found routeName w i E) as (w' & Er & Hr' & _).
      rewrite Er. cbn. rewrite Hr', list_fmap_delete. now apply distinct_delete.
    + unfold removeRoute, bind, gets. rewrite E. exact Hw.
  - intros routeName routeConfig. destruct (findIndex routeName (routes w)) as [i|] eqn:E.
    + destruct (updateRoute_found routeName routeConfig w i E) as (w' & Eu & Hr').
      rewrite Eu. cbn. rewrite Hr', list_fmap_insert. cbn.
      destruct (findIndex_Some _ _ _ E) as (r & Hr & Hn). apply strict_eq_eq in Hn.
      rewrite list_insert_id; [exact Hw|]. rewrite list_lookup_fmap, Hr. cbn. now f_equal.
    + unfold updateRoute, bind, gets. rewrite E. exact Hw.
  - intros routeName. destruct (findIndex routeName (routes w)) as [i|] eqn:E.
    + destruct (findIndex_Some _ _ _ E) as (route & Hr & _).
      destruct (toggleRoute_returns routeName w i route E Hr) as (res & w' & Et & _ & Hr' & _).
      rewrite Et. cbn. rewrite Hr'. rewrite (list_fmap_alter name flip_enabled id) by (apply Forall_true; intros; reflexivity).
      now rewrite list_alter_id.
    + unfold toggleRoute, bind, gets. rewrite E. exact Hw.
Qed.




(** X5. For a table of pairwise distinct names, [removeRoute] of the name
    of a route succeeds, after which the name is not in the table any more,
    while every route of another name still is. *)
Theorem removeRoute_forgets_name (routeName : value) (w : World) (i : nat) :
  findIndex routeName (routes w) = Some i ->
  distinct_names (routes w) ->
  exists w',
    removeRoute rt routeName w =
      (Returned (mkResult true ("Route " +:+ show routeName +:+ " removed successfully")),
       w') /\
    findIndex routeName (routes w') = None /\
    (forall r, In r (routes w) -> strict_eq (name r) routeName = false ->
               In r (routes w')).
Proof.
  intros Hi Hd. destruct (removeRoute_found routeName w i Hi) as (w' & E & R & _).
  destruct (findIndex_Some _ _ _ Hi) as (ri & Hri & Hn).
  exists w'. split; [exact E|]. rewrite R. split.
  - apply findIndex_None. intros r Hr.
    apply list_elem_of_In, list_elem_of_lookup in Hr as (j & Hj).
    rewrite list_lookup_delete in Hj.
    apply strict_eq_eq in Hn. subst routeName. rewrite strict_eq_sym.
    destruct (decide (j < i)%nat).
    + apply (Hd i j); [| |lia]; rewrite list_lookup_fmap; [now rewrite Hri | now rewrite Hj].
    + apply (Hd i (S j)); [| |lia]; rewrite list_lookup_fmap; [now rewrite Hri | now rewrite Hj].
  - intros r Hr Hname. apply list_elem_of_In, list_elem_of_lookup in Hr as (j & Hj).
    assert (j <> i) as Hne by (intros ->; rewrite Hri in Hj; injection Hj as ->; congruence).
    apply list_elem_of_In, list_elem_of_lookup.
    destruct (decide (j < i)%nat).
    + exists j. now rewrite list_lookup_delete_lt.
    + exists (pred j). rewrite list_lookup_delete_ge by lia.
      replace (S (pred j)) with j by lia. exact Hj.
Qed.

Lemma saveConfig_fails w err :
  write_error rt (routes w) = Some err ->
  saveConfig rt w =
    (Returned false, set_trace (trace w ++ [Log Error ("Failed to save config: " +:+ err)]) w).
Proof. intros H. unfold saveConfig. unfold_platform. cbn. now rewrite H. Qed.

Lemma extends_keeps_trace w w' e : extends w w' -> In e (trace w) -> In e (trace w').
Proof. intros [_ _ _ _ (tl & ->)] H. apply in_or_app. now left. Qed.

(** X6. Persistence is best effort: when the file cannot be written,
    [addRoute] still adds the route to the table in memory, still starts it
    and reports success; the failure only shows as an error in the log. *)
Theorem addRoute_survives_failed_save (routeConfig : Route) (w : World) (err : string) :
  write_error rt (routes w ++ [routeConfig]) = Some err ->
  (forall r, In r (routes w) -> strict_eq (name r) (name routeConfig) = false) ->
  exists w',
    addRoute rt routeConfig w =
      (Returned (mkResult true ("Route " +:+ show (name routeConfig) +:+
                                " added successfully")), w') /\
    routes w' = (routes w ++ [routeConfig])%list /\
    In (Log Error ("Failed to save config: " +:+ err)) (trace w') /\
    (truthy (enabled routeConfig) = true ->
     (exists h, started routeConfig w h) ->
     is_active (name routeConfig) w = false ->
     strict_eq (name routeConfig) (name routeConfig) = true ->
     is_active (name routeConfig) w' = true).
Proof.
  intros Hfail Hnew. unfold addRoute. unfold bind at 1. unfold gets at 1.
  rewrite (find_absent _ _ Hnew).
  unfold bind at 1. unfold modify at 1. unfold bind at 1.
  rewrite saveConfig_fails with (err := err) by exact Hfail.
  match goal with |- context [bind _ _ ?w1] => set (ws := w1) end.
  assert (In (Log Error ("Failed to save config: " +:+ err)) (trace ws)) as Hlog
    by (cbn; apply in_or_app; right; now left).
  unfold bind at 1. destruct (truthy (enabled routeConfig)).
  - unfold start_and_push. unfold bind at 1.
    destruct (startProxy_returns routeConfig ws) as (o & w1 & E & Hx & Ha & Ho).
    rewrite E. destruct o as [h|]; unfold modify, ret.
    + eexists. split; [reflexivity|]. cbn. split; [now rewrite (ext_routes _ _ Hx)|].
      split; [now apply (extends_keeps_trace ws)|].
      intros _ _ Hidle Hself. unfold is_active. cbn. rewrite existsb_app. cbn.
      rewrite Hself. now rewrite orb_true_r.
    + exists w1. split; [reflexivity|]. split; [now rewrite (ext_routes _ _ Hx)|].
      split; [now apply (extends_keeps_trace ws)|].
      intros _ [h Hs] _ _. exfalso.
      destruct (startProxy_succeeds routeConfig ws (ex_intro _ h Hs)) as (h' & w3 & E3 & _).
      rewrite E in E3. discriminate.
  - exists ws. split; [reflexivity|]. split; [reflexivity|]. split; [exact Hlog|].
    discriminate.
Qed.

(** ** Starting and replacing listeners *)

Lemma no_collision_tcp route (act : list Active) :
  protocol route = VStr "tcp" ->
  (forall a, In a act -> collides route a = false) ->
  existsb (tcp_collision route) act = false.
Proof.
  intros Hp Hfree. apply not_true_iff_false. intros Hex.
  apply existsb_exists in Hex as (a & Ha & Hc). specialize (Hfree a Ha).
  unfold collides, tcp_collision in *. rewrite Hp in Hfree. congruence.
Qed.

Lemma no_collision_udp route (act : list Active) :
  protocol route = VStr "udp" ->
  (forall a, In a act -> collides route a = false) ->
  existsb (udp_collision route) act = false.
Proof.
  intros Hp Hfree. apply not_true_iff_false. intros Hex.
  apply existsb_exists in Hex as (a & Ha & Hc). specialize (Hfree a Ha).
  unfold collides, udp_collision in *. rewrite Hp in Hfree. congruence.
Qed.

Lemma startTcpProxy_opens route w :
  existsb (tcp_collision route) (activeServers w) = false ->
  listen_error rt (port (listen route)) (host (listen route)) = None ->
  exists w',
    startTcpProxy rt route w = (Returned (Some (NetServer (next_id w))), w') /\
    trace w' = (trace w ++ [CreateServer (next_id w);
                            Listen (next_id w) (port (listen route)) (host (listen route))])%list /\
    open w' = {[next_id w]} ∪ open w /\
    objects w' = <[next_id w := TcpListener route]> (objects w) /\
    next_id w' = S (next_id w) /\
    activeServers w' = activeServers w /\ routes w' = routes w.
Proof.
  intros Hc Hl. unfold startTcpProxy. unfold_platform. rewrite Hc. cbn. rewrite Hl. cbn.
  eexists. split; [reflexivity|]. cbn. rewrite <- app_assoc. now repeat split.
Qed.

Lemma startUdpProxy_opens route w :
  existsb (udp_collision route) (activeServers w) = false ->
  socket_error rt (next_id w) = None ->
  bind_error rt (port (listen route)) (host (listen route)) = None ->
  exists w',
    startUdpProxy rt route w = (Returned (Some (UdpProxy (next_id w))), w') /\
    trace w' = (trace w ++ [CreateSocket (next_id w);
                            Bind (next_id w) (port (listen route)) (host (listen route))])%list /\
    open w' = {[next_id w]} ∪ open w /\
    objects w' = <[next_id w := UdpListener route []]> (objects w) /\
    next_id w' = S (next_id w) /\
    activeServers w' = activeServers w /\ routes w' = routes w.
Proof.
  intros Hc Hs Hb. unfold startUdpProxy. unfold_platform. rewrite Hc. cbn.
  rewrite Hs. cbn. rewrite Hb. cbn.
  eexists. split; [reflexivity|]. cbn. rewrite <- app_assoc. now repeat split.
Qed.

(** X7. The converse of the address check: a route that the platform
    accepts and whose (protocol, host, port) no active listener holds is
    started; the start sets up one listener with a fresh identity, binds it
    to the listen address of the route and leaves the active set to the
    caller.  The protocol is part of the address, so a TCP and a UDP route
    may share a host and port. *)
Theorem free_address_is_started (route : Route) (w : World) :
  accepted route ->
  (forall a, In a (activeServers w) -> collides route a = false) ->
  exists h w',
    startProxy rt route w = (Returned (Some h), w') /\
    (h = NetServer (next_id w) \/ h = UdpProxy (next_id w)) /\
    trace w' = (trace w ++ opening route (next_id w))%list /\
    next_id w ∈ open w' /\
    activeServers w' = activeServers w.
Proof.
  intros Hacc Hfree. unfold startProxy, opening.
  destruct Hacc as [(Hp & Hl)|(Hp & Hs & Hb)]; rewrite Hp; cbn.
  - destruct (startTcpProxy_opens route w (no_collision_tcp _ _ Hp Hfree) Hl)
      as (w' & E & Ht & Ho & _ & _ & Ha & _).
    exists (NetServer (next_id w)), w'. split; [exact E|]. split; [now left|].
    split; [exact Ht|]. split; [|exact Ha].
    rewrite Ho. apply elem_of_union. left. now apply elem_of_singleton.
  - destruct (startUdpProxy_opens route w (no_collision_udp _ _ Hp Hfree) (Hs _) Hb)
      as (w' & E & Ht & Ho & _ & _ & Ha & _).
    exists (UdpProxy (next_id w)), w'. split; [exact E|]. split; [now right|].
    split; [exact Ht|]. split; [|exact Ha].
    rewrite Ho. apply elem_of_union. left. now apply elem_of_singleton.
Qed.

Lemma stop_active_tcp routeName a w id :
  tcp_or_udp a -> a_server a = NetServer id ->
  stop_active routeName a w =
    (Returned tt,
     set_activeServers (without_name routeName (activeServers w))
       (set_open (open w ∖ {[id]}) (set_trace (trace w ++ [CloseServer id]) w))).
Proof.
  intros Hp Hs. unfold stop_active. rewrite Hs. destruct Hp as [-> | ->]; reflexivity.
Qed.

(** X8. [updateRoute] on a running TCP route replaces the listener: the old
    server is closed before the new one is created and bound, the entries
    of that name leave the active set and one entry with the new definition
    is pushed, provided the new definition is an enabled TCP route that the
    platform accepts and whose address no listener of another name holds. *)
Theorem updateRoute_replaces_tcp_listener
    (routeName : value) (routeConfig : Route) (w : World) (i : nat) (a : Active) (id : nat) :
  findIndex routeName (routes w) = Some i ->
  find_active routeName w = Some a -> tcp_or_udp a -> a_server a = NetServer id ->
  protocol routeConfig = VStr "tcp" -> truthy (enabled routeConfig) = true ->
  listen_error rt (port (listen routeConfig)) (host (listen routeConfig)) = None ->
  (forall b, In b (activeServers w) -> strict_eq (a_name b) routeName = false ->
             tcp_collision routeConfig b = false) ->
  exists w' saved,
    updateRoute rt routeName routeConfig w =
      (Returned (mkResult true ("Route " +:+ show routeName +:+ " updated successfully")),
       w') /\
    routes w' = <[i := with_name routeConfig routeName]> (routes w) /\
    Forall (fun e => opens_listener e = false) saved /\
    trace w' =
      (trace w ++ saved ++
       [CloseServer id; CreateServer (next_id w);
        Listen (next_id w) (port (listen routeConfig)) (host (listen routeConfig))])%list /\
    activeServers w' =
      (without_name routeName (activeServers w) ++
       [mkActive routeName (VStr "tcp") (listen routeConfig) (forward routeConfig)
                 (NetServer (next_id w))])%list /\
    open w' = {[next_id w]} ∪ (open w ∖ {[id]}).
Proof.
  intros Hi Hfind Hp Hs Hproto Hen Hl Hfree.
  unfold updateRoute. unfold bind at 1. unfold gets at 1.
  rewrite Hi. unfold bind at 1. unfold modify at 1. unfold bind at 1.
  match goal with |- context [saveConfig rt ?w1] =>
    destruct (saveConfig_returns w1) as (b & tl & -> & Htl); set (ws := set_trace _ w1) end.
  unfold bind at 1. unfold gets at 1. unfold bind at 1.
  replace (find_active routeName ws) with (Some a) by (symmetry; exact Hfind).
  rewrite (stop_active_tcp routeName a ws id Hp Hs).
  match goal with |- context [bind _ _ ?x] => set (w2 := x) end.
  unfold bind at 1. rewrite Hen. unfold start_and_push. unfold bind at 1.
  unfold startProxy. rewrite Hproto. cbn [strict_eq]. rewrite String.eqb_refl.
  destruct (startTcpProxy_opens routeConfig w2) as (w3 & -> & Ht & Ho & _ & _ & Ha & Hr).
  { apply not_true_iff_false. intros Hex. apply existsb_exists in Hex as (b0 & Hb0 & Hc).
    cbn in Hb0. apply List.filter_In in Hb0 as [Hb0 Hn]. apply negb_true_iff in Hn.
    rewrite (Hfree b0 Hb0 Hn) in Hc. discriminate. }
  { exact Hl. }
  unfold modify, ret. eexists _, tl.
  split; [reflexivity|]. cbn. rewrite Hr, Ht, Ho, Ha. cbn.
  rewrite <- !app_assoc. now repeat split.
Qed.

(** ** The listing *)

Lemma startAllProxies_lists w :
  Forall tcp_or_udp (activeServers w) ->
  exists w', startAllProxies rt w = (Returned tt, w') /\ routes w' = routes w /\
             lists (routes w) (activeServers w').
Proof.
  intros Hw. destruct (stopAllProxies_returns w Hw) as (w0 & E0 & Hx0 & Ha0).
  assert (lists [] (activeServers w0)) as Hl0.
  { rewrite Ha0. exists []. split; constructor. }
  destruct (start_routes_lists (routes w) [] w0 Hl0) as (w1 & E1 & Hl1).
  destruct (start_routes_returns (fun _ => True) (routes w) (fun _ _ _ _ => I) w0 I)
    as (w1' & E1' & Hx1 & _).
  rewrite E1 in E1'. injection E1' as <-.
  unfold startAllProxies. unfold bind at 1. rewrite E0.
  unfold bind at 1. unfold gets at 1. rewrite (ext_routes _ _ Hx0).
  unfold bind at 1. rewrite E1. unfold_platform. cbn.
  eexists. split; [reflexivity|]. cbn.
  split; [now rewrite (ext_routes _ _ Hx1), (ext_routes _ _ Hx0) | exact Hl1].
Qed.

(** X9. After [startAllProxies] on a table of pairwise distinct names,
    [getAllRoutes] lists the routes of the table in order, changes nothing,
    and marks as active only enabled routes: a disabled route is never
    reported as running. *)
Theorem listing_after_startAll (w : World) :
  Forall tcp_or_udp (activeServers w) ->
  distinct_names (routes w) ->
  exists w' listing,
    startAllProxies rt w = (Returned tt, w') /\
    getAllRoutes w' = (Returned listing, w') /\
    map fst listing = routes w /\
    forall route, In (route, true) listing -> truthy (enabled route) = true.
Proof.
  intros Hw Hd. destruct (startAllProxies_lists w Hw) as (w' & E & Hr & Hl).
  exists w'. eexists. split; [exact E|]. split; [reflexivity|]. split.
  { rewrite List.map_map. cbn. rewrite List.map_id. exact Hr. }
  intros route Hin. apply List.in_map_iff in Hin as (r & Heq & Hrin).
  injection Heq as -> Hact. rewrite Hr in Hrin.
  apply existsb_exists in Hact as (a & Ha & Hname).
  destruct (lists_origin _ _ _ Hl Ha) as (r' & Hr' & Hen & Hn & _).
  rewrite Hn in Hname.
  apply list_elem_of_In, list_elem_of_lookup in Hrin as (j & Hj).
  apply list_elem_of_In, list_elem_of_lookup in Hr' as (k & Hk).
  destruct (decide (k = j)) as [->|Hne].
  - rewrite Hj in Hk. injection Hk as <-. exact Hen.
  - exfalso. assert (strict_eq (name r') (name route) = false) as Hfalse; [|congruence].
    apply (Hd k j); [| |exact Hne]; rewrite list_lookup_fmap;
      [now rewrite Hk | now rewrite Hj].
Qed.

(** ** The session relay *)

Lemma clients_get_set_ne k k' s (m : Clients) :
  k' <> k -> clients_get k' (clients_set k s m) = clients_get k' m.
Proof.
  intros Hne. induction m as [|[k0 s0] m IH]; cbn.
  - destruct (String.eqb k k') eqn:E; [apply String.eqb_eq in E; congruence | reflexivity].
  - destruct (String.eqb k0 k) eqn:E0; cbn.
    + apply String.eqb_eq in E0. subst k0.
      destruct (String.eqb k k') eqn:E; [apply String.eqb_eq in E; congruence | reflexivity].
    + now rewrite IH.
Qed.

Lemma clients_set_absent k s (m : Clients) :
  clients_get k m = None -> clients_set k s m = (m ++ [(k, s)])%list.
Proof.
  induction m as [|[k0 s0] m IH]; cbn; [reflexivity|].
  destruct (String.eqb k0 k); [discriminate|]. intros H. now rewrite IH.
Qed.

Lemma clients_get_delete k (m : Clients) : clients_get k (clients_delete k m) = None.
Proof.
  unfold clients_delete. induction m as [|[k0 s0] m IH]; cbn; [reflexivity|].
  destruct (String.eqb k0 k) eqn:E; cbn; [exact IH | now rewrite E].
Qed.

Lemma clients_get_delete_ne k k' (m : Clients) :
  k' <> k -> clients_get k' (clients_delete k m) = clients_get k' m.
Proof.
  intros Hne. unfold clients_delete. induction m as [|[k0 s0] m IH]; cbn; [reflexivity|].
  destruct (String.eqb k0 k) eqn:E; cbn.
  - apply String.eqb_eq in E. subst k0.
    destruct (String.eqb k k') eqn:E'; [apply String.eqb_eq in E'; congruence | exact IH].
  - now rewrite IH.
Qed.

(** The handler is its two blocks in sequence. *)
Lemma udpServer_on_message_blocks udpServer message rinfo w route cs :
  objects w !! udpServer = Some (UdpListener route cs) ->
  udpServer_on_message rt udpServer message rinfo w =
    bind (connect_block udpServer route rinfo)
         (fun go_on => if go_on then forward_block udpServer route message (clientKey_of rinfo)
                       else ret tt) w.
Proof.
  intros Hobj. unfold udpServer_on_message.
  unfold bind at 1. unfold gets at 1. rewrite Hobj. reflexivity.
Qed.

Lemma clients_of_lookup udpServer w route cs :
  objects w !! udpServer = Some (UdpListener route cs) -> clients_of udpServer w = cs.
Proof. intros H. unfold clients_of. now rewrite H. Qed.

Lemma connect_block_known udpServer route rinfo w client :
  clients_get (clientKey_of rinfo) (clients_of udpServer w) = Some client ->
  connect_block udpServer route rinfo w = (Returned true, w).
Proof. intros H. unfold connect_block, bind, gets, clients_has. now rewrite H. Qed.

Lemma connect_block_new udpServer route rinfo w :
  clients_get (clientKey_of rinfo) (clients_of udpServer w) = None ->
  socket_error rt (next_id w) = None ->
  connect_block udpServer route rinfo w = (Returned true, connected udpServer route rinfo w).
Proof.
  intros H Hs. unfold connect_block, clients_has, update_clients. unfold_platform.
  unfold emit, modify.
  rewrite H. cbn. rewrite Hs. cbn. unfold connected. rewrite <- !app_assoc. reflexivity.
Qed.

Lemma connect_block_fails udpServer route rinfo w err :
  clients_get (clientKey_of rinfo) (clients_of udpServer w) = None ->
  socket_error rt (next_id w) = Some err ->
  connect_block udpServer route rinfo w =
    (Returned false,
     set_trace (trace w ++
                [Log Info ("[" +:+ show (name route) +:+ "] UDP client connected: " +:+
                           clientKey_of rinfo);
                 Log Error ("[" +:+ show (name route) +:+
                            "] Failed to create UDP client socket: " +:+ err)]) w).
Proof.
  intros H Hs. unfold connect_block, clients_has. unfold_platform. unfold emit, modify.
  rewrite H. cbn. rewrite Hs. cbn. rewrite <- !app_assoc. reflexivity.
Qed.

Lemma forward_block_known udpServer route message clientKey w client :
  clients_get clientKey (clients_of udpServer w) = Some client ->
  forward_block udpServer route message clientKey w =
    (Returned tt, forwarded udpServer route message clientKey client w).
Proof.
  intros H. unfold forward_block, update_clients. unfold_platform. unfold emit, modify.
  rewrite H. cbn -[valid_port valid_address].
  unfold forwarded, forward_effect.
  destruct (negb (valid_port rt _) || negb (valid_address _)); cbn;
    [|destruct (bool_decide _); cbn]; rewrite <- !app_assoc; reflexivity.
Qed.

Lemma sendable_effect route sock message is_open :
  sendable route ->
  forward_effect route sock message is_open =
    if is_open then Send sock message (port (forward route)) (host (forward route))
    else Log Error ("[" +:+ show (name route) +:+ "] UDP send error: Not running").
Proof. intros [Hp Ha]. unfold forward_effect. now rewrite Hp, Ha. Qed.

Lemma unsendable_effect route sock message is_open :
  ~ sendable route ->
  forward_effect route sock message is_open =
    Log Error ("[" +:+ show (name route) +:+ "] UDP send error: " +:+
               send_error rt (port (forward route)) (host (forward route))).
Proof.
  intros H. unfold forward_effect.
  destruct (valid_port rt (port (forward route))) eqn:Hp; [|reflexivity].
  destruct (valid_address (host (forward route))) eqn:Ha; [|reflexivity].
  exfalso. apply H. now split.
Qed.

Lemma clients_set_set k s1 s2 (m : Clients) :
  clients_set k s2 (clients_set k s1 m) = clients_set k s2 m.
Proof.
  induction m as [|[k0 s0] m IH]; cbn.
  - now rewrite String.eqb_refl.
  - destruct (String.eqb k0 k) eqn:E; cbn; rewrite E; [reflexivity | now rewrite IH].
Qed.

Lemma new_session udpServer message rinfo w route cs :
  objects w !! udpServer = Some (UdpListener route cs) ->
  clients_get (clientKey_of rinfo) cs = None ->
  socket_error rt (next_id w) = None ->
  udpServer <> next_id w ->
  exists w',
    udpServer_on_message rt udpServer message rinfo w = (Returned tt, w') /\
    objects w' !! udpServer =
      Some (UdpListener route
              (cs ++ [(clientKey_of rinfo,
                       mkSession (next_id w) (S (S (next_id w))))])%list) /\
    objects w' !! next_id w = Some (ClientSocket udpServer rinfo (clientKey_of rinfo)) /\
    (forall k, k <> udpServer -> k <> next_id w -> objects w' !! k = objects w !! k) /\
    open w' = {[next_id w]} ∪ open w /\
    timers w' =
      <[S (S (next_id w)) :=
          mkTimer (now w + timer_delay (udpTimeout w)) udpServer (clientKey_of rinfo) None]>
        (delete (S (next_id w)) (timers w)) /\
    trace w' =
      (trace w ++ session_setup route rinfo (next_id w) (udpTimeout w) ++
       [forward_effect route (next_id w) message true])%list /\
    next_id w' = S (S (S (next_id w))) /\
    activeServers w' = activeServers w /\ routes w' = routes w.
Proof.
  intros Hobj Hnew Hsock Hne.
  rewrite (udpServer_on_message_blocks _ _ _ _ _ _ Hobj). unfold bind at 1.
  rewrite connect_block_new by (rewrite ?(clients_of_lookup _ _ _ _ Hobj); assumption).
  set (w1 := connected udpServer route rinfo w).
  assert (objects w1 !! udpServer =
          Some (UdpListener route
                  (clients_set (clientKey_of rinfo)
                     (mkSession (next_id w) (S (next_id w))) cs))) as Hobj1.
  { unfold w1, connected. cbn. rewrite lookup_alter_eq, lookup_insert_ne by congruence.
    now rewrite Hobj. }
  rewrite (forward_block_known _ _ _ _ _ (mkSession (next_id w) (S (next_id w)))).
  2:{ rewrite (clients_of_lookup _ _ _ _ Hobj1). apply clients_get_set. }
  assert (objects w1 !! next_id w = Some (ClientSocket udpServer rinfo (clientKey_of rinfo)))
    as Hsock1.
  { unfold w1, connected. cbn. rewrite lookup_alter_ne by congruence.
    apply lookup_insert_eq. }
  assert (forall k, k <> udpServer -> k <> next_id w -> objects w1 !! k = objects w !! k)
    as Hother1.
  { intros k Hk Hkn. unfold w1, connected. cbn. rewrite lookup_alter_ne by congruence.
    now rewrite lookup_insert_ne by congruence. }
  assert (open w1 = {[next_id w]} ∪ open w) as Hopen1 by reflexivity.
  assert (timers w1 =
          <[S (next_id w) :=
              mkTimer (now w + timer_delay (udpTimeout w)) udpServer (clientKey_of rinfo)
                (Some (next_id w))]> (timers w)) as Htimers1 by reflexivity.
  assert (next_id w1 = S (S (next_id w))) as Hnext1 by reflexivity.
  assert (now w1 = now w /\ udpTimeout w1 = udpTimeout w) as [Hnow1 Hto1]
    by (split; reflexivity).
  assert (trace w1 =
          (trace w ++
           [Log Info ("[" +:+ show (name route) +:+ "] UDP client connected: " +:+
                      clientKey_of rinfo);
            CreateSocket (next_id w);
            SetTimeout (S (next_id w)) (udpTimeout w)])%list) as Htrace1 by reflexivity.
  assert (activeServers w1 = activeServers w /\ routes w1 = routes w) as [Hact1 Hroutes1]
    by (split; reflexivity).
  clearbody w1.
  eexists. split; [reflexivity|]. unfold forwarded. cbn.
  rewrite Hnext1, Hnow1, Hto1, Htimers1, Hopen1, Htrace1.
  split.
  { rewrite lookup_alter_eq, Hobj1. cbn. rewrite clients_set_set.
    now rewrite clients_set_absent. }
  split.
  { now rewrite lookup_alter_ne by congruence. }
  split.
  { intros k Hk Hkn. rewrite lookup_alter_ne by congruence. now apply Hother1. }
  split; [reflexivity|]. split.
  { now rewrite delete_insert_eq. }
  split; [|now repeat split].
  rewrite bool_decide_eq_true_2
    by (apply elem_of_union; left; now apply elem_of_singleton).
  unfold session_setup. now rewrite <- app_assoc.
Qed.

(** X10. The first datagram from a client that the listener does not know
    sets a session up: a socket of its own with a fresh identity is created
    and recorded under the client's key after the sessions already there,
    and the session is left with one pending idle timer (the timer set at
    creation is cleared at once), due when the delay that the platform makes
    of [udpTimeout] has passed: a full [udpTimeout] later when that is a
    delay from 1 to 2147483647 milliseconds.  When the forward port and host
    of the route are such that [send] takes them, the payload is sent
    unchanged through the new socket to the forward endpoint; when they are
    not, [send] throws, the error is logged and nothing is sent, the session
    staying as it was set up. *)
Theorem first_datagram_opens_session
    (udpServer : nat) (message : string) (rinfo : Rinfo) (w : World)
    (route : Route) (cs : Clients) :
  objects w !! udpServer = Some (UdpListener route cs) ->
  clients_get (clientKey_of rinfo) cs = None ->
  socket_error rt (next_id w) = None ->
  udpServer <> next_id w ->
  exists w',
    udpServer_on_message rt udpServer message rinfo w = (Returned tt, w') /\
    clients_of udpServer w' =
      (cs ++ [(clientKey_of rinfo, mkSession (next_id w) (S (S (next_id w))))])%list /\
    objects w' !! next_id w = Some (ClientSocket udpServer rinfo (clientKey_of rinfo)) /\
    next_id w ∈ open w' /\
    timers w' !! S (S (next_id w)) =
      Some (mkTimer (now w + timer_delay (udpTimeout w)) udpServer (clientKey_of rinfo)
                    None) /\
    (1 <= udpTimeout w <= TIMEOUT_MAX -> timer_delay (udpTimeout w) = udpTimeout w) /\
    timers w' !! S (next_id w) = None /\
    (sendable route ->
     trace w' =
       (trace w ++ session_setup route rinfo (next_id w) (udpTimeout w) ++
        [Send (next_id w) message (port (forward route)) (host (forward route))])%list) /\
    (~ sendable route ->
     trace w' =
       (trace w ++ session_setup route rinfo (next_id w) (udpTimeout w) ++
        [Log Error ("[" +:+ show (name route) +:+ "] UDP send error: " +:+
                    send_error rt (port (forward route)) (host (forward route)))])%list).
Proof.
  intros Hobj Hnew Hsock Hne.
  destruct (new_session udpServer message rinfo w route cs Hobj Hnew Hsock Hne)
    as (w' & E & Ho & Hn & _ & Hop & Ht & Htr & _).
  exists w'. split; [exact E|]. split; [exact (clients_of_lookup _ _ _ _ Ho)|].
  split; [exact Hn|]. split; [rewrite Hop; apply elem_of_union; left; now apply elem_of_singleton|].
  split; [rewrite Ht; apply lookup_insert_eq|].
  split; [apply timer_delay_in_range|].
  split; [rewrite Ht, lookup_insert_ne by lia; apply lookup_delete_eq|].
  split; intros Hs; rewrite Htr.
  - now rewrite (sendable_effect _ _ _ _ Hs).
  - now rewrite (unsendable_effect _ _ _ _ Hs).
Qed.

Lemma failed_session udpServer message rinfo w route cs err :
  objects w !! udpServer = Some (UdpListener route cs) ->
  clients_get (clientKey_of rinfo) cs = None ->
  socket_error rt (next_id w) = Some err ->
  udpServer_on_message rt udpServer message rinfo w =
    (Returned tt,
     set_trace (trace w ++
                [Log Info ("[" +:+ show (name route) +:+ "] UDP client connected: " +:+
                           clientKey_of rinfo);
                 Log Error ("[" +:+ show (name route) +:+
                            "] Failed to create UDP client socket: " +:+ err)]) w).
Proof.
  intros Hobj Hnew Hsock.
  rewrite (udpServer_on_message_blocks _ _ _ _ _ _ Hobj). unfold bind at 1.
  rewrite (connect_block_fails _ _ _ _ err)
    by (rewrite ?(clients_of_lookup _ _ _ _ Hobj); assumption).
  reflexivity.
Qed.

(** X11. When no socket can be created for a new client, the datagram is
    dropped: the handler logs the failure and returns, and no session, no
    timer and no handle is added; nothing is sent. *)
Theorem failed_allocation_drops_datagram
    (udpServer : nat) (message : string) (rinfo : Rinfo) (w : World)
    (route : Route) (cs : Clients) (err : string) :
  objects w !! udpServer = Some (UdpListener route cs) ->
  clients_get (clientKey_of rinfo) cs = None ->
  socket_error rt (next_id w) = Some err ->
  exists w',
    udpServer_on_message rt udpServer message rinfo w = (Returned tt, w') /\
    objects w' = objects w /\ open w' = open w /\ timers w' = timers w /\
    trace w' =
      (trace w ++
       [Log Info ("[" +:+ show (name route) +:+ "] UDP client connected: " +:+
                  clientKey_of rinfo);
        Log Error ("[" +:+ show (name route) +:+
                   "] Failed to create UDP client socket: " +:+ err)])%list.
Proof.
  intros Hobj Hnew Hsock.
  rewrite (failed_session _ message _ _ _ _ _ Hobj Hnew Hsock).
  eexists. split; [reflexivity|]. now repeat split.
Qed.

Lemma known_session udpServer message rinfo w route cs client :
  objects w !! udpServer = Some (UdpListener route cs) ->
  clients_get (clientKey_of rinfo) cs = Some client ->
  udpServer_on_message rt udpServer message rinfo w =
    (Returned tt, forwarded udpServer route message (clientKey_of rinfo) client w).
Proof.
  intros Hobj Hget.
  rewrite (udpServer_on_message_blocks _ _ _ _ _ _ Hobj). unfold bind at 1.
  rewrite (connect_block_known _ _ _ _ client)
    by (rewrite ?(clients_of_lookup _ _ _ _ Hobj); assumption).
  apply forward_block_known. now rewrite (clients_of_lookup _ _ _ _ Hobj).
Qed.

(** X12. A datagram from a client that has a session resets the timer of
    the session, which keeps its socket, and is then handed to [send] for
    the forward endpoint of the route.  When [send] takes the forward port
    and host and the socket of the session is open, the payload is sent
    unchanged through that socket.  When the port or the host is none that
    [send] takes, or the socket is closed, [send] throws: the error is
    logged, nothing is sent, the handler returns and the session stays in
    the table. *)
Theorem datagram_is_forwarded
    (udpServer : nat) (message : string) (rinfo : Rinfo) (w : World)
    (route : Route) (cs : Clients) (client : Session) :
  objects w !! udpServer = Some (UdpListener route cs) ->
  clients_get (clientKey_of rinfo) cs = Some client ->
  exists w',
    udpServer_on_message rt udpServer message rinfo w = (Returned tt, w') /\
    clients_get (clientKey_of rinfo) (clients_of udpServer w') =
      Some (mkSession (socket client) (next_id w)) /\
    open w' = open w /\
    (sendable route -> socket client ∈ open w ->
     trace w' =
       (trace w ++
        [ClearTimeout (timeout client); SetTimeout (next_id w) (udpTimeout w);
         Send (socket client) message (port (forward route)) (host (forward route))])%list) /\
    (~ sendable route ->
     trace w' =
       (trace w ++
        [ClearTimeout (timeout client); SetTimeout (next_id w) (udpTimeout w);
         Log Error ("[" +:+ show (name route) +:+ "] UDP send error: " +:+
                    send_error rt (port (forward route)) (host (forward route)))])%list) /\
    (sendable route -> socket client ∉ open w ->
     trace w' =
       (trace w ++
        [ClearTimeout (timeout client); SetTimeout (next_id w) (udpTimeout w);
         Log Error ("[" +:+ show (name route) +:+ "] UDP send error: Not running")])%list).
Proof.
  intros Hobj Hget. rewrite (known_session _ _ _ _ _ _ _ Hobj Hget).
  eexists. split; [reflexivity|]. unfold forwarded, clients_of. cbn.
  split; [rewrite lookup_alter_eq, Hobj; cbn; apply clients_get_set|].
  split; [reflexivity|]. split; [|split].
  - intros Hs H. now rewrite (sendable_effect _ _ _ _ Hs), bool_decide_eq_true_2.
  - intros Hs. now rewrite (unsendable_effect _ _ _ _ Hs).
  - intros Hs H. now rewrite (sendable_effect _ _ _ _ Hs), bool_decide_eq_false_2.
Qed.

(** X13. No datagram makes the handler of a listening socket throw: it
    always returns, whatever the listener, the sender and the state of the
    sessions. *)
Theorem udpServer_on_message_never_throws
    (udpServer : nat) (message : string) (rinfo : Rinfo) (w : World) :
  exists w', udpServer_on_message rt udpServer message rinfo w = (Returned tt, w').
Proof.
  destruct (objects w !! udpServer) as [[route|route cs|]|] eqn:Hobj;
    try (unfold udpServer_on_message, bind, gets; rewrite Hobj; eexists; reflexivity).
  destruct (clients_get (clientKey_of rinfo) cs) as [client|] eqn:Hget.
  - rewrite (known_session _ _ _ _ _ _ _ Hobj Hget). eauto.
  - rewrite (udpServer_on_message_blocks _ _ _ _ _ _ Hobj). unfold bind at 1.
    destruct (socket_error rt (next_id w)) as [err|] eqn:Hs.
    + rewrite (connect_block_fails _ _ _ _ err)
        by (rewrite ?(clients_of_lookup _ _ _ _ Hobj); assumption).
      eexists. reflexivity.
    + rewrite connect_block_new by (rewrite ?(clients_of_lookup _ _ _ _ Hobj); assumption).
      set (w1 := connected udpServer route rinfo w).
      destruct (clients_get (clientKey_of rinfo) (clients_of udpServer w1)) as [c|] eqn:Hc.
      * rewrite (forward_block_known _ _ _ _ _ c Hc). eauto.
      * unfold forward_block, bind, gets. rewrite Hc. eexists. reflexivity.
Qed.

(** X14. A datagram of a client that has a session clears the timer stored
    in the session and stores a fresh one: the cleared timer is gone and,
    whenever its callback would have run, nothing happens.  Every other
    pending timer is kept as it is; a timer that an earlier session of the
    same client left behind is among them. *)
Theorem cancelled_timer_never_fires
    (udpServer : nat) (message : string) (rinfo : Rinfo) (w : World)
    (route : Route) (cs : Clients) (client : Session) (ms : Z) :
  objects w !! udpServer = Some (UdpListener route cs) ->
  clients_get (clientKey_of rinfo) cs = Some client ->
  timeout client <> next_id w ->
  exists w',
    udpServer_on_message rt udpServer message rinfo w = (Returned tt, w') /\
    timers w' =
      <[next_id w := mkTimer (now w + timer_delay (udpTimeout w)) udpServer
                             (clientKey_of rinfo) None]>
        (delete (timeout client) (timers w)) /\
    timers w' !! timeout client = None /\
    timeout_fires (timeout client) (snd (advance ms w')) =
      (Returned tt, snd (advance ms w')).
Proof.
  intros Hobj Hget Hfresh. rewrite (known_session _ _ _ _ _ _ _ Hobj Hget).
  eexists. split; [reflexivity|]. split; [reflexivity|].
  assert (timers (forwarded udpServer route message (clientKey_of rinfo) client w)
            !! timeout client = None) as Hnone.
  { unfold forwarded. cbn. rewrite lookup_insert_ne by congruence. apply lookup_delete_eq. }
  split; [exact Hnone|].
  unfold timeout_fires, advance. unfold_platform. cbn -[forwarded].
  change (timers (set_now _ ?x)) with (timers x). now rewrite Hnone.
Qed.

Lemma clients_get_snoc_ne k k' s (m : Clients) :
  k' <> k -> clients_get k' (m ++ [(k, s)])%list = clients_get k' m.
Proof.
  intros Hne. induction m as [|[k0 s0] m IH]; cbn.
  - destruct (String.eqb k k') eqn:E; [apply String.eqb_eq in E; congruence | reflexivity].
  - now rewrite IH.
Qed.

(** X15. When the idle timer of a session comes due, the session is
    evicted: the expiry is logged, the socket of the session is closed, the
    session leaves the table of its listener and the timer is gone.  The
    sessions of other clients stay as they are. *)
Theorem idle_session_is_evicted
    (t : nat) (w : World) (tm : Timer) (route : Route) (cs : Clients) (client : Session) :
  timers w !! t = Some tm ->
  captured tm = None ->
  (deadline tm <= now w)%Z ->
  objects w !! t_server tm = Some (UdpListener route cs) ->
  clients_get (t_key tm) cs = Some client ->
  socket client ∈ open w ->
  exists w',
    timeout_fires t w = (Returned tt, w') /\
    clients_get (t_key tm) (clients_of (t_server tm) w') = None /\
    (forall k, k <> t_key tm ->
       clients_get k (clients_of (t_server tm) w') = clients_get k cs) /\
    open w' = open w ∖ {[socket client]} /\
    timers w' = delete t (timers w) /\
    trace w' =
      (trace w ++
       [Log Info (timed_out_message route (t_key tm) (udpTimeout w));
        CloseSocket (socket client)])%list.
Proof.
  intros Ht Hcap Hdue Hobj Hget Hopen.
  unfold timeout_fires, update_clients. unfold_platform. unfold emit, modify.
  rewrite Ht. apply Z.leb_le in Hdue. rewrite Hdue. cbn.
  unfold clients_of. cbn. rewrite Hobj, Hget, Hcap. cbn.
  rewrite bool_decide_eq_true_2 by exact Hopen. cbn.
  eexists. split; [reflexivity|]. cbn. rewrite lookup_alter_eq, Hobj. cbn.
  split; [apply clients_get_delete|].
  split; [intros k Hk; now apply clients_get_delete_ne|].
  split; [reflexivity|]. split; [reflexivity|]. now rewrite <- app_assoc.
Qed.

(** X16. Round trip of a new session: after the first datagram of a client
    has opened a session, a reply of the backend arriving on the socket of
    that session is sent, unchanged, through the listening socket to the
    address and port the datagram came from, and changes nothing else.  That
    is so when the source port of the client is one that [send] takes, 1 to
    65535; for another source port, 0 that is, [send] throws, and nothing in
    the handler catches it. *)
Theorem reply_returns_to_sender
    (udpServer : nat) (message reply : string) (rinfo : Rinfo) (w : World)
    (route : Route) (cs : Clients) :
  objects w !! udpServer = Some (UdpListener route cs) ->
  clients_get (clientKey_of rinfo) cs = None ->
  socket_error rt (next_id w) = None ->
  udpServer <> next_id w ->
  udpServer ∈ open w ->
  exists w1,
    udpServer_on_message rt udpServer message rinfo w = (Returned tt, w1) /\
    (0 < rport rinfo <= 65535 ->
     clientSocket_on_message rt (next_id w) reply w1 =
       (Returned tt,
        set_trace (trace w1 ++
                   [Send udpServer reply (VNum (rport rinfo)) (VStr (address rinfo))]) w1)) /\
    (~ (0 < rport rinfo <= 65535) ->
     clientSocket_on_message rt (next_id w) reply w1 =
       (Thrown (send_error rt (VNum (rport rinfo)) (VStr (address rinfo))), w1)).
Proof.
  intros Hobj Hnew Hsock Hne Hopen.
  destruct (new_session udpServer message rinfo w route cs Hobj Hnew Hsock Hne)
    as (w1 & E & _ & Hn & _ & Hop & _).
  exists w1. split; [exact E|].
  unfold clientSocket_on_message. unfold_platform. unfold emit, modify.
  rewrite Hn. cbn.
  destruct (Z.ltb_spec 0 (rport rinfo)), (Z.leb_spec (rport rinfo) 65535); cbn;
    (split; intros Hport; [|try (exfalso; lia); try reflexivity]);
    try (exfalso; lia).
  rewrite bool_decide_eq_true_2; [reflexivity|].
  rewrite Hop. apply elem_of_union. now right.
Qed.

(** X17. Sessions are independent: a datagram of one client, whatever
    becomes of it, leaves the session of every other client of the listener,
    the tables of the other listeners and the pending timers of the other
    sessions untouched. *)
Theorem sessions_are_independent
    (udpServer : nat) (message : string) (rinfo : Rinfo) (w : World)
    (route : Route) (cs : Clients) :
  objects w !! udpServer = Some (UdpListener route cs) ->
  udpServer <> next_id w ->
  let w' := snd (udpServer_on_message rt udpServer message rinfo w) in
  (forall k, k <> clientKey_of rinfo ->
     clients_get k (clients_of udpServer w') = clients_get k cs) /\
  (forall srv, srv <> udpServer -> srv <> next_id w ->
     objects w' !! srv = objects w !! srv) /\
  (forall t : nat, (t < next_id w)%nat ->
     (forall c, clients_get (clientKey_of rinfo) cs = Some c -> t <> timeout c) ->
     timers w' !! t = timers w !! t).
Proof.
  intros Hobj Hne w'. subst w'.
  destruct (clients_get (clientKey_of rinfo) cs) as [client|] eqn:Hget.
  - rewrite (known_session _ _ _ _ _ _ _ Hobj Hget). unfold forwarded, clients_of. cbn.
    split; [|split].
    + intros k Hk. rewrite lookup_alter_eq, Hobj. cbn. now apply clients_get_set_ne.
    + intros srv Hs _. now rewrite lookup_alter_ne by congruence.
    + intros t Hlt Ht. rewrite lookup_insert_ne by lia.
      specialize (Ht client eq_refl). apply lookup_delete_ne. congruence.
  - destruct (socket_error rt (next_id w)) as [err|] eqn:Hs.
    + rewrite (failed_session _ message _ _ _ _ _ Hobj Hget Hs). cbn.
      split; [|split]; try reflexivity.
      intros k _. unfold clients_of. cbn. now rewrite Hobj.
    + destruct (new_session udpServer message rinfo w route cs Hobj Hget Hs Hne)
        as (w1 & E & Ho & _ & Hother & _ & Ht & _).
      rewrite E. cbn.
      split; [|split].
      * intros k Hk. rewrite (clients_of_lookup _ _ _ _ Ho). now apply clients_get_snoc_ne.
      * exact Hother.
      * intros t Hlt _. rewrite Ht, lookup_insert_ne by lia. apply lookup_delete_ne. lia.
Qed.

(** X18. An error on the socket of a session is logged, closes that socket
    and removes the session from the table of its listener; the other
    sessions stay, and the idle timer of the removed session is not
    cancelled: it stays pending. *)
Theorem session_socket_error_ends_session
    (clientSocket udpServer : nat) (err : string) (w : World) (rinfo : Rinfo)
    (clientKey : string) (route : Route) (cs : Clients) :
  objects w !! clientSocket = Some (ClientSocket udpServer rinfo clientKey) ->
  objects w !! udpServer = Some (UdpListener route cs) ->
  clientSocket ∈ open w ->
  exists w',
    clientSocket_on_error clientSocket err w = (Returned tt, w') /\
    clients_get clientKey (clients_of udpServer w') = None /\
    (forall k, k <> clientKey ->
       clients_get k (clients_of udpServer w') = clients_get k cs) /\
    open w' = open w ∖ {[clientSocket]} /\
    timers w' = timers w /\
    trace w' =
      (trace w ++
       [Log Error ("[" +:+ show (name route) +:+ "] UDP client socket error for " +:+
                   clientKey +:+ ": " +:+ err);
        CloseSocket clientSocket])%list.
Proof.
  intros Hsock Hobj Hopen.
  unfold clientSocket_on_error, update_clients. unfold_platform. unfold emit, modify.
  rewrite Hsock, Hobj. cbn. rewrite bool_decide_eq_true_2 by exact Hopen. cbn.
  eexists. split; [reflexivity|]. unfold clients_of. cbn. rewrite lookup_alter_eq, Hobj. cbn.
  split; [apply clients_get_delete|].
  split; [intros k Hk; now apply clients_get_delete_ne|].
  split; [reflexivity|]. split; [reflexivity|]. now rewrite <- app_assoc.
Qed.

(** ** Stopping listeners and sessions *)

Lemma removed_not_open (x : nat) (X : gset nat) : x ∉ X ∖ {[x]}.
Proof. intros H. apply elem_of_difference in H as [_ H]. apply H. now apply elem_of_singleton. Qed.

Lemma open_before_removal (x y : nat) (X : gset nat) : x ∈ X ∖ {[y]} -> x ∈ X.
Proof. intros H. now apply elem_of_difference in H as [H _]. Qed.

Lemma close_clients_shrinks cs w (x : nat) :
  x ∈ open (snd (close_clients cs w)) -> x ∈ open w.
Proof.
  revert w. induction cs as [|[clientKey client] cs IH]; intros w; [trivial|].
  simpl. unfold_platform. cbn. destruct (bool_decide _); cbn; [|trivial].
  intros H. apply IH in H. cbn in H. exact (open_before_removal _ _ _ H).
Qed.

Lemma stop_server_tcp a w id :
  a_protocol a = VStr "tcp" -> a_server a = NetServer id ->
  exists w',
    stop_server a w = (Returned tt, w') /\
    open w' = open w ∖ {[id]} /\
    trace w' =
      (trace w ++ [CloseServer id; Log Info ("Stopped TCP proxy " +:+ show (a_name a))])%list /\
    timers w' = timers w /\ objects w' = objects w.
Proof.
  intros Hp Hs. unfold stop_server. rewrite Hp, Hs. unfold_platform. cbn.
  eexists. split; [reflexivity|]. cbn. rewrite <- app_assoc. now repeat split.
Qed.

Lemma stop_server_shrinks a w (x : nat) :
  pushed_by_code a -> x ∈ open (snd (stop_server a w)) -> x ∈ open w.
Proof.
  intros [(Hp & id & Hs)|(Hp & id & Hs)].
  - destruct (stop_server_tcp a w id Hp Hs) as (w' & -> & Ho & _). cbn. rewrite Ho.
    apply open_before_removal.
  - unfold stop_server. rewrite Hp, Hs. cbn.
    unfold try_catch, bind at 1, bind at 1, gets at 1. cbn. unfold bind at 1.
    pose proof (close_clients_shrinks (clients_of id w) w x) as H.
    destruct (close_clients (clients_of id w) w) as [[[]|e] w1]; cbn in H |- *; exact H.
Qed.

Lemma stop_servers_closes l w :
  Forall pushed_by_code l ->
  exists w',
    stop_servers l w = (Returned tt, w') /\
    (forall x : nat, x ∈ open w' -> x ∈ open w) /\
    (forall a id, In a l -> a_protocol a = VStr "tcp" -> a_server a = NetServer id ->
                  id ∉ open w').
Proof.
  intros Hl. revert w. induction Hl as [|a l Ha _ IH]; intros w; simpl.
  - exists w. split; [reflexivity|]. split; [trivial|]. intros a id [].
  - assert (tcp_or_udp a) as Htu
      by (destruct Ha as [[Hp _]|[Hp _]]; [left | right]; exact Hp).
    unfold bind. pose proof (stop_server_shrinks a w) as Hshrink.
    assert (forall id, a_protocol a = VStr "tcp" -> a_server a = NetServer id ->
                       id ∉ open (snd (stop_server a w))) as Hclosed.
    { intros id Hp Hs. destruct (stop_server_tcp a w id Hp Hs) as (w1 & -> & Ho & _).
      cbn. rewrite Ho. apply removed_not_open. }
    destruct (stop_server_returns a w Htu) as (w1 & E & _). rewrite E in Hshrink, Hclosed |- *.
    cbn in Hshrink, Hclosed.
    destruct (IH w1) as (w2 & -> & Hsub & Hrest).
    exists w2. split; [reflexivity|]. split.
    + intros x Hx. apply Hshrink; [exact Ha|]. now apply Hsub.
    + intros b id [<-|Hin] Hp Hs.
      * intros Hx. apply (Hclosed id Hp Hs). now apply Hsub.
      * now apply (Hrest b id).
Qed.

(** X19. [stopAllProxies] on an active set as the code builds it returns
    with the active set empty and with the server of every TCP entry
    closed; it opens nothing: whatever is open afterwards was open
    before. *)
Theorem stopAllProxies_closes_tcp_servers (w : World) :
  well_formed w ->
  exists w',
    stopAllProxies w = (Returned tt, w') /\
    activeServers w' = [] /\
    (forall a id, In a (activeServers w) -> a_protocol a = VStr "tcp" ->
                  a_server a = NetServer id -> id ∉ open w') /\
    (forall x : nat, x ∈ open w' -> x ∈ open w).
Proof.
  intros Hw. unfold stopAllProxies, bind, gets, modify.
  destruct (stop_servers_closes (activeServers w) w Hw) as (w1 & -> & Hsub & Hclosed).
  eexists. split; [reflexivity|]. cbn. now repeat split.
Qed.

Lemma close_clients_all cs w :
  NoDup (map (fun e => socket (snd e)) cs) ->
  (forall k s, In (k, s) cs -> socket s ∈ open w) ->
  exists w',
    close_clients cs w = (Returned tt, w') /\
    trace w' =
      (trace w ++
       flat_map (fun e => [ClearTimeout (timeout (snd e)); CloseSocket (socket (snd e))]) cs)%list /\
    (forall k s, In (k, s) cs -> socket s ∉ open w') /\
    (forall x : nat, x ∈ open w' -> x ∈ open w) /\
    (forall k s, In (k, s) cs -> timers w' !! timeout s = None) /\
    (forall t, timers w !! t = None -> timers w' !! t = None).
Proof.
  revert w. induction cs as [|[clientKey client] cs IH]; intros w Hnd Hopen.
  - exists w. split; [reflexivity|]. cbn. rewrite app_nil_r.
    split; [reflexivity|]. split; [intros k s []|]. split; [trivial|].
    split; [intros k s []|trivial].
  - cbn in Hnd. apply NoDup_cons in Hnd as [Hhd Hnd].
    simpl. unfold_platform. unfold emit, modify. cbn.
    rewrite bool_decide_eq_true_2 by (apply (Hopen clientKey); now left). cbn.
    match goal with |- context [close_clients cs ?w1] =>
      destruct (IH w1 Hnd) as (w' & -> & Htr & Hcl & Hsub & Htm & Hmono) end.
    { intros k s Hin. cbn. apply elem_of_difference. split.
      - apply (Hopen k). now right.
      - intros Hx. apply elem_of_singleton in Hx. apply Hhd.
        apply list_elem_of_In, List.in_map_iff. exists (k, s). split; [now symmetry|exact Hin]. }
    exists w'. split; [reflexivity|]. cbn in Htr, Hsub, Hmono.
    split; [rewrite Htr, <- !app_assoc; reflexivity|].
    split.
    { intros k s [Heq|Hin]; [|now apply (Hcl k)].
      injection Heq as <- <-. intros Hx. apply Hsub in Hx.
      exact (removed_not_open _ _ Hx). }
    split.
    { intros x Hx. apply Hsub in Hx. exact (open_before_removal _ _ _ Hx). }
    split.
    { intros k s [Heq|Hin]; [|now apply (Htm k)].
      injection Heq as <- <-. apply Hmono. apply lookup_delete_eq. }
    intros t Ht. apply Hmono. rewrite lookup_delete_None. now right.
Qed.

(** X20. When [stopAllProxies] comes to a UDP entry whose sessions have
    sockets of their own that are open, every session is torn down in the
    order of the table, its timer cleared and then its socket closed; the
    iteration is followed by the failing [close] of the entry itself,
    which is logged. *)
Theorem udp_stop_tears_sessions_down (a : Active) (w : World) (udpServer : nat) :
  a_protocol a = VStr "udp" -> a_server a = UdpProxy udpServer ->
  NoDup (map (fun e => socket (snd e)) (clients_of udpServer w)) ->
  (forall k s, In (k, s) (clients_of udpServer w) -> socket s ∈ open w) ->
  exists w',
    stop_server a w = (Returned tt, w') /\
    trace w' =
      (trace w ++
       flat_map (fun e => [ClearTimeout (timeout (snd e)); CloseSocket (socket (snd e))])
                (clients_of udpServer w) ++
       [Log Error ("Failed to stop UDP proxy " +:+ show (a_name a) +:+
                   ": server.server.close is not a function")])%list /\
    (forall k s, In (k, s) (clients_of udpServer w) ->
       (socket s ∉ open w') /\ timers w' !! timeout s = None).
Proof.
  intros Hp Hs Hnd Hopen. unfold stop_server. rewrite Hp, Hs. cbn.
  unfold try_catch, bind at 1, bind at 1, gets at 1. cbn. unfold bind at 1.
  destruct (close_clients_all _ w Hnd Hopen) as (w1 & -> & Htr & Hcl & _ & Htm & _).
  unfold_platform. cbn. eexists. split; [reflexivity|]. cbn.
  split; [rewrite Htr, <- app_assoc; reflexivity|].
  intros k s Hin. split; [now apply (Hcl k) | now apply (Htm k)].
Qed.

Lemma handle_eqb_eq (a b : handle) : handle_eqb a b = true <-> a = b.
Proof.
  destruct a, b; cbn; rewrite ?Nat.eqb_eq; split; intros H; try congruence; try discriminate.
Qed.

Lemma filter_all_but_one {A} (f : A -> bool) (l : list A) (i : nat) (x : A) :
  l !! i = Some x -> f x = false ->
  (forall j y, l !! j = Some y -> j <> i -> f y = true) ->
  List.filter f l = delete i l.
Proof.
  revert i. induction l as [|z l IH]; intros i Hi Hx Hrest; [discriminate|].
  destruct i as [|i]; cbn in *.
  - injection Hi as ->. rewrite Hx.
    assert (forall y, In y l -> f y = true) as Hall.
    { intros y Hy. apply list_elem_of_In, list_elem_of_lookup in Hy as (j & Hj).
      apply (Hrest (S j) y); [exact Hj | lia]. }
    clear -Hall. induction l as [|y l IH]; [reflexivity|]. cbn.
    rewrite (Hall y) by now left. f_equal. apply IH. intros; apply Hall; now right.
  - rewrite (Hrest 0%nat z eq_refl) by lia. f_equal.
    apply (IH i Hi Hx). intros j y Hj Hne. apply (Hrest (S j) y Hj). lia.
Qed.

(** X21. An ['error'] event of a TCP server whose entry is in the active
    set, and is the only entry holding that server, removes exactly that
    entry and logs the error; the other entries stay in their order, and
    the handler closes nothing. *)
Theorem tcpServer_error_removes_its_entry
    (tcpServer : nat) (err : string) (w : World) (route : Route) (i : nat) (a : Active) :
  objects w !! tcpServer = Some (TcpListener route) ->
  activeServers w !! i = Some a ->
  a_server a = NetServer tcpServer ->
  (forall j b, activeServers w !! j = Some b -> j <> i -> a_server b <> NetServer tcpServer) ->
  exists w',
    tcpServer_on_error tcpServer err w = (Returned tt, w') /\
    activeServers w' = delete i (activeServers w) /\
    open w' = open w /\
    trace w' =
      (trace w ++
       [Log Error ("[" +:+ show (name route) +:+ "] TCP server error: " +:+ err)])%list.
Proof.
  intros Hobj Hi Ha Hrest. unfold tcpServer_on_error. unfold_platform. rewrite Hobj. cbn.
  eexists. split; [reflexivity|]. cbn. split; [|now split].
  apply (filter_all_but_one _ _ i a Hi).
  - rewrite Ha. cbn. now rewrite Nat.eqb_refl.
  - intros j b Hj Hne. apply negb_true_iff.
    destruct (handle_eqb (a_server b) (NetServer tcpServer)) eqn:E; [|reflexivity].
    apply handle_eqb_eq in E. now apply (Hrest j b) in E.
Qed.

(** ** What the stop leaves closed *)

Lemma close_method_shrinks expr h w (x : nat) :
  x ∈ open (snd (close_method expr h w)) -> x ∈ open w.
Proof.
  destruct h; simpl; unfold_platform; cbn.
  - apply open_before_removal.
  - destruct (bool_decide _); cbn; [apply open_before_removal | trivial].
  - trivial.
Qed.

Lemma stop_server_only_closes a w (x : nat) :
  tcp_or_udp a -> x ∈ open (snd (stop_server a w)) -> x ∈ open w.
Proof.
  intros Hp. unfold stop_server.
  destruct Hp as [Hp|Hp]; rewrite Hp; destruct (a_server a) as [id|id|id]; cbn;
    try solve [unfold_platform; cbn; repeat (destruct (bool_decide _); cbn);
               first [apply open_before_removal | trivial]].
  unfold try_catch, bind at 1, bind at 1, gets at 1. cbn. unfold bind at 1.
  pose proof (close_clients_shrinks (clients_of id w) w x) as H.
  destruct (close_clients (clients_of id w) w) as [[[]|e] w1]; cbn in H |- *; exact H.
Qed.

Lemma stop_servers_close_tcp l w :
  Forall tcp_or_udp l ->
  exists w',
    stop_servers l w = (Returned tt, w') /\
    (forall x : nat, x ∈ open w' -> x ∈ open w) /\
    (forall a id, In a l -> a_protocol a = VStr "tcp" -> a_server a = NetServer id ->
                  id ∉ open w').
Proof.
  intros Hl. revert w. induction Hl as [|a l Ha _ IH]; intros w; simpl.
  - exists w. split; [reflexivity|]. split; [trivial|]. intros a id [].
  - unfold bind. pose proof (stop_server_only_closes a w) as Hshrink.
    assert (forall id, a_protocol a = VStr "tcp" -> a_server a = NetServer id ->
                       id ∉ open (snd (stop_server a w))) as Hclosed.
    { intros id Hp Hs. destruct (stop_server_tcp a w id Hp Hs) as (w1 & -> & Ho & _).
      cbn. rewrite Ho. apply removed_not_open. }
    destruct (stop_server_returns a w Ha) as (w1 & E & _). rewrite E in Hshrink, Hclosed |- *.
    cbn in Hshrink, Hclosed.
    destruct (IH w1) as (w2 & -> & Hsub & Hrest).
    exists w2. split; [reflexivity|]. split.
    + intros x Hx. apply Hshrink; [exact Ha|]. now apply Hsub.
    + intros b id [<-|Hin] Hp Hs.
      * intros Hx. apply (Hclosed id Hp Hs). now apply Hsub.
      * now apply (Hrest b id).
Qed.

Lemma kept_open (x y : nat) (X : gset nat) : x ∈ X -> y <> x -> x ∈ X ∖ {[y]}.
Proof.
  intros H Hne. apply elem_of_difference. split; [exact H|].
  intros Hs. apply elem_of_singleton in Hs. congruence.
Qed.

Lemma close_clients_objects cs w : objects (snd (close_clients cs w)) = objects w.
Proof.
  revert w. induction cs as [|[clientKey client] cs IH]; intros w; [reflexivity|].
  simpl. unfold_platform. cbn. destruct (bool_decide _); cbn; [|reflexivity].
  now rewrite IH.
Qed.

Lemma stop_server_keeps a w (x : nat) :
  tcp_or_udp a -> x ∈ open w ->
  a_server a <> NetServer x -> a_server a <> DgramSocket x ->
  (forall u k s, In (k, s) (clients_of u w) -> socket s <> x) ->
  x ∈ open (snd (stop_server a w)) /\ objects (snd (stop_server a w)) = objects w.
Proof.
  intros Hp Hx Hn Hd Hcs. unfold stop_server. revert Hn Hd.
  destruct Hp as [Hp|Hp]; rewrite Hp; destruct (a_server a) as [id|id|id]; intros Hn Hd; cbn;
    try solve [unfold_platform; cbn; repeat (destruct (bool_decide _); cbn);
               (split; [|reflexivity]);
               first [apply kept_open; [exact Hx | congruence] | exact Hx]].
  pose proof (close_clients_keeps_open (clients_of id w) w x Hx (Hcs id)) as H.
  pose proof (close_clients_objects (clients_of id w) w) as Ho.
  split; unfold try_catch, bind at 1, bind at 1, gets at 1; cbn; unfold bind at 1;
    destruct (close_clients (clients_of id w) w) as [[[]|e] w1]; cbn in H, Ho |- *;
    assumption.
Qed.

Lemma stop_servers_keep l w (x : nat) :
  Forall tcp_or_udp l -> x ∈ open w -> spared l w x ->
  x ∈ open (snd (stop_servers l w)).
Proof.
  intros Hl. revert w. induction Hl as [|a l Ha _ IH]; intros w Hx [Hs Hcs]; simpl;
    [exact Hx|].
  unfold bind. destruct (Hs a (or_introl eq_refl)) as [Hn Hd].
  destruct (stop_server_keeps a w x Ha Hx Hn Hd Hcs) as [Hx1 Ho1].
  destruct (stop_server_returns a w Ha) as (w1 & E & _). rewrite E in Hx1, Ho1 |- *.
  cbn in Hx1, Ho1. apply IH; [exact Hx1|]. split.
  - intros b Hb. apply Hs. now right.
  - intros u k s. unfold clients_of. rewrite Ho1. apply Hcs.
Qed.

Lemma stopAllProxies_stops w :
  Forall tcp_or_udp (activeServers w) ->
  exists w0,
    stopAllProxies w = (Returned tt, w0) /\ activeServers w0 = [] /\
    routes w0 = routes w /\
    (forall a id, In a (activeServers w) -> a_protocol a = VStr "tcp" ->
                  a_server a = NetServer id -> id ∉ open w0) /\
    (forall x : nat, x ∈ open w0 -> x ∈ open w) /\
    (forall x : nat, x ∈ open w -> spared (activeServers w) w x -> x ∈ open w0).
Proof.
  intros Hw. destruct (stopAllProxies_returns w Hw) as (w0 & E & Hx & Ha).
  exists w0. split; [exact E|]. split; [exact Ha|]. split; [exact (ext_routes _ _ Hx)|].
  unfold stopAllProxies, bind, gets, modify in E.
  pose proof (stop_servers_keep (activeServers w) w) as Hkeep.
  destruct (stop_servers_close_tcp (activeServers w) w Hw) as (w1 & E1 & Hsub & Hclosed).
  rewrite E1 in E, Hkeep. injection E as <-. cbn in Hkeep |- *.
  split; [exact Hclosed|]. split; [exact Hsub|].
  intros x Hopen Hsp. now apply Hkeep.
Qed.

(** X28. The pass of [startAllProxies] and what comes before it.
    [stopAllProxies] comes first: it empties the active set and closes the
    server of every TCP entry.  It opens nothing, and a handle that is
    [spared] stays open: one that no entry has as the server or socket in
    its [server] property and that is no socket of a session.  The
    listening socket of a UDP entry is such a handle, the entry having it
    inside the object that [startUdpProxy] returned.  Then the route table
    is passed over in order, and every route has its turn whatever happened
    to the routes before it: a route that is not enabled is passed over, the
    start of an
    enabled one is attempted, and a start that returns no listener adds
    nothing to the active set and does not end the pass.  So the active set
    lists, in table order, enabled routes only, and an enabled route that
    the platform accepts and whose address no enabled route before it asks
    for is active at the end, whichever other routes failed. *)
Theorem startAllProxies_stops_then_passes (w : World) :
  Forall tcp_or_udp (activeServers w) ->
  exists w0 w1,
    stopAllProxies w = (Returned tt, w0) /\ activeServers w0 = [] /\
    routes w0 = routes w /\
    (forall a id, In a (activeServers w) -> a_protocol a = VStr "tcp" ->
                  a_server a = NetServer id -> id ∉ open w0) /\
    (forall x : nat, x ∈ open w0 -> x ∈ open w) /\
    (forall x : nat, x ∈ open w -> spared (activeServers w) w x -> x ∈ open w0) /\
    start_routes rt (routes w) w0 = (Returned tt, w1) /\
    startAllProxies rt w =
      (Returned tt,
       set_trace (trace w1 ++
                  [Log Info ("Started " +:+ pretty (length (activeServers w1)) +:+
                             " proxies")]) w1) /\
    (forall pre route post,
        routes w = (pre ++ route :: post)%list ->
        exists s s',
          start_routes rt pre w0 = (Returned tt, s) /\
          turn route s s' /\
          start_routes rt post s' = (Returned tt, w1)) /\
    lists (routes w) (activeServers w1) /\
    (forall pre route post,
        routes w = (pre ++ route :: post)%list ->
        truthy (enabled route) = true -> accepted route ->
        (forall r, In r pre -> truthy (enabled r) = true -> same_listen r route = false) ->
        exists a, In a (activeServers w1) /\ runs route a).
Proof.
  intros Hw.
  destruct (startAllProxies_pass w Hw)
    as (w0 & w1 & E0 & Ha0 & Hr0 & E1 & Eall & Hturns & Hlists & Hisolated).
  destruct (stopAllProxies_stops w Hw) as (w0' & E0' & _ & _ & Hclosed & Hsub & Hkept).
  rewrite E0 in E0'. injection E0' as <-.
  exists w0, w1. repeat (split; [assumption|]). assumption.
Qed.

(** ** The control-plane API *)

Lemma split_slash_free n : slash_free n = true -> split_slash n = [n].
Proof.
  induction n as [|c n IH]; [reflexivity|].
  intros H. cbn [slash_free] in H. apply andb_true_iff in H as [Hc Hn].
  apply negb_true_iff in Hc. cbn [split_slash]. now rewrite Hc, (IH Hn).
Qed.

Lemma split_slash_segment n rest :
  slash_free n = true -> split_slash (n +:+ "/" +:+ rest) = n :: split_slash rest.
Proof.
  induction n as [|c n IH]; [reflexivity|].
  intros H. cbn [slash_free] in H. apply andb_true_iff in H as [Hc Hn].
  apply negb_true_iff in Hc.
  change (String c n +:+ "/" +:+ rest) with (String c (n +:+ "/" +:+ rest)).
  cbn [split_slash]. now rewrite Hc, (IH Hn).
Qed.

Lemma split_slash_routes s :
  split_slash ("/routes/" +:+ s) = "" :: "routes" :: split_slash s.
Proof.
  change ("/routes/" +:+ s) with (String "/" ("routes" +:+ "/" +:+ s)).
  cbn [split_slash]. change (Ascii.eqb "/" "/") with true. cbv iota.
  now rewrite split_slash_segment.
Qed.

Lemma routeName_of_name n :
  slash_free n = true -> routeName_of ("/routes/" +:+ n) = VStr n.
Proof.
  intros H. unfold routeName_of. now rewrite split_slash_routes, (split_slash_free n H).
Qed.

Lemma routeName_of_segment n rest :
  slash_free n = true -> routeName_of ("/routes/" +:+ n +:+ "/" +:+ rest) = VStr n.
Proof.
  intros H. unfold routeName_of.
  now rewrite split_slash_routes, (split_slash_segment n rest H).
Qed.

Lemma endsWith_refl suf : endsWith suf suf = true.
Proof. destruct suf; cbn [endsWith]; now rewrite String.eqb_refl. Qed.

Lemma endsWith_prepend suf s1 s2 : endsWith suf s2 = true -> endsWith suf (s1 +:+ s2) = true.
Proof.
  intros H. induction s1 as [|c s1 IH]; [exact H|].
  change (String c s1 +:+ s2) with (String c (s1 +:+ s2)).
  cbn [endsWith]. rewrite IH. apply orb_true_r.
Qed.

Lemma under_routes s :
  String.eqb ("/routes/" +:+ s) "/routes" = false /\
  String.eqb ("/routes/" +:+ s) "/restart" = false /\
  String.prefix "/routes/" ("/routes/" +:+ s) = true.
Proof. split; [reflexivity|]. split; [reflexivity|]. destruct s; reflexivity. Qed.

(** X22. A route is addressed by the third segment of the path: for a name
    without a slash, DELETE /routes/<name>, with or without further
    segments, answers with the result of [removeRoute] for that name, and
    POST /routes/<name>/toggle with the result of [toggleRoute] for it;
    the status is 200 when the operation succeeded and 404 otherwise. *)
Theorem api_addresses_route_by_name (n rest : string) (data : Parsed) (w : World) :
  slash_free n = true ->
  (exists result w',
     removeRoute rt (VStr n) w = (Returned result, w') /\
     handleApiRequest rt parseInt "DELETE" ("/routes/" +:+ n) data w =
       (Returned (mkReply (if success result then 200 else 404) (BResult result)), w') /\
     handleApiRequest rt parseInt "DELETE" ("/routes/" +:+ n +:+ "/" +:+ rest) data w =
       (Returned (mkReply (if success result then 200 else 404) (BResult result)), w')) /\
  (exists result w',
     toggleRoute rt (VStr n) w = (Returned result, w') /\
     handleApiRequest rt parseInt "POST" ("/routes/" +:+ n +:+ "/toggle") data w =
       (Returned (mkReply (if success result then 200 else 404) (BResult result)), w')).
Proof.
  intros Hn. split.
  - destruct (removeRoute_runs (VStr n) w) as (result & w' & E).
    exists result, w'. split; [exact E|].
    unfold handleApiRequest, try_catch.
    destruct (under_routes n) as (-> & _ & ->).
    destruct (under_routes (n +:+ "/" +:+ rest)) as (-> & _ & ->).
    cbn [andb String.eqb Ascii.eqb Bool.eqb].
    rewrite (routeName_of_name n Hn), (routeName_of_segment n rest Hn).
    unfold bind. rewrite E. now split.
  - destruct (toggleRoute_runs (VStr n) w) as (result & w' & E).
    exists result, w'. split; [exact E|].
    unfold handleApiRequest, try_catch.
    destruct (under_routes (n +:+ "/toggle")) as (-> & _ & ->).
    rewrite (endsWith_prepend "/toggle" "/routes/" (n +:+ "/toggle"))
      by (apply endsWith_prepend, endsWith_refl).
    cbn [andb String.eqb Ascii.eqb Bool.eqb].
    pose proof (routeName_of_segment n "toggle" Hn) as Hseg.
    change ("/" +:+ "toggle") with "/toggle" in Hseg. rewrite Hseg.
    unfold bind. now rewrite E.
Qed.

(** X23. A GET request changes nothing: GET /routes answers 200 with the
    listing of [getAllRoutes], a GET of any other path answers 404, and in
    both cases the world is as before. *)
Theorem get_is_read_only (path : string) (data : Parsed) (w : World) :
  exists reply,
    handleApiRequest rt parseInt "GET" path data w = (Returned reply, w) /\
    (path = "/routes" ->
     exists listing,
       getAllRoutes w = (Returned listing, w) /\ reply = mkReply 200 (BRoutes listing)) /\
    (path <> "/routes" -> reply = mkReply 404 (BResult (mkResult false "Not found"))).
Proof.
  unfold handleApiRequest, try_catch.
  change (String.eqb "GET" "GET") with true.
  change (String.eqb "GET" "POST") with false.
  change (String.eqb "GET" "PUT") with false.
  change (String.eqb "GET" "DELETE") with false.
  rewrite !andb_false_r, andb_true_r.
  destruct (String.eqb path "/routes") eqn:E.
  - eexists. split; [reflexivity|]. split.
    + intros _. eexists. split; reflexivity.
    + intros Hne. apply String.eqb_eq in E. contradiction.
  - eexists. split; [reflexivity|]. split; [|reflexivity].
    intros ->. discriminate.
Qed.

(** X24. POST /restart calls [stopAllProxies], which empties the active
    set and closes the server of every TCP entry.  It opens nothing, and a
    handle that is [spared] stays open: one that no entry has as the server
    or socket in its [server] property and that is no socket of a session.
    The listening socket of a UDP entry is such a handle, the entry having
    it inside the object that [startUdpProxy] returned.  The request then
    runs [startAllProxies] and answers 200.  Afterwards the route table is as
    before, the active set lists, in table order, enabled routes of the
    table, and no two of its entries share a (protocol, host, port). *)
Theorem restart_request (data : Parsed) (w : World) :
  Forall tcp_or_udp (activeServers w) ->
  exists w0 w',
    stopAllProxies w = (Returned tt, w0) /\
    activeServers w0 = [] /\
    (forall a id, In a (activeServers w) -> a_protocol a = VStr "tcp" ->
                  a_server a = NetServer id -> id ∉ open w0) /\
    (forall x : nat, x ∈ open w0 -> x ∈ open w) /\
    (forall x : nat, x ∈ open w -> spared (activeServers w) w x -> x ∈ open w0) /\
    startAllProxies rt w0 = (Returned tt, w') /\
    handleApiRequest rt parseInt "POST" "/restart" data w =
      (Returned (mkReply 200 (BResult (mkResult true "All proxies restarted"))), w') /\
    routes w' = routes w /\
    lists (routes w) (activeServers w') /\
    one_per_address (activeServers w').
Proof.
  intros Hw. unfold handleApiRequest, try_catch. cbn [String.eqb Ascii.eqb Bool.eqb andb].
  change (String.prefix "/routes/" "/restart") with false. cbn [andb].
  unfold bind at 1.
  destruct (stopAllProxies_stops w Hw) as (w0 & E0 & Ha0 & Hr0 & Hclosed & Hsub & Hkept).
  rewrite E0.
  assert (Forall tcp_or_udp (activeServers w0)) as Hw0 by (rewrite Ha0; constructor).
  destruct (startAllProxies_lists w0 Hw0) as (w1 & E & Hr & Hl).
  destruct (startAllProxies_establishes one_per_address) with (w := w0)
    as (w1' & E' & Hone); [| |exact Hw0|].
  { intros i j a b Hi. discriminate. }
  { intros route s. apply start_route_one_per_address. }
  rewrite E in E'. injection E' as <-.
  unfold bind at 1. rewrite E. unfold ret.
  exists w0, w1. rewrite Hr0 in Hr, Hl. now repeat split.
Qed.

Lemma properties_read data r property w :
  read_as data r -> properties data property w = (Returned r, w).
Proof. destruct data; cbn; [intros [] | intros -> | intros ->]; reflexivity. Qed.

(** X25. A request whose body is not [null] and lacks a required field is
    refused with 400 and changes nothing: POST /routes without a truthy
    [name], [protocol], [listen] or [forward], and PUT /routes/<name>
    without a truthy [protocol], [listen] or [forward].  On the body [null]
    the read of the first of these properties throws: the two requests are
    answered 500, the error is logged and nothing else changes. *)
Theorem incomplete_request_is_refused
    (n : string) (data : Parsed) (r : Request) (w : World) :
  read_as data r ->
  complete r = false ->
  handleApiRequest rt parseInt "POST" "/routes" data w =
    (Returned (mkReply 400 (BResult (mkResult false "Missing required fields"))), w) /\
  (complete_update r = false ->
   handleApiRequest rt parseInt "PUT" ("/routes/" +:+ n) data w =
     (Returned (mkReply 400 (BResult (mkResult false "Missing required fields"))), w)) /\
  handleApiRequest rt parseInt "POST" "/routes" JNull w =
    (Returned (mkReply 500 (BResult (mkResult false "Internal server error"))),
     set_trace (trace w ++
                [Log Error "API error: Cannot read properties of null (reading 'name')"])
               w) /\
  handleApiRequest rt parseInt "PUT" ("/routes/" +:+ n) JNull w =
    (Returned (mkReply 500 (BResult (mkResult false "Internal server error"))),
     set_trace (trace w ++
                [Log Error "API error: Cannot read properties of null (reading 'protocol')"])
               w).
Proof.
  intros Hread Hd. split; [|split; [|split]].
  - unfold handleApiRequest, try_catch.
    cbn [andb String.eqb Ascii.eqb Bool.eqb].
    unfold bind at 1. rewrite (properties_read _ _ _ _ Hread).
    unfold complete in Hd.
    destruct (truthy (d_name r)), (truthy (d_protocol r)),
      (field_truthy (d_listen r)), (field_truthy (d_forward r));
      try discriminate; reflexivity.
  - intros Hu. unfold handleApiRequest, try_catch.
    destruct (under_routes n) as (-> & _ & ->).
    cbn [andb String.eqb Ascii.eqb Bool.eqb].
    unfold bind at 1. rewrite (properties_read _ _ _ _ Hread).
    unfold complete_update in Hu.
    destruct (truthy (d_protocol r)), (field_truthy (d_listen r)),
      (field_truthy (d_forward r)); try discriminate; reflexivity.
  - reflexivity.
  - unfold handleApiRequest, try_catch.
    destruct (under_routes n) as (-> & _ & ->).
    reflexivity.
Qed.






(** ** The filter of [log] *)

Lemma logLevels_rank level : logLevels (level_key level) = Some (rank level).
Proof. now destruct level. Qed.

(** X27. The filter of [log] is monotone in the severity: when a message
    of some level gets printed, so does every message of a higher level,
    and so does every error. *)
Theorem log_filter_is_monotone (logging : Logging) (l1 l2 : Level) :
  (rank l1 <= rank l2)%Z ->
  log_prints logging l1 = true ->
  log_prints logging l2 = true /\ log_prints logging Error = true.
Proof.
  unfold log_prints. rewrite !logLevels_rank. intros Hle.
  destruct (negb (truthy (logging_enabled logging))); [discriminate|].
  destruct (logLevels (logLevel logging)) as [threshold|]; cbn; [|now split].
  destruct (rank l1 <? threshold)%Z eqn:E1; [discriminate|]. intros _.
  apply Z.ltb_ge in E1.
  assert (rank l1 <= 3)%Z by (destruct l1; cbn; lia).
  split.
  - destruct (rank l2 <? threshold)%Z eqn:E2; [|reflexivity]. apply Z.ltb_lt in E2. lia.
  - destruct (3 <? threshold)%Z eqn:E3; [|reflexivity]. apply Z.ltb_lt in E3. lia.
Qed.

End Properties.

(** * The engine at work *)

(** ** The sample worlds, evaluated *)

Lemma running_routes : routes running = [voice; query].
Proof. vm_compute. reflexivity. Qed.

Lemma running_entries : activeServers running = [voice_entry; query_entry].
Proof. vm_compute. reflexivity. Qed.

Lemma running_next_id : next_id running = 2%nat.
Proof. vm_compute. reflexivity. Qed.

Lemma running_listener : objects running !! 0%nat = Some (UdpListener voice []).
Proof. vm_compute. reflexivity. Qed.

Lemma running_server : objects running !! 1%nat = Some (TcpListener query).
Proof. vm_compute. reflexivity. Qed.

Lemma running_listener_open : 0%nat ∈ open running.
Proof. apply (bool_decide_eq_true_1 _). vm_compute. reflexivity. Qed.

Lemma running_distinct_names : distinct_names (routes running).
Proof.
  rewrite running_routes. intros i j a b Hi Hj Hne.
  destruct i as [|[|i]], j as [|[|j]]; try discriminate; try contradiction;
    injection Hi as <-; injection Hj as <-; reflexivity.
Qed.

Lemma running_well_formed : well_formed running.
Proof.
  unfold well_formed. rewrite running_entries.
  constructor; [|constructor; [|constructor]].
  - right. split; [reflexivity|]. now exists 0%nat.
  - left. split; [reflexivity|]. now exists 1%nat.
Qed.

Lemma running_tcp_or_udp : Forall tcp_or_udp (activeServers running).
Proof.
  rewrite running_entries.
  constructor; [|constructor; [|constructor]]; [right | left]; reflexivity.
Qed.

Lemma caller_key : clientKey_of caller = "192.0.2.7:50000".
Proof. vm_compute. reflexivity. Qed.

Lemma second_caller_key : clientKey_of second_caller = "198.51.100.4:40000".
Proof. vm_compute. reflexivity. Qed.

Lemma in_session_listener :
  objects in_session !! 0%nat =
    Some (UdpListener voice [("192.0.2.7:50000", mkSession 2 4)]).
Proof. vm_compute. reflexivity. Qed.

Lemma in_session_socket :
  objects in_session !! 2%nat = Some (ClientSocket 0 caller "192.0.2.7:50000").
Proof. vm_compute. reflexivity. Qed.

Lemma in_session_socket_open : 2%nat ∈ open in_session.
Proof. apply (bool_decide_eq_true_1 _). vm_compute. reflexivity. Qed.

Lemma in_session_next_id : next_id in_session = 5%nat.
Proof. vm_compute. reflexivity. Qed.

Lemma in_session_clients_of :
  clients_of 0 in_session = [("192.0.2.7:50000", mkSession 2 4)].
Proof. vm_compute. reflexivity. Qed.

Example running_active :
  map a_server (activeServers running) = [UdpProxy 0; NetServer 1].
Proof. reflexivity. Qed.

Example in_session_clients :
  clients_of 0 in_session = [("192.0.2.7:50000", mkSession 2 4)] /\
  timers in_session !! 4%nat = Some (mkTimer 30000 0 "192.0.2.7:50000" None).
Proof. split; vm_compute; reflexivity. Qed.

(** ** The idle timer *)

(** C1 (as amended) at the session of [caller]: a second datagram resets its timer. *)
Lemma client_datagram_resets_idle_timer_witness :
  objects in_session !! 0%nat =
    Some (UdpListener voice [("192.0.2.7:50000", mkSession 2 4)]) /\
  clients_get (clientKey_of caller) [("192.0.2.7:50000", mkSession 2 4)] =
    Some (mkSession 2 4) /\
  exists w',
    udpServer_on_message obliging 0 "ping" caller in_session = (Returned tt, w') /\
    timer_reset 0 (clientKey_of caller) in_session w'.
Proof.
  assert (objects in_session !! 0%nat =
            Some (UdpListener voice [("192.0.2.7:50000", mkSession 2 4)])) as H1
    by (vm_compute; reflexivity).
  assert (clients_get (clientKey_of caller) [("192.0.2.7:50000", mkSession 2 4)] =
            Some (mkSession 2 4)) as H2 by (vm_compute; reflexivity).
  split; [exact H1|]. split; [exact H2|].
  destruct (client_datagram_resets_idle_timer obliging 0 "ping" caller in_session
              voice _ _ H1 H2) as [(w' & E & Hreset & _) _].
  exists w'. split; [exact E | exact Hreset].
Defined.

(** C1, as stated, fails for a reply from the backend: the reply is relayed
    to the client, but the timer of the session is neither cancelled nor
    replaced, and ten seconds later it fires and evicts the session, though
    the session saw traffic within the last thirty seconds.  It also fails
    for a timeout that is no delay of a timer: with fifty days configured,
    the timer that the datagram of a client starts is due one millisecond
    later, and then evicts the session. *)
Lemma backend_reply_leaves_idle_timer :
  trace answered =
    (trace in_session ++ [Send 0 "pong" (VNum 50000) (VStr "192.0.2.7")])%list /\
  ~ timer_reset 0 (clientKey_of caller) (after (advance 20000) in_session) answered /\
  timers answered = timers in_session /\
  clients_of 0 (after (timeout_fires 4) (after (advance 10000) answered)) = [] /\
  udpTimeout long_wait = fifty_days /\
  clients_of 0 long_wait = [("192.0.2.7:50000", mkSession 1 3)] /\
  timers long_wait !! 3%nat = Some (mkTimer 1 0 "192.0.2.7:50000" None) /\
  clients_of 0 (after (timeout_fires 3) (after (advance 1) long_wait)) = [].
Proof.
  split; [vm_compute; reflexivity|].
  split;
    [|split; [vm_compute; reflexivity|]; split; [vm_compute; reflexivity|];
      split; [vm_compute; reflexivity|]; split; [vm_compute; reflexivity|];
      split; vm_compute; reflexivity].
  intros (client & client' & t & H1 & H2 & _ & Ht & Hd & _).
  vm_compute in H1. injection H1 as <-.
  vm_compute in H2. injection H2 as <-.
  assert (timers answered !! 4%nat = Some t) as Hl
    by (rewrite Ht; apply lookup_insert_eq).
  vm_compute in Hl. injection Hl as <-.
  vm_compute in Hd. discriminate.
Qed.

(** ** Stopping listeners *)

(** C2, at a running UDP listener with one session.  [stopAllProxies]
    cancels the timer of the session and closes its socket, but the call
    that should release the listening socket throws, because
    [server.server] is the object [{ server, clients }] and has no [close];
    the error is logged and socket 0 stays open and bound to 0.0.0.0:9987.
    The [startAllProxies] that follows asks for the same address with a new
    socket while the old one still holds it. *)
Theorem stopAllProxies_leaves_udp_socket_open :
  exists w' w'',
    stopAllProxies in_session = (Returned tt, w') /\
    trace w' =
      (trace in_session ++
       [ClearTimeout 4; CloseSocket 2;
        Log Error "Failed to stop UDP proxy voice: server.server.close is not a function";
        CloseServer 1; Log Info "Stopped TCP proxy query"])%list /\
    activeServers w' = [] /\
    (0%nat ∈ open w') /\
    startAllProxies obliging w' = (Returned tt, w'') /\
    trace w'' =
      (trace w' ++
       [CreateSocket 5; Bind 5 (VNum 9987) (VStr "0.0.0.0");
        CreateServer 6; Listen 6 (VNum 10011) (VStr "0.0.0.0");
        Log Info "Started 2 proxies"])%list /\
    (0%nat ∈ open w'') /\ (5%nat ∈ open w'').
Proof.
  eexists _, _. split; [vm_compute; reflexivity|].
  split; [vm_compute; reflexivity|]. split; [reflexivity|].
  split; [apply (bool_decide_unpack _); vm_compute; exact I|].
  split; [vm_compute; reflexivity|]. split; [vm_compute; reflexivity|].
  split; apply (bool_decide_unpack _); vm_compute; exact I.
Qed.

(** C3, at a running UDP route.  [updateRoute] reports success and the table
    holds the new forward target, but stopping the old listener throws
    before the entry is filtered out, so the old listener stays in the
    active set with its socket open, the start of the new one is refused as
    an address collision, and the next datagram is still forwarded to the
    old target. *)
Theorem updateRoute_keeps_old_udp_listener :
  exists w' w'',
    updateRoute obliging (VStr "voice") voice_moved running =
      (Returned (mkResult true "Route voice updated successfully"), w') /\
    routes w' !! 0%nat = Some (with_name voice_moved (VStr "voice")) /\
    activeServers w' = activeServers running /\
    open w' = open running /\
    trace w' =
      (trace running ++
       [WriteConfig [with_name voice_moved (VStr "voice"); query];
        Log Info "Config saved to proxy-config.json";
        Log Error
          "Failed to stop server for route voice: activeServer.server.close is not a function";
        Log Warn "UDP proxy for undefined cannot start: Address already in use"])%list /\
    udpServer_on_message obliging 0 "ping" caller w' = (Returned tt, w'') /\
    last (trace w'') = Some (Send 2 "ping" (VNum 9987) (VStr "10.0.0.1")).
Proof.
  eexists _, _. split; [vm_compute; reflexivity|].
  repeat split; vm_compute; reflexivity.
Qed.

(** C4, at a running UDP listener.  Its ['error'] handler logs the error and
    closes the socket, but filters the active set by comparing each entry's
    [server] with the socket, and the entry holds the object
    [{ server, clients }]: nothing is removed, and [voice] stays listed as
    active with a closed socket.  The handler of the TCP listener removes
    its entry. *)
Theorem udpServer_error_keeps_entry :
  exists w' w'',
    udpServer_on_error 0 "bind EADDRINUSE 0.0.0.0:9987" running = (Returned tt, w') /\
    trace w' =
      (trace running ++
       [Log Error "[voice] UDP server error: bind EADDRINUSE 0.0.0.0:9987";
        CloseSocket 0])%list /\
    activeServers w' = activeServers running /\
    is_active (VStr "voice") w' = true /\
    (0%nat ∉ open w') /\
    tcpServer_on_error 1 "listen EADDRINUSE: address already in use" running =
      (Returned tt, w'') /\
    map a_name (activeServers w'') = [VStr "voice"].
Proof.
  eexists _, _. split; [vm_compute; reflexivity|].
  split; [vm_compute; reflexivity|]. split; [reflexivity|]. split; [reflexivity|].
  split; [|split; vm_compute; reflexivity].
  apply (bool_decide_unpack (0%nat ∉ _)). vm_compute. exact I.
Qed.

(** ** Address collisions and the pass *)

(** C5 at [mirror], which asks for the address that [query] holds. *)
Lemma address_in_use_is_refused_witness :
  (In (mkActive (VStr "query") (VStr "tcp") (listen query) (forward query) (NetServer 1))
      (activeServers running) /\
   collides mirror
     (mkActive (VStr "query") (VStr "tcp") (listen query) (forward query) (NetServer 1))
   = true /\
   exists msg,
     startProxy obliging mirror running =
       (Returned None, set_trace (trace running ++ [Log Warn msg]) running)) /\
  (Forall tcp_or_udp (activeServers (boot [query; mirror; voice])) /\
   exists w', startAllProxies obliging (boot [query; mirror; voice]) = (Returned tt, w') /\
              one_per_address (activeServers w')).
Proof.
  destruct (address_in_use_is_refused obliging) as [Hrefused Hone].
  split.
  - assert (In (mkActive (VStr "query") (VStr "tcp") (listen query) (forward query)
                         (NetServer 1)) (activeServers running)) as Hin
      by (vm_compute; right; left; reflexivity).
    split; [exact Hin|]. split; [reflexivity|].
    destruct (Hrefused mirror running _ Hin) as (msg & E & _).
    + left. reflexivity.
    + reflexivity.
    + exists msg. exact E.
  - assert (Forall tcp_or_udp (activeServers (boot [query; mirror; voice]))) as Hnone
      by (simpl; constructor).
    split; [exact Hnone|]. exact (Hone _ Hnone).
Defined.

(** C6, at a running UDP listener.  [startAllProxies] calls
    [stopAllProxies] first, and the server of [query] is closed; but the
    listening socket 0 of [voice] is not: the entry of [voice] holds the
    object that [startUdpProxy] returned, which has no [close], so the call
    throws and the error is logged.  The pass that follows creates socket 2
    and binds it to the address that socket 0 still holds: [voice] is
    listed as running on socket 2 while socket 0 is open as well. *)
Theorem startAllProxies_starts_over_open_udp_listener :
  exists w',
    startAllProxies obliging running = (Returned tt, w') /\
    trace w' =
      (trace running ++
       [Log Error "Failed to stop UDP proxy voice: server.server.close is not a function";
        CloseServer 1; Log Info "Stopped TCP proxy query";
        CreateSocket 2; Bind 2 (VNum 9987) (VStr "0.0.0.0");
        CreateServer 3; Listen 3 (VNum 10011) (VStr "0.0.0.0");
        Log Info "Started 2 proxies"])%list /\
    map a_server (activeServers w') = [UdpProxy 2; NetServer 3] /\
    (0%nat ∈ open w') /\ (2%nat ∈ open w') /\ (1%nat ∉ open w').
Proof.
  eexists. split; [vm_compute; reflexivity|].
  split; [vm_compute; reflexivity|]. split; [vm_compute; reflexivity|].
  split; [apply (bool_decide_unpack _); vm_compute; exact I|].
  split; [apply (bool_decide_unpack _); vm_compute; exact I|].
  apply (bool_decide_unpack (1%nat ∉ _)). vm_compute. exact I.
Qed.

(** ** The route manager *)

(** C7 at a name that the table does not have. *)
Lemma unknown_name_is_rejected_witness :
  (forall r, In r (routes running) -> strict_eq (name r) (VStr "ghost") = false) /\
  removeRoute obliging (VStr "ghost") running =
    (Returned (mkResult false "Route ghost not found"), running) /\
  updateRoute obliging (VStr "ghost") voice_moved running =
    (Returned (mkResult false "Route ghost not found"), running) /\
  toggleRoute obliging (VStr "ghost") running =
    (Returned (mkResult false "Route ghost not found"), running).
Proof.
  assert (forall r, In r (routes running) -> strict_eq (name r) (VStr "ghost") = false)
    as Hnone.
  { intros r Hr. vm_compute in Hr. destruct Hr as [<-|[<-|[]]]; reflexivity. }
  split; [exact Hnone|].
  exact (unknown_name_is_rejected obliging (VStr "ghost") voice_moved running Hnone).
Defined.

(** C8, as stated, fails for an enabled route that is not running: the first
    toggle disables it, the second enables it and starts it, so after two
    toggles the name has an active listener that it did not have before. *)
Lemma toggle_twice_starts_stranded_route :
  routes stranded = [mirror] /\
  is_active (VStr "mirror") stranded = false /\
  exists r1 w1 r2 w2,
    toggleRoute obliging (VStr "mirror") stranded = (Returned r1, w1) /\
    toggleRoute obliging (VStr "mirror") w1 = (Returned r2, w2) /\
    routes w2 = [mirror] /\
    is_active (VStr "mirror") w2 = true /\
    is_active (VStr "mirror") w2 <> is_active (VStr "mirror") stranded.
Proof.
  split; [vm_compute; reflexivity|]. split; [vm_compute; reflexivity|].
  eexists _, _, _, _. split; [vm_compute; reflexivity|].
  split; [vm_compute; reflexivity|]. split; [vm_compute; reflexivity|].
  split; [vm_compute; reflexivity|]. vm_compute. discriminate.
Qed.

(** C8 (as amended) at the running TCP route [query]. *)
Lemma toggle_twice_witness :
  findIndex (VStr "query") (routes running) = Some 1%nat /\
  routes running !! 1%nat = Some query /\
  enabled query = VBool true /\
  exists r1 w1 r2 w2,
    toggleRoute obliging (VStr "query") running = (Returned r1, w1) /\
    toggleRoute obliging (VStr "query") w1 = (Returned r2, w2) /\
    routes w2 = routes running /\
    is_active (VStr "query") w2 = is_active (VStr "query") running.
Proof.
  assert (findIndex (VStr "query") (routes running) = Some 1%nat) as Hi
    by (rewrite running_routes; reflexivity).
  assert (routes running !! 1%nat = Some query) as Hr
    by (rewrite running_routes; reflexivity).
  split; [exact Hi|]. split; [exact Hr|]. split; [reflexivity|].
  destruct (toggle_twice obliging (VStr "query") running 1 query true Hi Hr eq_refl)
    as (r1 & w1 & r2 & w2 & E1 & _ & E2 & _ & Hroutes & Hactive).
  exists r1, w1, r2, w2. split; [exact E1|]. split; [exact E2|]. split; [exact Hroutes|].
  apply Hactive.
  - reflexivity.
  - intros a Ha Hn. rewrite running_entries in Ha. destruct Ha as [<-|[<-|[]]].
    + discriminate Hn.
    + exists 1%nat. reflexivity.
  - unfold is_active. rewrite running_entries. reflexivity.
  - intros _. split; [reflexivity|]. split; [reflexivity|].
    intros a Ha Hn. rewrite running_entries in Ha. destruct Ha as [<-|[<-|[]]].
    + reflexivity.
    + discriminate Hn.
Defined.

(** C9 at the route [relay]. *)
Lemma other_protocol_is_skipped_witness :
  other_protocol relay /\
  (exists w',
      addRoute obliging relay running =
        (Returned (mkResult true "Route relay added successfully"), w') /\
      activeServers w' = activeServers running /\ quiet running w') /\
  (exists w',
      updateRoute obliging (VStr "query") relay running =
        (Returned (mkResult true "Route query updated successfully"), w') /\
      quiet running w') /\
  (exists result w',
      toggleRoute obliging (VStr "relay") (boot [voice; relay]) = (Returned result, w') /\
      success result = true /\ quiet (boot [voice; relay]) w') /\
  (exists w',
      startAllProxies obliging (boot [voice; relay]) = (Returned tt, w') /\
      forall a, In a (activeServers w') -> a_protocol a <> VStr "sctp").
Proof.
  assert (other_protocol relay) as Hother by (split; reflexivity).
  split; [exact Hother|].
  destruct (other_protocol_is_skipped obliging relay running Hother)
    as (_ & Hadd & Hupdate & _ & _).
  destruct (other_protocol_is_skipped obliging relay (boot [voice; relay]) Hother)
    as (_ & _ & _ & Htoggle & Hstart).
  split; [|split; [|split]].
  - destruct Hadd as (w' & E & _ & Ha & Hq).
    + intros r Hr. vm_compute in Hr. destruct Hr as [<-|[<-|[]]]; reflexivity.
    + exists w'. split; [exact E|]. split; [exact Ha | exact Hq].
  - destruct (Hupdate (VStr "query") 1%nat) as (w' & E & _ & _ & Hq).
    + vm_compute. reflexivity.
    + exists w'. split; [exact E | exact Hq].
  - destruct (Htoggle (VStr "relay") 1%nat) as (result & w' & E & Hs & _ & Hq).
    + reflexivity.
    + reflexivity.
    + exists result, w'. split; [exact E|]. split; [exact Hs | exact Hq].
  - destruct Hstart as (w' & E & Hnone).
    + right. left. reflexivity.
    + simpl. constructor.
    + exists w'. split; [exact E | exact Hnone].
Defined.

(** ** The control-plane boundary *)

Example parse_int_examples :
  parse_int (VStr "9987") = VNum 9987 /\ parse_int (VStr " 42px") = VNum 42 /\
  parse_int (VStr "0x1F") = VNum 31 /\ parse_int (VStr "-7") = VNum (-7) /\
  parse_int (VStr "port") = VNaN /\ parse_int VUndefined = VNaN.
Proof. repeat split. Qed.

(** C10 at a request without [listen.host] and [enabled], and at one that disables. *)
Lemma api_defaults_witness :
  (exists result w',
      api_add_route obliging parse_int bare_request (boot []) =
        (Returned (mkResponse 201 result), w') /\
      routes w' = [voice]) /\
  (exists result w',
      api_update_route obliging parse_int "query" disabling_request running =
        (Returned (mkResponse 200 result), w') /\
      routes w' !! 1%nat =
        Some (mkRoute (VStr "query") (VStr "tcp") (endpoint "0.0.0.0" 10011)
                      (endpoint "10.0.0.5" 10011) (VBool false))).
Proof.
  split.
  - destruct (api_defaults obliging parse_int bare_request (boot [])) as [Hadd _].
    destruct Hadd as (rc & _ & _ & Hstored); try reflexivity.
    destruct Hstored as (result & w' & E & Hr); [intros r []|].
    exists result, w'. split; [exact E|].
    vm_compute in E. injection E as _ <-. vm_compute. reflexivity.
  - destruct (api_defaults obliging parse_int disabling_request running) as [_ Hupdate].
    destruct (Hupdate "query") as (rc & _ & _ & Hstored); try reflexivity.
    destruct (Hstored 1%nat) as (result & w' & E & Hr); [vm_compute; reflexivity|].
    exists result, w'. split; [exact E|].
    vm_compute in E. injection E as _ <-. vm_compute. reflexivity.
Defined.

(** ** More on the route manager *)

(** X1 at [running]: [query] cannot be added twice. *)
Lemma addRoute_rejects_duplicate_witness :
  In query (routes running) /\
  strict_eq (name query) (name query) = true /\
  addRoute obliging query running =
    (Returned (mkResult false "Route with name query already exists"), running).
Proof.
  assert (In query (routes running)) as Hin
    by (rewrite running_routes; right; left; reflexivity).
  split; [exact Hin|]. split; [reflexivity|].
  exact (addRoute_rejects_duplicate obliging query query running Hin eq_refl).
Defined.

(** X3 at [running]: the names stay distinct when [mirror] is added. *)
Lemma route_names_stay_distinct_witness :
  distinct_names (routes running) /\
  distinct_names (routes (after (addRoute obliging mirror) running)).
Proof.
  split; [exact running_distinct_names|].
  destruct (route_names_stay_distinct obliging running running_distinct_names) as [Hadd _].
  exact (Hadd mirror).
Defined.


(** X5 at [running]: [query] is removed, [voice] stays. *)
Lemma removeRoute_forgets_name_witness :
  findIndex (VStr "query") (routes running) = Some 1%nat /\
  distinct_names (routes running) /\
  exists w',
    removeRoute obliging (VStr "query") running =
      (Returned (mkResult true "Route query removed successfully"), w') /\
    findIndex (VStr "query") (routes w') = None /\
    In voice (routes w').
Proof.
  assert (findIndex (VStr "query") (routes running) = Some 1%nat) as Hi
    by (rewrite running_routes; reflexivity).
  split; [exact Hi|]. split; [exact running_distinct_names|].
  destruct (removeRoute_forgets_name obliging (VStr "query") running 1 Hi
              running_distinct_names) as (w' & E & Hgone & Hkept).
  exists w'. split; [exact E|]. split; [exact Hgone|].
  apply Hkept; [rewrite running_routes; left; reflexivity | reflexivity].
Defined.

(** X6 on a full disk: [query] is added all the same. *)
Lemma addRoute_survives_failed_save_witness :
  write_error full_disk (routes (boot [voice]) ++ [query]) =
    Some "ENOSPC: no space left on device" /\
  (forall r, In r (routes (boot [voice])) -> strict_eq (name r) (name query) = false) /\
  exists w',
    addRoute full_disk query (boot [voice]) =
      (Returned (mkResult true "Route query added successfully"), w') /\
    routes w' = [voice; query] /\
    In (Log Error "Failed to save config: ENOSPC: no space left on device") (trace w').
Proof.
  assert (forall r, In r (routes (boot [voice])) -> strict_eq (name r) (name query) = false)
    as Hnew.
  { intros r Hr. destruct Hr as [<-|[]]. reflexivity. }
  split; [reflexivity|]. split; [exact Hnew|].
  destruct (addRoute_survives_failed_save full_disk query (boot [voice])
              "ENOSPC: no space left on device" eq_refl Hnew) as (w' & E & Hr & Hlog & _).
  exists w'. split; [exact E|]. split; [exact Hr | exact Hlog].
Defined.

(** ** Starting and replacing listeners *)

(** X7 at [running]: the TCP route [control] is started on the host and
    port that the UDP route [voice] listens on. *)
Lemma free_address_is_started_witness :
  accepted obliging control /\
  (forall a, In a (activeServers running) -> collides control a = false) /\
  exists h w',
    startProxy obliging control running = (Returned (Some h), w') /\
    trace w' =
      (trace running ++ [CreateServer 2; Listen 2 (VNum 9987) (VStr "0.0.0.0")])%list.
Proof.
  assert (accepted obliging control) as Hacc by (left; split; reflexivity).
  assert (forall a, In a (activeServers running) -> collides control a = false) as Hfree.
  { intros a Ha. rewrite running_entries in Ha. destruct Ha as [<-|[<-|[]]]; reflexivity. }
  split; [exact Hacc|]. split; [exact Hfree|].
  destruct (free_address_is_started obliging control running Hacc Hfree)
    as (h & w' & E & _ & Htr & _).
  exists h, w'. split; [exact E|]. rewrite running_next_id in Htr. exact Htr.
Defined.

(** X8 at [running]: [query] is given another forward target. *)
Lemma updateRoute_replaces_tcp_listener_witness :
  findIndex (VStr "query") (routes running) = Some 1%nat /\
  find_active (VStr "query") running = Some query_entry /\
  exists w' saved,
    updateRoute obliging (VStr "query") query_moved running =
      (Returned (mkResult true "Route query updated successfully"), w') /\
    trace w' =
      (trace running ++ saved ++
       [CloseServer 1; CreateServer 2; Listen 2 (VNum 10011) (VStr "0.0.0.0")])%list /\
    activeServers w' =
      [voice_entry;
       mkActive (VStr "query") (VStr "tcp") (listen query_moved) (forward query_moved)
                (NetServer 2)].
Proof.
  assert (findIndex (VStr "query") (routes running) = Some 1%nat) as Hi
    by (rewrite running_routes; reflexivity).
  assert (find_active (VStr "query") running = Some query_entry) as Hf
    by (unfold find_active; rewrite running_entries; reflexivity).
  split; [exact Hi|]. split; [exact Hf|].
  destruct (updateRoute_replaces_tcp_listener obliging (VStr "query") query_moved running
              1 query_entry 1 Hi Hf) as (w' & saved & E & _ & _ & Htr & Ha & _).
  - left. reflexivity.
  - reflexivity.
  - reflexivity.
  - reflexivity.
  - reflexivity.
  - intros b Hb Hn. rewrite running_entries in Hb. destruct Hb as [<-|[<-|[]]].
    + reflexivity.
    + discriminate Hn.
  - exists w', saved. split; [exact E|].
    rewrite running_next_id in Htr, Ha. rewrite running_entries in Ha.
    split; [exact Htr | exact Ha].
Defined.

(** X9 at the start of the process. *)
Lemma listing_after_startAll_witness :
  Forall tcp_or_udp (activeServers (boot [voice; query])) /\
  distinct_names (routes (boot [voice; query])) /\
  exists w' listing,
    startAllProxies obliging (boot [voice; query]) = (Returned tt, w') /\
    getAllRoutes w' = (Returned listing, w') /\
    map fst listing = [voice; query].
Proof.
  assert (Forall tcp_or_udp (activeServers (boot [voice; query]))) as Hnone
    by (simpl; constructor).
  assert (distinct_names (routes (boot [voice; query]))) as Hd.
  { intros i j a b Hi Hj Hne.
    destruct i as [|[|i]], j as [|[|j]]; try discriminate; try contradiction;
      injection Hi as <-; injection Hj as <-; reflexivity. }
  split; [exact Hnone|]. split; [exact Hd|].
  destruct (listing_after_startAll obliging (boot [voice; query]) Hnone Hd)
    as (w' & listing & E & El & Hl & _).
  exists w', listing. split; [exact E|]. split; [exact El | exact Hl].
Defined.

(** ** The session relay *)

Lemma voice_sendable : sendable obliging voice.
Proof. split; reflexivity. Qed.

Lemma adrift_unsendable : ~ sendable obliging adrift.
Proof. intros [H _]. discriminate H. Qed.

Lemma adrift_listener : objects adrift_running !! 0%nat = Some (UdpListener adrift []).
Proof. vm_compute. reflexivity. Qed.

Lemma adrift_next_id : next_id adrift_running = 1%nat.
Proof. vm_compute. reflexivity. Qed.

(** X10 at [running]: the first datagram of [caller] is forwarded; at
    [adrift_running], where the forward port is [NaN], it is not. *)
Lemma first_datagram_opens_session_witness :
  (objects running !! 0%nat = Some (UdpListener voice []) /\
   clients_get (clientKey_of caller) [] = None /\
   socket_error obliging (next_id running) = None /\
   0%nat <> next_id running /\
   sendable obliging voice /\
   exists w',
     udpServer_on_message obliging 0 "ping" caller running = (Returned tt, w') /\
     clients_of 0 w' = [(clientKey_of caller, mkSession 2 4)] /\
     timers w' !! 3%nat = None /\
     trace w' =
       (trace running ++ session_setup voice caller 2 30000 ++
        [Send 2 "ping" (VNum 9987) (VStr "10.0.0.1")])%list) /\
  (objects adrift_running !! 0%nat = Some (UdpListener adrift []) /\
   0%nat <> next_id adrift_running /\
   ~ sendable obliging adrift /\
   exists w',
     udpServer_on_message obliging 0 "ping" caller adrift_running = (Returned tt, w') /\
     clients_of 0 w' = [(clientKey_of caller, mkSession 1 3)] /\
     trace w' =
       (trace adrift_running ++ session_setup adrift caller 1 30000 ++
        [Log Error
           "[voice] UDP send error: Port should be > 0 and < 65536. Received type number (NaN)."])%list).
Proof.
  assert (0%nat <> next_id running) as Hne by (rewrite running_next_id; discriminate).
  assert (0%nat <> next_id adrift_running) as Hne' by (rewrite adrift_next_id; discriminate).
  split.
  - split; [exact running_listener|]. split; [reflexivity|]. split; [reflexivity|].
    split; [exact Hne|]. split; [exact voice_sendable|].
    destruct (first_datagram_opens_session obliging 0 "ping" caller running voice []
                running_listener eq_refl eq_refl Hne)
      as (w' & E & Hcs & _ & _ & _ & _ & Hold & Hsent & _).
    exists w'. split; [exact E|]. specialize (Hsent voice_sendable).
    rewrite running_next_id in Hcs, Hold, Hsent.
    split; [exact Hcs|]. split; [exact Hold | exact Hsent].
  - split; [exact adrift_listener|]. split; [exact Hne'|]. split; [exact adrift_unsendable|].
    destruct (first_datagram_opens_session obliging 0 "ping" caller adrift_running adrift []
                adrift_listener eq_refl eq_refl Hne')
      as (w' & E & Hcs & _ & _ & _ & _ & _ & _ & Hlost).
    exists w'. split; [exact E|]. specialize (Hlost adrift_unsendable).
    rewrite adrift_next_id in Hcs, Hlost.
    split; [exact Hcs | exact Hlost].
Defined.

(** X11 at [running], when no socket can be created. *)
Lemma failed_allocation_drops_datagram_witness :
  objects running !! 0%nat = Some (UdpListener voice []) /\
  socket_error exhausted (next_id running) = Some "socket EMFILE" /\
  exists w',
    udpServer_on_message exhausted 0 "ping" caller running = (Returned tt, w') /\
    objects w' = objects running /\ open w' = open running /\ timers w' = timers running.
Proof.
  split; [exact running_listener|]. split; [reflexivity|].
  destruct (failed_allocation_drops_datagram exhausted 0 "ping" caller running voice []
              "socket EMFILE" running_listener eq_refl eq_refl)
    as (w' & E & Ho & Hop & Ht & _).
  exists w'. split; [exact E|]. split; [exact Ho|]. split; [exact Hop | exact Ht].
Defined.

(** X12 at [in_session]: a second datagram of [caller] goes out through
    the socket of its session. *)
Lemma datagram_is_forwarded_witness :
  objects in_session !! 0%nat =
    Some (UdpListener voice [("192.0.2.7:50000", mkSession 2 4)]) /\
  clients_get (clientKey_of caller) [("192.0.2.7:50000", mkSession 2 4)] =
    Some (mkSession 2 4) /\
  exists w',
    udpServer_on_message obliging 0 "ping again" caller in_session = (Returned tt, w') /\
    trace w' =
      (trace in_session ++
       [ClearTimeout 4; SetTimeout 5 30000;
        Send 2 "ping again" (VNum 9987) (VStr "10.0.0.1")])%list.
Proof.
  assert (clients_get (clientKey_of caller) [("192.0.2.7:50000", mkSession 2 4)] =
            Some (mkSession 2 4)) as Hget by (rewrite caller_key; reflexivity).
  split; [exact in_session_listener|]. split; [exact Hget|].
  destruct (datagram_is_forwarded obliging 0 "ping again" caller in_session voice _ _
              in_session_listener Hget) as (w' & E & _ & _ & Hsent & _).
  exists w'. split; [exact E|]. rewrite (Hsent voice_sendable in_session_socket_open).
  rewrite in_session_next_id. f_equal.
Defined.

(** X14 at [in_session]: the timer 4 is dead after a second datagram. *)
Lemma cancelled_timer_never_fires_witness :
  objects in_session !! 0%nat =
    Some (UdpListener voice [("192.0.2.7:50000", mkSession 2 4)]) /\
  clients_get (clientKey_of caller) [("192.0.2.7:50000", mkSession 2 4)] =
    Some (mkSession 2 4) /\
  4%nat <> next_id in_session /\
  exists w',
    udpServer_on_message obliging 0 "ping again" caller in_session = (Returned tt, w') /\
    timeout_fires 4 (after (advance 30000) w') = (Returned tt, after (advance 30000) w').
Proof.
  assert (clients_get (clientKey_of caller) [("192.0.2.7:50000", mkSession 2 4)] =
            Some (mkSession 2 4)) as Hget by (rewrite caller_key; reflexivity).
  assert (4%nat <> next_id in_session) as Hne by (rewrite in_session_next_id; discriminate).
  split; [exact in_session_listener|]. split; [exact Hget|]. split; [exact Hne|].
  destruct (cancelled_timer_never_fires obliging 0 "ping again" caller in_session voice _ _
              30000 in_session_listener Hget Hne) as (w' & E & _ & _ & Hdead).
  exists w'. split; [exact E | exact Hdead].
Defined.

Lemma idle_timer : timers idle !! 4%nat = Some (mkTimer 30000 0 "192.0.2.7:50000" None).
Proof. vm_compute. reflexivity. Qed.

Lemma idle_due : (30000 <= now idle)%Z.
Proof. vm_compute. discriminate. Qed.

Lemma idle_listener :
  objects idle !! 0%nat = Some (UdpListener voice [("192.0.2.7:50000", mkSession 2 4)]).
Proof. vm_compute. reflexivity. Qed.

Lemma idle_socket_open : 2%nat ∈ open idle.
Proof. apply (bool_decide_eq_true_1 _). vm_compute. reflexivity. Qed.

Lemma idle_message :
  timed_out_message voice "192.0.2.7:50000" (udpTimeout idle) =
    "[voice] UDP client 192.0.2.7:50000 timed out after 30 seconds of inactivity".
Proof. vm_compute. reflexivity. Qed.

(** X15 at [idle]: the session of [caller] is evicted. *)
Lemma idle_session_is_evicted_witness :
  timers idle !! 4%nat = Some (mkTimer 30000 0 "192.0.2.7:50000" None) /\
  (30000 <= now idle)%Z /\
  objects idle !! 0%nat =
    Some (UdpListener voice [("192.0.2.7:50000", mkSession 2 4)]) /\
  2%nat ∈ open idle /\
  exists w',
    timeout_fires 4 idle = (Returned tt, w') /\
    clients_get "192.0.2.7:50000" (clients_of 0 w') = None /\
    trace w' =
      (trace idle ++
       [Log Info "[voice] UDP client 192.0.2.7:50000 timed out after 30 seconds of inactivity";
        CloseSocket 2])%list.
Proof.
  split; [exact idle_timer|]. split; [exact idle_due|]. split; [exact idle_listener|].
  split; [exact idle_socket_open|].
  destruct (idle_session_is_evicted 4 idle (mkTimer 30000 0 "192.0.2.7:50000" None) voice
              [("192.0.2.7:50000", mkSession 2 4)] (mkSession 2 4)
              idle_timer eq_refl idle_due idle_listener eq_refl idle_socket_open)
    as (w' & E & Hgone & _ & _ & _ & Htr).
  exists w'. split; [exact E|]. split; [exact Hgone|].
  rewrite Htr. cbn [t_key socket]. now rewrite idle_message.
Defined.

(** X16 at [running]: the answer to the first datagram of [caller] goes
    back to [caller]; the answer to a client on port 0 is not sent. *)
Lemma reply_returns_to_sender_witness :
  objects running !! 0%nat = Some (UdpListener voice []) /\
  0%nat <> next_id running /\
  0%nat ∈ open running /\
  (exists w1,
     udpServer_on_message obliging 0 "ping" caller running = (Returned tt, w1) /\
     clientSocket_on_message obliging 2 "pong" w1 =
       (Returned tt,
        set_trace (trace w1 ++ [Send 0 "pong" (VNum 50000) (VStr "192.0.2.7")]) w1)) /\
  (exists w1,
     udpServer_on_message obliging 0 "ping" portless running = (Returned tt, w1) /\
     clientSocket_on_message obliging 2 "pong" w1 =
       (Thrown "Port should be > 0 and < 65536. Received type number (0).", w1)).
Proof.
  assert (0%nat <> next_id running) as Hne by (rewrite running_next_id; discriminate).
  split; [exact running_listener|]. split; [exact Hne|]. split; [exact running_listener_open|].
  split.
  - destruct (reply_returns_to_sender obliging 0 "ping" "pong" caller running voice []
                running_listener eq_refl eq_refl Hne running_listener_open)
      as (w1 & E & Hreply & _).
    exists w1. split; [exact E|]. rewrite running_next_id in Hreply.
    apply Hreply. cbn. lia.
  - destruct (reply_returns_to_sender obliging 0 "ping" "pong" portless running voice []
                running_listener eq_refl eq_refl Hne running_listener_open)
      as (w1 & E & _ & Hthrown).
    exists w1. split; [exact E|]. rewrite running_next_id in Hthrown.
    apply Hthrown. cbn. lia.
Defined.

(** X17 at [in_session]: a datagram of [second_caller] leaves the session
    of [caller] and its timer alone. *)
Lemma sessions_are_independent_witness :
  objects in_session !! 0%nat =
    Some (UdpListener voice [("192.0.2.7:50000", mkSession 2 4)]) /\
  0%nat <> next_id in_session /\
  clients_get "192.0.2.7:50000"
    (clients_of 0 (after (udpServer_on_message obliging 0 "hello" second_caller) in_session)) =
    Some (mkSession 2 4) /\
  timers (after (udpServer_on_message obliging 0 "hello" second_caller) in_session) !! 4%nat =
    timers in_session !! 4%nat.
Proof.
  assert (0%nat <> next_id in_session) as Hne by (rewrite in_session_next_id; discriminate).
  split; [exact in_session_listener|]. split; [exact Hne|].
  destruct (sessions_are_independent obliging 0 "hello" second_caller in_session voice _
              in_session_listener Hne) as (Hkeys & _ & Htimers).
  split.
  - unfold after. rewrite Hkeys; [reflexivity|].
    rewrite second_caller_key. discriminate.
  - apply Htimers; [rewrite in_session_next_id; lia|].
    intros c Hc. rewrite second_caller_key in Hc. discriminate Hc.
Defined.

(** X18 at [in_session]: the socket of the session of [caller] fails. *)
Lemma session_socket_error_ends_session_witness :
  objects in_session !! 2%nat = Some (ClientSocket 0 caller "192.0.2.7:50000") /\
  objects in_session !! 0%nat =
    Some (UdpListener voice [("192.0.2.7:50000", mkSession 2 4)]) /\
  2%nat ∈ open in_session /\
  exists w',
    clientSocket_on_error 2 "ECONNREFUSED" in_session = (Returned tt, w') /\
    clients_get "192.0.2.7:50000" (clients_of 0 w') = None /\
    timers w' = timers in_session.
Proof.
  split; [exact in_session_socket|]. split; [exact in_session_listener|].
  split; [exact in_session_socket_open|].
  destruct (session_socket_error_ends_session 2 0 "ECONNREFUSED" in_session caller
              "192.0.2.7:50000" voice _ in_session_socket in_session_listener
              in_session_socket_open) as (w' & E & Hgone & _ & _ & Ht & _).
  exists w'. split; [exact E|]. split; [exact Hgone | exact Ht].
Defined.

(** ** Stopping listeners and sessions *)

(** X19 at [running]: the server of [query] is closed. *)
Lemma stopAllProxies_closes_tcp_servers_witness :
  well_formed running /\
  exists w',
    stopAllProxies running = (Returned tt, w') /\ activeServers w' = [] /\
    1%nat ∉ open w'.
Proof.
  split; [exact running_well_formed|].
  destruct (stopAllProxies_closes_tcp_servers running running_well_formed)
    as (w' & E & Ha & Hclosed & _).
  exists w'. split; [exact E|]. split; [exact Ha|].
  apply (Hclosed query_entry 1%nat); [|reflexivity..].
  rewrite running_entries. right. left. reflexivity.
Defined.

(** X20 at [in_session]: the turn of [voice] in [stopAllProxies]. *)
Lemma udp_stop_tears_sessions_down_witness :
  NoDup (map (fun e : string * Session => socket (snd e)) (clients_of 0 in_session)) /\
  (forall k s, In (k, s) (clients_of 0 in_session) -> socket s ∈ open in_session) /\
  exists w',
    stop_server voice_entry in_session = (Returned tt, w') /\
    trace w' =
      (trace in_session ++
       [ClearTimeout 4; CloseSocket 2;
        Log Error "Failed to stop UDP proxy voice: server.server.close is not a function"])%list /\
    (2%nat ∉ open w') /\ timers w' !! 4%nat = None.
Proof.
  assert (NoDup (map (fun e : string * Session => socket (snd e)) (clients_of 0 in_session)))
    as Hnd by (rewrite in_session_clients_of; apply NoDup_singleton).
  assert (forall k s, In (k, s) (clients_of 0 in_session) -> socket s ∈ open in_session)
    as Hopen.
  { intros k s Hin. rewrite in_session_clients_of in Hin. destruct Hin as [Heq|[]].
    injection Heq as <- <-. exact in_session_socket_open. }
  split; [exact Hnd|]. split; [exact Hopen|].
  destruct (udp_stop_tears_sessions_down voice_entry in_session 0 eq_refl eq_refl Hnd Hopen)
    as (w' & E & Htr & Hdown).
  exists w'. split; [exact E|]. split.
  - rewrite Htr, in_session_clients_of. reflexivity.
  - apply (Hdown "192.0.2.7:50000" (mkSession 2 4)).
    rewrite in_session_clients_of. left. reflexivity.
Defined.

(** X21 at [running]: the server of [query] reports an error. *)
Lemma tcpServer_error_removes_its_entry_witness :
  objects running !! 1%nat = Some (TcpListener query) /\
  activeServers running !! 1%nat = Some query_entry /\
  (forall j b, activeServers running !! j = Some b -> j <> 1%nat ->
               a_server b <> NetServer 1) /\
  exists w',
    tcpServer_on_error 1 "listen EADDRINUSE" running = (Returned tt, w') /\
    activeServers w' = [voice_entry].
Proof.
  assert (activeServers running !! 1%nat = Some query_entry) as Hi
    by (rewrite running_entries; reflexivity).
  assert (forall j b, activeServers running !! j = Some b -> j <> 1%nat ->
                      a_server b <> NetServer 1) as Hrest.
  { intros j b Hj Hne. rewrite running_entries in Hj. destruct j as [|[|j]].
    - injection Hj as <-. discriminate.
    - contradiction.
    - discriminate Hj. }
  split; [exact running_server|]. split; [exact Hi|]. split; [exact Hrest|].
  destruct (tcpServer_error_removes_its_entry 1 "listen EADDRINUSE" running query 1
              query_entry running_server Hi eq_refl Hrest) as (w' & E & Ha & _).
  exists w'. split; [exact E|]. rewrite Ha, running_entries. reflexivity.
Defined.

Lemma crowded_entries :
  activeServers crowded =
    [mkActive (VStr "query") (VStr "tcp") (listen query) (forward query) (NetServer 0);
     mkActive (VStr "voice") (VStr "udp") (listen voice) (forward voice) (UdpProxy 1)].
Proof. vm_compute. reflexivity. Qed.

Lemma crowded_routes : routes crowded = [query; mirror; voice].
Proof. vm_compute. reflexivity. Qed.

Lemma crowded_objects :
  map_to_list (objects crowded) =
    [(1%nat, UdpListener voice []); (0%nat, TcpListener query)].
Proof. vm_compute. reflexivity. Qed.

Lemma crowded_listener_open : 1%nat ∈ open crowded.
Proof. apply (bool_decide_eq_true_1 _). vm_compute. reflexivity. Qed.

Lemma crowded_spares_voice : spared (activeServers crowded) crowded 1.
Proof.
  split.
  - rewrite crowded_entries. intros a [<-|[<-|[]]]; split; discriminate.
  - intros u k s. unfold clients_of.
    destruct (objects crowded !! u) as [o|] eqn:E; [|intros []].
    apply elem_of_map_to_list in E. rewrite crowded_objects in E.
    apply elem_of_cons in E as [E|E]; [injection E as -> ->; intros []|].
    apply elem_of_cons in E as [E|E]; [injection E as -> ->; intros []|].
    now apply elem_of_nil in E.
Qed.

(** X28 at [crowded], where [query] and [voice] are running and [mirror]
    asks for the address of [query]: the stop closes the server 0 of
    [query] and leaves the listening socket 1 of [voice] open; in the pass
    [mirror] fails behind [query], and [voice], after them, is started. *)
Lemma startAllProxies_stops_then_passes_witness :
  Forall tcp_or_udp (activeServers crowded) /\
  accepted obliging voice /\
  spared (activeServers crowded) crowded 1 /\
  exists w0 w1,
    stopAllProxies crowded = (Returned tt, w0) /\
    (0%nat ∉ open w0) /\
    (1%nat ∈ open w0) /\
    start_routes obliging [query; mirror; voice] w0 = (Returned tt, w1) /\
    exists a, In a (activeServers w1) /\ runs voice a.
Proof.
  assert (Forall tcp_or_udp (activeServers crowded)) as Hw.
  { rewrite crowded_entries.
    constructor; [|constructor; [|constructor]]; [left | right]; reflexivity. }
  assert (accepted obliging voice) as Hacc.
  { right. split; [reflexivity|]. split; [intros n|]; reflexivity. }
  split; [exact Hw|]. split; [exact Hacc|]. split; [exact crowded_spares_voice|].
  destruct (startAllProxies_stops_then_passes obliging crowded Hw)
    as (w0 & w1 & E0 & _ & _ & Hclosed & _ & Hkept & E1 & _ & _ & _ & Hisolated).
  exists w0, w1. split; [exact E0|]. split.
  { apply (Hclosed (mkActive (VStr "query") (VStr "tcp") (listen query) (forward query)
                             (NetServer 0)) 0%nat); [|reflexivity..].
    rewrite crowded_entries. left. reflexivity. }
  split; [exact (Hkept 1%nat crowded_listener_open crowded_spares_voice)|].
  rewrite crowded_routes in E1. split; [exact E1|].
  apply (Hisolated [query; mirror] voice []);
    [exact crowded_routes | reflexivity | exact Hacc |].
  intros r [<-|[<-|[]]] _; reflexivity.
Defined.

(** ** The control-plane API *)

(** X22 at [running]: DELETE /routes/query and POST /routes/query/toggle. *)
Lemma api_addresses_route_by_name_witness :
  slash_free "query" = true /\
  (exists result w',
     removeRoute obliging (VStr "query") running = (Returned result, w') /\
     handleApiRequest obliging parse_int "DELETE" "/routes/query" (JObject bare_request)
       running =
       (Returned (mkReply (if success result then 200 else 404) (BResult result)), w')) /\
  (exists result w',
     toggleRoute obliging (VStr "query") running = (Returned result, w') /\
     handleApiRequest obliging parse_int "POST" "/routes/query/toggle" JNull running =
       (Returned (mkReply (if success result then 200 else 404) (BResult result)), w')).
Proof.
  split; [reflexivity|].
  split.
  - destruct (api_addresses_route_by_name obliging parse_int "query" "now"
                (JObject bare_request) running eq_refl) as [(r1 & w1 & E1 & H1 & _) _].
    exists r1, w1. split; [exact E1 | exact H1].
  - destruct (api_addresses_route_by_name obliging parse_int "query" "now" JNull
                running eq_refl) as [_ (r2 & w2 & E2 & H2)].
    exists r2, w2. split; [exact E2 | exact H2].
Defined.

Lemma running_objects :
  map_to_list (objects running) =
    [(1%nat, TcpListener query); (0%nat, UdpListener voice [])].
Proof. vm_compute. reflexivity. Qed.

Lemma running_spares_voice : spared (activeServers running) running 0.
Proof.
  split.
  - rewrite running_entries. intros a [<-|[<-|[]]]; split; discriminate.
  - intros u k s. unfold clients_of.
    destruct (objects running !! u) as [o|] eqn:E; [|intros []].
    apply elem_of_map_to_list in E. rewrite running_objects in E.
    apply elem_of_cons in E as [E|E]; [injection E as -> ->; intros []|].
    apply elem_of_cons in E as [E|E]; [injection E as -> ->; intros []|].
    now apply elem_of_nil in E.
Qed.

(** X24 at [running]: the stop closes the server 1 of [query] and leaves the
    listening socket 0 of [voice] open. *)
Lemma restart_request_witness :
  Forall tcp_or_udp (activeServers running) /\
  spared (activeServers running) running 0 /\
  exists w0 w',
    stopAllProxies running = (Returned tt, w0) /\
    (1%nat ∉ open w0) /\
    (0%nat ∈ open w0) /\
    handleApiRequest obliging parse_int "POST" "/restart" JOther running =
      (Returned (mkReply 200 (BResult (mkResult true "All proxies restarted"))), w') /\
    routes w' = [voice; query] /\
    one_per_address (activeServers w').
Proof.
  split; [exact running_tcp_or_udp|]. split; [exact running_spares_voice|].
  destruct (restart_request obliging parse_int JOther running running_tcp_or_udp)
    as (w0 & w' & E0 & _ & Hclosed & _ & Hkept & _ & E & Hr & _ & Hone).
  exists w0, w'. split; [exact E0|]. split.
  { apply (Hclosed query_entry 1%nat); [|reflexivity..].
    rewrite running_entries. right. left. reflexivity. }
  split; [exact (Hkept 0%nat running_listener_open running_spares_voice)|].
  split; [exact E|]. rewrite running_routes in Hr. split; [exact Hr | exact Hone].
Defined.

(** X25 at [running]: a body without [listen] and [forward], and the body
    [null]. *)
Lemma incomplete_request_is_refused_witness :
  read_as (JObject partial_request) partial_request /\
  complete partial_request = false /\
  complete_update partial_request = false /\
  handleApiRequest obliging parse_int "POST" "/routes" (JObject partial_request) running =
    (Returned (mkReply 400 (BResult (mkResult false "Missing required fields"))), running) /\
  handleApiRequest obliging parse_int "PUT" "/routes/voice" (JObject partial_request)
    running =
    (Returned (mkReply 400 (BResult (mkResult false "Missing required fields"))), running) /\
  handleApiRequest obliging parse_int "POST" "/routes" JNull running =
    (Returned (mkReply 500 (BResult (mkResult false "Internal server error"))),
     set_trace (trace running ++
                [Log Error "API error: Cannot read properties of null (reading 'name')"])
               running).
Proof.
  split; [reflexivity|]. split; [reflexivity|]. split; [reflexivity|].
  destruct (incomplete_request_is_refused obliging parse_int "voice"
              (JObject partial_request) partial_request running eq_refl eq_refl)
    as (Hpost & Hput & Hnull & _).
  split; [exact Hpost|]. split; [exact (Hput eq_refl) | exact Hnull].
Defined.


(** ** The filter of [log] *)

(** X27: from warnings up, errors are printed as well. *)
Lemma log_filter_is_monotone_witness :
  (rank Warn <= rank Error)%Z /\
  log_prints warnings_up Warn = true /\
  log_prints warnings_up Error = true.
Proof.
  assert (rank Warn <= rank Error)%Z as Hle by (cbn; lia).
  split; [exact Hle|]. split; [reflexivity|].
  destruct (log_filter_is_monotone warnings_up Warn Error Hle eq_refl) as [H _]. exact H.
Defined.
